(** * tsslint-rules-sample: a shallow embedding of the rule modules

    The rules walk a type-checked TypeScript syntax tree, query the type
    checker and report diagnostics that carry text edits.  The embedding keeps
    the shape of the sources:

    - [TS]         the part of the compiler API the rules read (syntax kinds,
                   type flags, types, nodes, source files);
    - [tsutils]    the helpers of ts-api-utils the rules call;
    - [Reporting]  the reporter handed to a rule (diagnostics, fixes, thrown
                   errors);
    - [Utils]      rules/utils.ts;
    - one module per rule.

    Object identity ([===] on types and nodes) is identity of the [type_id] /
    [node_id] the compiler gives every type and node.  Offsets are [Z], as
    JavaScript numbers are; strings are sequences of 8-bit code units. *)

From Stdlib Require Import List ZArith String Ascii Bool Lia DecimalString.
Import ListNotations.
Open Scope string_scope.
Open Scope Z_scope.

Scheme All for list.
Scheme All for option.

(* ================================================================== *)
(** ** JavaScript strings *)

Module JsString.

(** [s.length] *)
Definition length (s : string) : Z := Z.of_nat (String.length s).

(** [s.slice(from, to)] for [0 <= from]; the rules only slice with
    offsets of the file. *)
Definition slice (s : string) (from to : Z) : string :=
  substring (Z.to_nat from) (Z.to_nat (to - from)) s.

(** [s.slice(from)] *)
Definition sliceFrom (s : string) (from : Z) : string :=
  substring (Z.to_nat from) (String.length s - Z.to_nat from) s.

(** [s.indexOf(needle)]: the offset of the first occurrence, [-1] when
    there is none. *)
Definition indexOf (s needle : string) : Z :=
  match String.index 0 needle s with
  | Some i => Z.of_nat i
  | None => -1
  end.

(** [s.split(sep)] for a separator of one code unit. *)
Fixpoint split_aux (sep : ascii) (s : string) (cur : string) : list string :=
  match s with
  | EmptyString => [cur]
  | String c rest =>
      if Ascii.eqb c sep
      then cur :: split_aux sep rest EmptyString
      else split_aux sep rest (cur ++ String c EmptyString)
  end.

Definition split (s : string) (sep : ascii) : list string :=
  split_aux sep s EmptyString.

(** [s.replaceAll(c, by)] for a pattern of one code unit. *)
Fixpoint replaceAll (s : string) (c : ascii) (by_ : string) : string :=
  match s with
  | EmptyString => EmptyString
  | String x rest =>
      (if Ascii.eqb x c then by_ else String x EmptyString)
        ++ replaceAll rest c by_
  end.

(** [s.repeat(n)] *)
Fixpoint repeat_nat (s : string) (n : nat) : string :=
  match n with
  | O => EmptyString
  | S k => s ++ repeat_nat s k
  end.

Definition repeat (s : string) (n : Z) : string := repeat_nat s (Z.to_nat n).

(** [parts.join(sep)] *)
Fixpoint join (parts : list string) (sep : string) : string :=
  match parts with
  | [] => EmptyString
  | [p] => p
  | p :: rest => p ++ sep ++ join rest sep
  end.

(** [s.charCodeAt(i)] as a code unit, when [i] is in range. *)
Definition charAt (s : string) (i : nat) : option ascii := String.get i s.

Definition newline : ascii := "010"%char.
Definition carriageReturn : ascii := "013"%char.
Definition quote : ascii := "'"%char.
Definition backslash : ascii := "\"%char.
Definition doubleQuote : string := String "034"%char EmptyString.

End JsString.

(* ================================================================== *)
(** ** The compiler API *)

Module TS.

(** [ts.SyntaxKind], the members the rules mention. *)
Inductive SyntaxKind : Set :=
| EndOfFileToken | SingleLineCommentTrivia | MultiLineCommentTrivia
| NumericLiteral | StringLiteral | TemplateHead
| OpenBraceToken | CloseBraceToken | OpenParenToken | CloseParenToken
| DotToken | QuestionDotToken
| LessThanToken | GreaterThanToken | LessThanEqualsToken
| GreaterThanEqualsToken | EqualsEqualsToken | ExclamationEqualsToken
| EqualsEqualsEqualsToken | ExclamationEqualsEqualsToken
| PlusToken | MinusToken | ExclamationToken
| AmpersandAmpersandToken | BarBarToken | QuestionToken | ColonToken
| QuestionQuestionToken | EqualsToken
| BarBarEqualsToken | AmpersandAmpersandEqualsToken
| QuestionQuestionEqualsToken
| Identifier
| ConstKeyword | FalseKeyword | NullKeyword | ThisKeyword | TrueKeyword
| AsKeyword | DeclareKeyword | NumberKeyword | StringKeyword
| UndefinedKeyword
| TypeReference
| PropertyAccessExpression | ElementAccessExpression | CallExpression
| TypeAssertionExpression | ParenthesizedExpression | FunctionExpression
| ArrowFunction | PrefixUnaryExpression | BinaryExpression
| ConditionalExpression | TemplateExpression | AsExpression
| NonNullExpression
| Block | VariableStatement | ExpressionStatement | IfStatement
| DoStatement | WhileStatement | ForStatement | ReturnStatement
| SwitchStatement | VariableDeclaration | VariableDeclarationList
| CaseBlock | CaseClause | DefaultClause
| SourceFile | SyntaxList.

Scheme Equality for SyntaxKind.

Definition kind_eqb : SyntaxKind -> SyntaxKind -> bool := SyntaxKind_beq.

(** [ts.TypeFlags] *)
Module TypeFlags.
Definition Any : Z := 1.
Definition Unknown : Z := 2.
Definition String : Z := 4.
Definition Number : Z := 8.
Definition Boolean : Z := 16.
Definition BigInt : Z := 64.
Definition StringLiteral : Z := 128.
Definition NumberLiteral : Z := 256.
Definition BooleanLiteral : Z := 512.
Definition EnumLiteral : Z := 1024.
Definition BigIntLiteral : Z := 2048.
Definition ESSymbol : Z := 4096.
Definition UniqueESSymbol : Z := 8192.
Definition Void : Z := 16384.
Definition Undefined : Z := 32768.
Definition Null : Z := 65536.
Definition Never : Z := 131072.
Definition TypeParameter : Z := 262144.
Definition Object : Z := 524288.
Definition Union : Z := 1048576.
Definition Intersection : Z := 2097152.
Definition IndexedAccess : Z := 8388608.
(** [StringLiteral | NumberLiteral | BigIntLiteral | BooleanLiteral] *)
Definition Literal : Z := 2944.
(** [ESSymbol | UniqueESSymbol] *)
Definition ESSymbolLike : Z := 12288.
(** [TypeParameter | IndexedAccess] *)
Definition TypeVariable : Z := 8650752.
Definition PossiblyFalsy : Z := 117724.
End TypeFlags.

(** [ts.NodeFlags] *)
Module NodeFlags.
Definition Const : Z := 2.
Definition OptionalChain : Z := 64.
End NodeFlags.

(** [ts.SymbolFlags] *)
Module SymbolFlags.
Definition Optional : Z := 16777216.
End SymbolFlags.

(** The [value] of a literal type: a string, a number or a pseudo big
    integer (an object).  Number literals are integers here. *)
Inductive LiteralValue : Type :=
| StringValue (s : string)
| NumberValue (n : Z)
| PseudoBigIntValue (negative : bool) (base10Value : string).

(** [!!value] *)
Definition truthyValue (v : LiteralValue) : bool :=
  match v with
  | StringValue s => negb (String.eqb s "")
  | NumberValue n => negb (n =? 0)
  | PseudoBigIntValue _ _ => true
  end.

(** [ts.Type]: an object of the checker.  [types] holds the constituents
    of a union or intersection, [symbolName] is
    [getSymbol()?.escapedName]. *)
Inductive TsType : Type := mkType {
  type_id : nat;
  flags : Z;
  types : list TsType;
  symbolName : option string;
  value : option LiteralValue;
  intrinsicName : string
}.

(** [a === b] on types. *)
Definition sameType (a b : TsType) : bool := Nat.eqb (type_id a) (type_id b).

(** [type.isUnion()] *)
Definition isUnion (t : TsType) : bool :=
  negb (Z.land (flags t) TypeFlags.Union =? 0).

(** [type.isLiteral()], [isStringLiteral()], [isNumberLiteral()] *)
Definition isLiteral (t : TsType) : bool :=
  negb (Z.land (flags t)
          (Z.lor TypeFlags.StringLiteral
             (Z.lor TypeFlags.NumberLiteral TypeFlags.BigIntLiteral)) =? 0).
Definition isStringLiteral (t : TsType) : bool :=
  negb (Z.land (flags t) TypeFlags.StringLiteral =? 0).
Definition isNumberLiteral (t : TsType) : bool :=
  negb (Z.land (flags t) TypeFlags.NumberLiteral =? 0).

(** [new Set(ts).has(t)] *)
Definition Set_has (s : list TsType) (t : TsType) : bool :=
  existsb (sameType t) s.

(** What every node carries: its identity, [getFullStart()],
    [getStart(sourceFile)], [getEnd()] and [flags]. *)
Record NodeInfo : Type := {
  node_id : nat;
  pos : Z;
  start : Z;
  end_ : Z;
  nodeFlags : Z
}.

(** The properties of a node, by kind, in the order [forEachChild] visits
    them.  Properties no rule reads are gathered in lists. *)
Inductive Shape (N : Type) : Type :=
| SToken (k : SyntaxKind)
| SIdentifier (escapedText : string)
| SStringLiteral
| SBinaryExpression (left operatorToken right : N)
| SConditionalExpression (condition questionToken whenTrue colonToken
                            whenFalse : N)
| SPrefixUnaryExpression (operator : SyntaxKind) (operand : N)
| SNonNullExpression (expression : N)
| SAsExpression (expression type_ : N)
| STypeAssertion (type_ expression : N)
| SPropertyAccessExpression (expression : N) (questionDotToken : option N)
                            (name : N)
| SElementAccessExpression (expression : N) (questionDotToken : option N)
                           (argumentExpression : N)
| SCallExpression (expression : N) (questionDotToken : option N)
                  (typeArguments arguments : list N)
| SArrowFunction (signature : list N) (body : N)
| SFunctionExpression (signature : list N) (body : N)
| STemplateExpression (head : N) (templateSpans : list N)
| STypeReference (typeName : N) (typeArguments : list N)
| SBlock (statements : list N)
| SReturnStatement (expression : option N)
| SIfStatement (expression thenStatement : N) (elseStatement : option N)
| SDoStatement (statement expression : N)
| SWhileStatement (expression statement : N)
| SForStatement (initializer condition incrementor : option N)
                (statement : N)
| SSwitchStatement (expression caseBlock : N)
| SCaseBlock (clauses : list N)
| SCaseClause (expression : N) (statements : list N)
| SDefaultClause (statements : list N)
| SVariableStatement (modifiers : list N) (declarationList : N)
| SVariableDeclarationList (declarations : list N)
| SVariableDeclaration (name : N) (exclamationToken type_ initializer
                                    : option N)
| SOther (k : SyntaxKind) (children : list N).

Arguments SToken {N}.
Arguments SIdentifier {N}.
Arguments SStringLiteral {N}.
Arguments SBinaryExpression {N}.
Arguments SConditionalExpression {N}.
Arguments SPrefixUnaryExpression {N}.
Arguments SNonNullExpression {N}.
Arguments SAsExpression {N}.
Arguments STypeAssertion {N}.
Arguments SPropertyAccessExpression {N}.
Arguments SElementAccessExpression {N}.
Arguments SCallExpression {N}.
Arguments SArrowFunction {N}.
Arguments SFunctionExpression {N}.
Arguments STemplateExpression {N}.
Arguments STypeReference {N}.
Arguments SBlock {N}.
Arguments SReturnStatement {N}.
Arguments SIfStatement {N}.
Arguments SDoStatement {N}.
Arguments SWhileStatement {N}.
Arguments SForStatement {N}.
Arguments SSwitchStatement {N}.
Arguments SCaseBlock {N}.
Arguments SCaseClause {N}.
Arguments SDefaultClause {N}.
Arguments SVariableStatement {N}.
Arguments SVariableDeclarationList {N}.
Arguments SVariableDeclaration {N}.
Arguments SOther {N}.

Scheme All for Shape.

(** [ts.Node].  [getChildren] is what [node.getChildren(sourceFile)]
    returns: the properties together with the tokens between them. *)
Inductive Node : Type := mkNode {
  info : NodeInfo;
  getChildren : list Node;
  shape : Shape Node
}.

Definition kind (n : Node) : SyntaxKind :=
  match shape n with
  | SToken k => k
  | SIdentifier _ => Identifier
  | SStringLiteral => StringLiteral
  | SBinaryExpression _ _ _ => BinaryExpression
  | SConditionalExpression _ _ _ _ _ => ConditionalExpression
  | SPrefixUnaryExpression _ _ => PrefixUnaryExpression
  | SNonNullExpression _ => NonNullExpression
  | SAsExpression _ _ => AsExpression
  | STypeAssertion _ _ => TypeAssertionExpression
  | SPropertyAccessExpression _ _ _ => PropertyAccessExpression
  | SElementAccessExpression _ _ _ => ElementAccessExpression
  | SCallExpression _ _ _ _ => CallExpression
  | SArrowFunction _ _ => ArrowFunction
  | SFunctionExpression _ _ => FunctionExpression
  | STemplateExpression _ _ => TemplateExpression
  | STypeReference _ _ => TypeReference
  | SBlock _ => Block
  | SReturnStatement _ => ReturnStatement
  | SIfStatement _ _ _ => IfStatement
  | SDoStatement _ _ => DoStatement
  | SWhileStatement _ _ => WhileStatement
  | SForStatement _ _ _ _ => ForStatement
  | SSwitchStatement _ _ => SwitchStatement
  | SCaseBlock _ => CaseBlock
  | SCaseClause _ _ => CaseClause
  | SDefaultClause _ => DefaultClause
  | SVariableStatement _ _ => VariableStatement
  | SVariableDeclarationList _ => VariableDeclarationList
  | SVariableDeclaration _ _ _ _ => VariableDeclaration
  | SOther k _ => k
  end.

(** [a === b] on nodes. *)
Definition sameNode (a b : Node) : bool :=
  Nat.eqb (node_id (info a)) (node_id (info b)).

Definition getFullStart (n : Node) : Z := pos (info n).
Definition getStart (n : Node) : Z := start (info n).
Definition getEnd (n : Node) : Z := end_ (info n).
Definition getWidth (n : Node) : Z := getEnd n - getStart n.
Definition getChildCount (n : Node) : Z := Z.of_nat (List.length (getChildren n)).

(** [children.indexOf(node)]: the first index holding this very node,
    [-1] when there is none. *)
Fixpoint indexOf_from (children : list Node) (node : Node) (i : Z) : Z :=
  match children with
  | [] => -1
  | c :: rest => if sameNode c node then i else indexOf_from rest node (i + 1)
  end.

Definition indexOf (children : list Node) (node : Node) : Z :=
  indexOf_from children node 0.

(** [ts.CommentRange] *)
Record CommentRange : Type := {
  comment_kind : SyntaxKind;
  comment_pos : Z;
  comment_end : Z
}.

(** [ts.SourceFile]: the text, the name and the root node. *)
Record SourceFileData : Type := {
  text : string;
  fileName : string;
  root : Node
}.

(** [node.getText(sourceFile)] *)
Definition getText (sf : SourceFileData) (n : Node) : string :=
  JsString.slice (text sf) (getStart n) (getEnd n).

(** [ts.CompilerOptions], as the rules read them through
    [tsutils.isStrictCompilerOptionEnabled] and
    [tsutils.isCompilerOptionEnabled]. *)
Record CompilerOptions : Type := {
  strictNullChecks : bool;
  exactOptionalPropertyTypes : bool;
  target : option Z
}.

End TS.

(* ================================================================== *)
(** ** ts-api-utils *)

Module tsutils.
Import TS.

(** [(type.flags & flag) !== 0] *)
Definition isTypeFlagSet (t : TsType) (flag : Z) : bool :=
  negb (Z.land (flags t) flag =? 0).

Definition unionTypeParts (t : TsType) : list TsType :=
  if isTypeFlagSet t TypeFlags.Union then types t else [t].

Definition intersectionTypeParts (t : TsType) : list TsType :=
  if isTypeFlagSet t TypeFlags.Intersection then types t else [t].

Definition isBooleanLiteralType (t : TsType) : bool :=
  isTypeFlagSet t TypeFlags.BooleanLiteral.

Definition isTrueLiteralType (t : TsType) : bool :=
  isBooleanLiteralType t && String.eqb (intrinsicName t) "true".

Definition isFalseLiteralType (t : TsType) : bool :=
  isBooleanLiteralType t && String.eqb (intrinsicName t) "false".

Definition isFalsyType (t : TsType) : bool :=
  if isTypeFlagSet t
       (Z.lor TypeFlags.Undefined (Z.lor TypeFlags.Null TypeFlags.Void))
  then true
  else if isLiteral t
  then match value t with
       | Some v => negb (truthyValue v)
       | None => true
       end
  else isFalseLiteralType t.

Definition isNullLiteral (n : Node) : bool := kind_eqb (kind n) NullKeyword.

Definition isSymbolFlagSet (symbolFlags : Z) (flag : Z) : bool :=
  negb (Z.land symbolFlags flag =? 0).

End tsutils.

(* ================================================================== *)
(** ** The reporter: diagnostics, fixes and thrown errors *)

Module Reporting.

(** How a piece of code ends: with a value, or with a thrown [Error]. *)
Inductive Completion (A : Type) : Type :=
| Normal (a : A)
| Throw (message : string).
Arguments Normal {A}.
Arguments Throw {A}.

Definition bindC {A B} (c : Completion A) (f : A -> Completion B)
  : Completion B :=
  match c with
  | Normal a => f a
  | Throw m => Throw m
  end.

(** [ts.TextChange]: replace [span_length] code units from [span_start]
    by [newText]. *)
Record TextChange : Type := {
  newText : string;
  span_start : Z;
  span_length : Z
}.

(** [ts.FileTextChanges] *)
Record FileTextChanges : Type := {
  changes_fileName : string;
  textChanges : list TextChange
}.

(** A fix registered with [withFix(description, getEdits)]; [getEdits]
    is the callback's outcome when the host calls it. *)
Record Fix : Type := {
  description : string;
  getEdits : Completion (list FileTextChanges)
}.

Inductive Severity : Set := Warning | Error.

Record Diagnostic : Type := {
  severity : Severity;
  message : string;
  d_start : Z;
  d_end : Z;
  fixes : list Fix
}.

(** [reportWarning(message, start, end)] and [reportError(...)] *)
Definition reportWarning (msg : string) (s e : Z) : Diagnostic :=
  {| severity := Warning; message := msg; d_start := s; d_end := e;
     fixes := [] |}.

Definition reportError (msg : string) (s e : Z) : Diagnostic :=
  {| severity := Error; message := msg; d_start := s; d_end := e;
     fixes := [] |}.

(** [reporter.withFix(description, getEdits)] *)
Definition withFix (d : Diagnostic) (desc : string)
           (edits : Completion (list FileTextChanges)) : Diagnostic :=
  {| severity := severity d; message := message d; d_start := d_start d;
     d_end := d_end d;
     fixes := (fixes d ++ [ {| description := desc; getEdits := edits |} ])%list
  |}.

(** A rule's code: the diagnostics reported so far and how it ended. *)
Definition M (A : Type) : Type := (list Diagnostic * Completion A)%type.

Definition ret {A} (a : A) : M A := ([], Normal a).

Definition bind {A B} (m : M A) (f : A -> M B) : M B :=
  match m with
  | (ds, Normal a) => let '(ds', c) := f a in ((ds ++ ds')%list, c)
  | (ds, Throw e) => (ds, Throw e)
  end.

Definition emit (d : Diagnostic) : M unit := ([d], Normal tt).

Definition throw {A} (msg : string) : M A := ([], Throw msg).

Definition liftC {A} (c : Completion A) : M A := ([], c).

(** [try { m } catch { }] *)
Definition tryCatch (m : M unit) : M unit := (fst m, Normal tt).

Definition reported {A} (m : M A) : list Diagnostic := fst m.

(** What a visitor callback does after its own checks: go on to
    [node.forEachChild(cb)], or [return] before it. *)
Inductive Next : Set := Descend | Return.


End Reporting.

Declare Scope rule_scope.
Delimit Scope rule_scope with rule.
Notation "x <- m ;; k" := (Reporting.bind m (fun x => k))
  (at level 61, m at next level, right associativity) : rule_scope.
Notation "m ;;; k" := (Reporting.bind m (fun _ => k))
  (at level 61, right associativity) : rule_scope.

(* ================================================================== *)
(** ** The traversal: [node.forEachChild(cb)] *)

Module Traversal.
Import TS Reporting.

Definition andThen (a b : M unit) : M unit := Reporting.bind a (fun _ => b).

Section FoldChildren.
Context {N A : Type}.
Variable nothing : A.
Variable both : A -> A -> A.
Variable f : N -> A.

Fixpoint eachOf (l : list N) : A :=
  match l with
  | [] => nothing
  | x :: xs => both (f x) (eachOf xs)
  end.

Definition ifPresent (o : option N) : A :=
  match o with
  | Some x => f x
  | None => nothing
  end.

(** [f] on every property that holds a node, in the order
    [ts.forEachChild] goes through the properties of each kind, the
    results put together with [both]. *)
Definition foldChildren (sh : Shape N) : A :=
  match sh with
  | SToken _ | SIdentifier _ | SStringLiteral => nothing
  | SBinaryExpression l o r => both (f l) (both (f o) (f r))
  | SConditionalExpression c q t cl e =>
      both (f c) (both (f q) (both (f t) (both (f cl) (f e))))
  | SPrefixUnaryExpression _ e => f e
  | SNonNullExpression e => f e
  | SAsExpression e t => both (f e) (f t)
  | STypeAssertion t e => both (f t) (f e)
  | SPropertyAccessExpression e q n =>
      both (f e) (both (ifPresent q) (f n))
  | SElementAccessExpression e q a =>
      both (f e) (both (ifPresent q) (f a))
  | SCallExpression e q ta a =>
      both (f e) (both (ifPresent q) (both (eachOf ta) (eachOf a)))
  | SArrowFunction sg b => both (eachOf sg) (f b)
  | SFunctionExpression sg b => both (eachOf sg) (f b)
  | STemplateExpression h sp => both (f h) (eachOf sp)
  | STypeReference n ta => both (f n) (eachOf ta)
  | SBlock st => eachOf st
  | SReturnStatement e => ifPresent e
  | SIfStatement e t el => both (f e) (both (f t) (ifPresent el))
  | SDoStatement s e => both (f s) (f e)
  | SWhileStatement e s => both (f e) (f s)
  | SForStatement i c inc s =>
      both (ifPresent i) (both (ifPresent c) (both (ifPresent inc) (f s)))
  | SSwitchStatement e cb => both (f e) (f cb)
  | SCaseBlock cl => eachOf cl
  | SCaseClause e st => both (f e) (eachOf st)
  | SDefaultClause st => eachOf st
  | SVariableStatement m d => both (eachOf m) (f d)
  | SVariableDeclarationList ds => eachOf ds
  | SVariableDeclaration n ex t i =>
      both (f n) (both (ifPresent ex) (both (ifPresent t) (ifPresent i)))
  | SOther _ cs => eachOf cs
  end.
End FoldChildren.

(** [ts.forEachChild(node, f)] for a callback that returns nothing. *)
Definition forEachChild {N} (f : N -> M unit) (sh : Shape N) : M unit :=
  foldChildren (ret tt) andThen f sh.

(** The number of nodes of a tree. *)
Fixpoint nodeCount (n : Node) : nat :=
  S (foldChildren O Nat.add nodeCount (shape n)).

(** [function cb(node) { ...; node.forEachChild(cb); }]: [visit] is the
    part before the recursion; [ancestors] is the chain of [parent]
    references of [node], nearest first. *)
Fixpoint cb (visit : list Node -> Node -> M Next) (ancestors : list Node)
         (node : Node) {struct node} : M unit :=
  match visit ancestors node with
  | (ds, Throw e) => (ds, Throw e)
  | (ds, Normal Return) => (ds, Normal tt)
  | (ds, Normal Descend) =>
      andThen (ds, Normal tt)
        (forEachChild (cb visit (node :: ancestors)) (shape node))
  end.

(** [sourceFile.forEachChild(cb)] *)
Definition run (visit : list Node -> Node -> M Next) (sf : SourceFileData)
  : M unit :=
  forEachChild (cb visit [root sf]) (shape (root sf)).

(** [node.parent] and [node.parent.parent] *)
Definition parent (ancestors : list Node) : option Node := hd_error ancestors.
Definition grandparent (ancestors : list Node) : option Node :=
  hd_error (tl ancestors).

End Traversal.

(* ================================================================== *)
(** ** What a rule receives *)

Module Host.
Import TS.

(** [ts.TypeChecker], with the methods of [ts.Type] that ask it. *)
Record TypeChecker : Type := {
  getTypeAtLocation : Node -> TsType;
  getBaseConstraintOfType : TsType -> option TsType;
  getTypeFromTypeNode : Node -> TsType;
  typeToString : TsType -> string;
  isArrayType : TsType -> bool;
  isTupleType : TsType -> bool;
  (** the [keyType] of every index info of a type *)
  getIndexInfosOfType : TsType -> list TsType;
  (** whether [getIndexInfoOfType(type, ts.IndexKind.String)] is defined *)
  hasStringIndexInfo : TsType -> bool;
  (** [type.getProperty(name)], as the flags of the symbol found *)
  getProperty : TsType -> string -> option Z;
  (** the return types of [type.getCallSignatures()] *)
  getCallSignatures : TsType -> list TsType;
  (** the return types of [tsutils.getCallSignaturesOfType(type)] *)
  getCallSignaturesOfType : TsType -> list TsType
}.

(** The module [../type-utils], which the rules import and which is not
    part of the sources at hand: taken as given. *)
Record TypeUtils : Type := {
  getContextualType : Node -> option TsType;
  (** the declaration of an identifier, with its chain of parents *)
  getDeclaration : Node -> option (Node * list Node);
  isNullableType : TsType -> bool;
  (** [isNullableType(type, { allowUndefined: true })] *)
  isNullableType_allowUndefined : TsType -> bool;
  isTypeAnyType : TsType -> bool;
  isTypeUnknownType : TsType -> bool;
  isTypeFlagSet : TsType -> Z -> bool;
  getTypeFlags : TsType -> Z;
  getTypeName : TsType -> string;
  getTypeOfPropertyOfName : TsType -> string -> option TsType
}.

(** The functions of the [typescript] module the rules call on text. *)
Record Scanner : Type := {
  isIdentifierStart : ascii -> Z -> bool;
  isIdentifierPart : ascii -> Z -> bool;
  getLeadingCommentRanges : string -> Z -> option (list CommentRange);
  (** [sourceFile.getLineAndCharacterOfPosition(pos).character] *)
  characterOfPosition : SourceFileData -> Z -> Z
}.

(** The argument of a rule:
    [{ typescript, sourceFile, languageService, reportWarning }]. *)
Record RuleContext : Type := {
  typescript : Scanner;
  sourceFile : SourceFileData;
  checker : TypeChecker;
  compilerOptions : CompilerOptions;
  typeUtils : TypeUtils
}.

End Host.

(* ================================================================== *)
(** ** rules/utils.ts *)

Module Utils.
Import TS Reporting Host.

(** Resolves the given node's type.  Will resolve to the type's generic
    constraint, if it has one. *)
Definition getConstrainedTypeAtLocation (checker : TypeChecker) (node : Node)
  : TsType :=
  let nodeType := getTypeAtLocation checker node in
  match getBaseConstraintOfType checker nodeType with
  | Some constrained => constrained
  | None => nodeType
  end.

Definition ESNext : Z := 99.

Fixpoint allIdentifierParts (ts : Scanner) (rest : string) (target : Z)
  : bool :=
  match rest with
  | EmptyString => true
  | String c more =>
      if negb (isIdentifierPart ts c target) then false
      else allIdentifierParts ts more target
  end.

(** Indicates whether identifiers require the use of quotation marks when
    accessing property definitions and dot notation. *)
Definition requiresQuoting (ts : Scanner) (name : string) (target : option Z)
  : bool :=
  let target := match target with Some t => t | None => ESNext end in
  match name with
  | EmptyString => true
  | String c rest =>
      if negb (isIdentifierStart ts c target) then true
      else negb (allIdentifierParts ts rest target)
  end.

Module NullThrowsReasons.
Definition MissingParent : string := "Expected node to have a parent.".
Definition MissingToken (token thing : string) : string :=
  "Expected to find a " ++ token ++ " for the " ++ thing ++ ".".
End NullThrowsReasons.

(** Assert that a value must not be null or undefined. *)
Definition nullThrows {A} (value : option A) (message : string)
  : Completion A :=
  match value with
  | None => Throw ("Non-null Assertion Failed: " ++ message)
  | Some v => Normal v
  end.

Definition isUndefinedIdentifier (i : Node) : bool :=
  kind_eqb (kind i) UndefinedKeyword.

Fixpoint isNodeEqual (sf : SourceFileData) (a b : Node) {struct a} : bool :=
  if negb (kind_eqb (kind a) (kind b)) then false
  else if kind_eqb (kind a) ThisKeyword && kind_eqb (kind b) ThisKeyword
  then true
  else if kind_eqb (kind a) StringLiteral && kind_eqb (kind b) StringLiteral
  then String.eqb (getText sf a) (getText sf b)
  else if kind_eqb (kind a) Identifier && kind_eqb (kind b) Identifier
  then String.eqb (getText sf a) (getText sf b)
  else
    match shape a, shape b with
    | SPropertyAccessExpression aexp _ aname,
      SPropertyAccessExpression bexp _ bname =>
        isNodeEqual sf aname bname && isNodeEqual sf aexp bexp
    | _, _ => false
    end.

End Utils.

(* ================================================================== *)
(** ** rules/no-unnecessary-type-assertion.ts *)

Module NoUnnecessaryTypeAssertion.
Import TS Reporting Host Utils Traversal.

(** The [condition] argument, which the functions test for presence. *)
Definition Condition : Type := option (Node -> bool).

Definition holds (condition : Condition) (node : Node) : bool :=
  match condition with
  | None => true
  | Some c => c node
  end.

(** A [for] loop over the index values [indices], whose body may
    [return]. *)
Fixpoint forIndices (indices : list Z) (body : Z -> option Node)
  : option Node :=
  match indices with
  | [] => None
  | i :: rest =>
      match body i with
      | Some r => Some r
      | None => forIndices rest body
      end
  end.

(** [from, from - 1, ..., 0] *)
Definition downTo0 (from : Z) : list Z :=
  map (fun k => from - Z.of_nat k) (seq 0 (Z.to_nat (from + 1))).

(** [from, from + 1, ..., below - 1] *)
Definition upTo (from below : Z) : list Z :=
  map (fun k => from + Z.of_nat k) (seq 0 (Z.to_nat (below - from))).

(** [getTokenBefore(node, sourceFile, condition)]; [parent] is
    [node.parent]. *)
Definition getTokenBefore (parent node : Node) (condition : Condition)
  : option Node :=
  let children := getChildren parent in
  forIndices (downTo0 (indexOf children node - 1))
    (fun i => if holds condition node then Some node else None).

(** [getTokenAfter(node, sourceFile, condition)] *)
Definition getTokenAfter (parent node : Node) (condition : Condition)
  : option Node :=
  let children := getChildren parent in
  forIndices (upTo (indexOf children node + 1) (getChildCount parent))
    (fun i => if holds condition node then Some node else None).

(** The same two functions as the specification words them: the first
    sibling before (after) [node] among the parent's children that
    satisfies [condition]. *)
Definition childAt (children : list Node) (i : Z) : option Node :=
  if i <? 0 then None else nth_error children (Z.to_nat i).

Definition siblingIfHolds (children : list Node) (condition : Condition)
           (i : Z) : option Node :=
  match childAt children i with
  | Some c => if holds condition c then Some c else None
  | None => None
  end.

Definition tokenBefore_spec (parent node : Node) (condition : Condition)
  : option Node :=
  let children := getChildren parent in
  forIndices (downTo0 (indexOf children node - 1))
    (siblingIfHolds children condition).

Definition tokenAfter_spec (parent node : Node) (condition : Condition)
  : option Node :=
  let children := getChildren parent in
  forIndices (upTo (indexOf children node + 1) (getChildCount parent))
    (siblingIfHolds children condition).

(** [create(options)] *)
Record Options : Type := {
  typesToIgnore : option (list string)
}.

Definition unnecessaryForReceiver : string :=
  "This assertion is unnecessary since the receiver accepts the original type of the expression.".

Definition unnecessaryNoChange : string :=
  "This assertion is unnecessary since it does not change the type of the expression.".

Section Create.
Variable options : Options.
Variable ctx : RuleContext.

(** Returns true if there's a chance the variable has been used before
    a value has been assigned to it. *)
Definition isDeclareStatement (declAncestors : list Node) : bool :=
  match grandparent declAncestors with
  | Some statement =>
      match shape statement with
      | SVariableStatement modifiers _ =>
          existsb (fun m => kind_eqb (kind m) DeclareKeyword) modifiers
      | _ => false
      end
  | None => false
  end.

Definition isPossiblyUsedBeforeAssigned (node : Node) : bool :=
  match getDeclaration (typeUtils ctx) node with
  | None => true
  | Some (declaration, declAncestors) =>
      if strictNullChecks (compilerOptions ctx)
      then
        match shape declaration with
        | SVariableDeclaration _ None (Some declType) None =>
            let declarationType :=
              getTypeFromTypeNode (checker ctx) declType in
            let type := getConstrainedTypeAtLocation (checker ctx) node in
            if sameType declarationType type
               && negb (isDeclareStatement declAncestors)
            then true
            else false
        | _ => false
        end
      else false
  end.

Definition isConstAssertion (node : Node) : bool :=
  match shape node with
  | STypeReference typeName _ =>
      match shape typeName with
      | SIdentifier escapedText => String.eqb escapedText "const"
      | _ => false
      end
  | _ => false
  end.

Definition isImplicitlyNarrowedConstDeclaration
           (expression : Node) (ancestors : list Node) : bool :=
  let isTemplateLiteralWithExpressions :=
    match shape expression with
    | STemplateExpression _ templateSpans =>
        negb (Nat.eqb (List.length templateSpans) 0)
    | _ => false
    end in
  match grandparent ancestors with
  | Some maybeDeclarationNode =>
      match shape maybeDeclarationNode with
      | SVariableDeclarationList _ =>
          negb (Z.land (nodeFlags (info maybeDeclarationNode))
                  NodeFlags.Const =? 0)
          && negb isTemplateLiteralWithExpressions
      | _ => false
      end
  | None => false
  end.

Definition withoutUndefined (parts : list TsType) : list TsType :=
  filter (fun part => negb (tsutils.isTypeFlagSet part TypeFlags.Undefined))
    parts.

Definition isTypeUnchanged (uncast cast : TsType) : bool :=
  if sameType uncast cast then true
  else if tsutils.isTypeFlagSet uncast TypeFlags.Undefined
          && tsutils.isTypeFlagSet cast TypeFlags.Undefined
          && exactOptionalPropertyTypes (compilerOptions ctx)
  then
    let uncastParts := withoutUndefined (tsutils.unionTypeParts uncast) in
    let castParts := withoutUndefined (tsutils.unionTypeParts cast) in
    if negb (Nat.eqb (List.length uncastParts) (List.length castParts))
    then false
    else
      let uncastPartsSet := uncastParts in
      forallb (fun part => Set_has uncastPartsSet part) castParts
  else false.

(** One file, one change that removes [length] code units at [start]. *)
Definition removal (start length : Z) : list FileTextChanges :=
  [ {| changes_fileName := fileName (sourceFile ctx);
       textChanges := [ {| newText := "";
                           span_start := start;
                           span_length := length |} ] |} ].

Definition isPlainAssignment (parent : option Node) : bool :=
  match parent with
  | Some p =>
      match shape p with
      | SBinaryExpression _ operatorToken _ =>
          kind_eqb (kind operatorToken) EqualsToken
      | _ => false
      end
  | None => false
  end.

Definition isLeftOf (parent : option Node) (node : Node) : bool :=
  match parent with
  | Some p =>
      match shape p with
      | SBinaryExpression lhs _ _ => sameNode lhs node
      | _ => false
      end
  | None => false
  end.

Definition isIdentifier (node : Node) : bool :=
  kind_eqb (kind node) Identifier.

(** The branch of a nullable operand: is the assertion used where the
    nullable type is accepted as it is? *)
Definition acceptedByContext (type contextualType : TsType) : bool :=
  let typeIncludesUndefined :=
    tsutils.isTypeFlagSet type TypeFlags.Undefined in
  let typeIncludesNull := tsutils.isTypeFlagSet type TypeFlags.Null in
  let typeIncludesVoid := tsutils.isTypeFlagSet type TypeFlags.Void in
  let contextualTypeIncludesUndefined :=
    tsutils.isTypeFlagSet contextualType TypeFlags.Undefined in
  let contextualTypeIncludesNull :=
    tsutils.isTypeFlagSet contextualType TypeFlags.Null in
  let contextualTypeIncludesVoid :=
    tsutils.isTypeFlagSet contextualType TypeFlags.Void in
  let isValidUndefined :=
    if typeIncludesUndefined then contextualTypeIncludesUndefined
    else true in
  let isValidNull :=
    if typeIncludesNull then contextualTypeIncludesNull else true in
  let isValidVoid :=
    if typeIncludesVoid then contextualTypeIncludesVoid else true in
  isValidUndefined && isValidNull && isValidVoid.

(** [ts.isNonNullExpression(node)] *)
Definition visitNonNullExpression (ancestors : list Node)
           (node expression : Node) : M Next :=
  if isPlainAssignment (parent ancestors)
  then
    ((if isLeftOf (parent ancestors) node
      then emit (withFix
                   (reportWarning unnecessaryForReceiver
                      (getStart node) (getEnd node))
                   "[No Description]"
                   (Normal (removal (getEnd expression)
                              (getEnd node - getEnd expression))))
      else ret tt) ;;;
     ret Return)%rule
  else
    let originalNode := node in
    let type := getConstrainedTypeAtLocation (checker ctx) expression in
    if negb (isNullableType (typeUtils ctx) type)
       && negb (tsutils.isTypeFlagSet type TypeFlags.Void)
    then
      if isIdentifier expression && isPossiblyUsedBeforeAssigned expression
      then ret Return
      else
        (emit (withFix
                 (reportWarning unnecessaryNoChange
                    (getStart node) (getEnd node))
                 "[No Description]"
                 (Normal (removal (getEnd node - 1) 1))) ;;;
         ret Descend)%rule
    else
      ((match getContextualType (typeUtils ctx) originalNode with
        | Some contextualType =>
            if acceptedByContext type contextualType
            then emit (withFix
                         (reportWarning unnecessaryForReceiver
                            (getStart node) (getEnd node))
                         "[No Description]"
                         (Normal (removal (getEnd expression)
                                    (getEnd node - getEnd expression))))
            else ret tt
        | None => ret tt
        end) ;;;
       ret Descend)%rule.

(** The edits that remove a type assertion. *)
Definition removeAssertion (node type_ expression : Node)
  : Completion (list FileTextChanges) :=
  if kind_eqb (kind node) TypeAssertionExpression
  then
    bindC (nullThrows
             (getTokenBefore node type_
                (Some (fun n => kind_eqb (kind n) LessThanToken)))
             (NullThrowsReasons.MissingToken "<" "type annotation"))
      (fun openingAngleBracket =>
    bindC (nullThrows
             (getTokenAfter node type_
                (Some (fun n => kind_eqb (kind n) GreaterThanToken)))
             (NullThrowsReasons.MissingToken ">" "type annotation"))
      (fun closingAngleBracket =>
    Normal (removal (getStart openingAngleBracket)
              (getEnd closingAngleBracket
               - getStart openingAngleBracket))))
  else
    bindC (nullThrows
             (getTokenAfter node expression
                (Some (fun n => kind_eqb (kind n) AsKeyword)))
             (NullThrowsReasons.MissingToken ">" "type annotation"))
      (fun asToken =>
    Normal (removal (getFullStart asToken)
              (getEnd node - getFullStart asToken))).

(** [ts.isAsExpression(node) || ts.isTypeAssertionExpression(node)] *)
Definition visitAssertion (ancestors : list Node)
           (node type_ expression : Node) : M Next :=
  if match typesToIgnore options with
     | Some ignored =>
         existsb
           (String.eqb
              (typeToString (checker ctx)
                 (getTypeFromTypeNode (checker ctx) type_)))
           ignored
     | None => false
     end
  then ret Return
  else
    let castType := getTypeAtLocation (checker ctx) node in
    let uncastType := getTypeAtLocation (checker ctx) expression in
    let typeIsUnchanged := isTypeUnchanged uncastType castType in
    let wouldSameTypeBeInferred :=
      if isLiteral castType
      then isImplicitlyNarrowedConstDeclaration expression ancestors
      else negb (isConstAssertion type_) in
    ((if typeIsUnchanged && wouldSameTypeBeInferred
      then emit (withFix
                   (reportWarning unnecessaryNoChange
                      (getStart node) (getEnd node))
                   "[No Description]"
                   (removeAssertion node type_ expression))
      else ret tt) ;;;
     ret Descend)%rule.

Definition visit (ancestors : list Node) (node : Node) : M Next :=
  match shape node with
  | SNonNullExpression expression =>
      visitNonNullExpression ancestors node expression
  | SAsExpression expression type_ =>
      visitAssertion ancestors node type_ expression
  | STypeAssertion type_ expression =>
      visitAssertion ancestors node type_ expression
  | _ => ret Descend
  end.

Definition rule : M unit := Traversal.run visit (sourceFile ctx).

End Create.

End NoUnnecessaryTypeAssertion.

(* ================================================================== *)
(** ** rules/switch-exhaustiveness-check.ts *)

Module SwitchExhaustivenessCheck.
Import TS Reporting Host Utils Traversal.

Record Options : Type := {
  (** If [true], allow [default] cases on switch statements with
      exhaustive cases.  Default: [true]. *)
  allowDefaultCaseForExhaustiveSwitch : bool;
  (** If [true], require a [default] clause for switches on non-union
      types.  Default: [false]. *)
  requireDefaultForNonUnion : bool
}.

Definition defaultOptions : Options :=
  {| allowDefaultCaseForExhaustiveSwitch := true;
     requireDefaultForNonUnion := false |}.

Record SwitchMetadata : Type := {
  symbolName_ : option string;
  defaultCase : option Node;
  missingLiteralBranchTypes : list TsType;
  containsNonLiteralType : bool
}.

Definition isTypeLiteralLikeType (type : TsType) : bool :=
  tsutils.isTypeFlagSet type
    (Z.lor 2944 (Z.lor 32768 (Z.lor 65536 8192))).

(** Default cases are never superfluous in switches with non-literal
    types. *)
Definition doesTypeContainNonLiteralType (type : TsType) : bool :=
  existsb
    (fun type =>
       forallb (fun subType => negb (isTypeLiteralLikeType subType))
         (tsutils.intersectionTypeParts type))
    (tsutils.unionTypeParts type).

(** [node.caseBlock.clauses] *)
Definition clausesOf (caseBlock : Node) : list Node :=
  match shape caseBlock with
  | SCaseBlock clauses => clauses
  | _ => []
  end.

(** A token is a node without children of its own. *)
Definition isToken (n : Node) : bool :=
  match shape n with
  | SToken _ | SIdentifier _ | SStringLiteral => true
  | _ => false
  end.

(** [node.getFirstToken(sourceFile)], [node.getLastToken(sourceFile)] *)
Fixpoint getFirstToken (n : Node) : option Node :=
  match getChildren n with
  | [] => None
  | child :: _ => if isToken child then Some child else getFirstToken child
  end.

Fixpoint getLastToken (n : Node) : option Node :=
  (fix lastOf (children : list Node) : option Node :=
     match children with
     | [] => None
     | [child] => if isToken child then Some child else getLastToken child
     | _ :: rest => lastOf rest
     end) (getChildren n).

(** [`${x}`] for a value that may be [undefined]. *)
Definition interpolate (x : option string) : string :=
  match x with
  | Some s => s
  | None => "undefined"
  end.

Definition notExhaustive (missingBranches : string) : string :=
  "Switch is not exhaustive. Cases not matched: " ++ missingBranches.

Definition unnecessaryDefault : string :=
  "The switch statement is exhaustive, so the default case is unnecessary.".

Section Create.
Variable options : Options.
Variable ctx : RuleContext.

Definition caseTypesOf (clauses : list Node) : list TsType :=
  flat_map
    (fun switchCase =>
       match shape switchCase with
       | SCaseClause expression _ =>
           [getConstrainedTypeAtLocation (checker ctx) expression]
       | _ => []
       end)
    clauses.

Definition missingBranchTypesOf (discriminantType : TsType)
           (caseTypes : list TsType) : list TsType :=
  flat_map
    (fun unionPart =>
       flat_map
         (fun intersectionPart =>
            if Set_has caseTypes intersectionPart
               || negb (isTypeLiteralLikeType intersectionPart)
            then []
            else [intersectionPart])
         (tsutils.intersectionTypeParts unionPart))
    (tsutils.unionTypeParts discriminantType).

Definition getSwitchMetadata (expression caseBlock : Node)
  : SwitchMetadata :=
  let defaultCase :=
    find (fun switchCase => kind_eqb (kind switchCase) DefaultClause)
      (clausesOf caseBlock) in
  let discriminantType :=
    getConstrainedTypeAtLocation (checker ctx) expression in
  let symbolName := symbolName discriminantType in
  let containsNonLiteralType :=
    doesTypeContainNonLiteralType discriminantType in
  let caseTypes := caseTypesOf (clausesOf caseBlock) in
  {| symbolName_ := symbolName;
     missingLiteralBranchTypes :=
       missingBranchTypesOf discriminantType caseTypes;
     defaultCase := defaultCase;
     containsNonLiteralType := containsNonLiteralType |}.

(** The text of one synthesized branch. *)
Definition escapeBranchName (missingBranchName : string) : string :=
  JsString.replaceAll
    (JsString.replaceAll
       (JsString.replaceAll missingBranchName JsString.quote "\'")
       JsString.newline "\n")
    JsString.carriageReturn "\r".

Definition escapeCaseTest (caseTest : string) : string :=
  JsString.replaceAll
    (JsString.replaceAll caseTest JsString.backslash "\\")
    JsString.quote "\'".

Definition caseClauseText (caseTest : string) : string :=
  "case " ++ caseTest ++ ": { throw new Error('Not implemented yet: "
    ++ escapeCaseTest caseTest ++ " case') }".

Definition isTruthyString (s : option string) : bool :=
  match s with
  | Some x => negb (String.eqb x "")
  | None => false
  end.

(** The test of the branch synthesized for a missing type; [None] is
    [undefined]. *)
Definition caseTestOf (symbolName : option string)
           (missingBranchType : TsType) : option string :=
  let missingBranchName := TS.symbolName missingBranchType in
  let caseTest :=
    if tsutils.isTypeFlagSet missingBranchType TypeFlags.ESSymbolLike
    then missingBranchName
    else Some (typeToString (checker ctx) missingBranchType) in
  match symbolName, missingBranchName with
  | Some symbolName', Some name =>
      if isTruthyString symbolName
         && requiresQuoting (typescript ctx) name
              (target (compilerOptions ctx))
      then Some (symbolName' ++ "['" ++ escapeBranchName name ++ "']")
      else caseTest
  | _, _ => caseTest
  end.

Definition missingCase (symbolName : option string)
           (missingBranchType : option TsType) : Completion string :=
  match missingBranchType with
  | None => Normal "default: { throw new Error('default case') }"
  | Some missingBranchType =>
      match caseTestOf symbolName missingBranchType with
      | Some caseTest => Normal (caseClauseText caseTest)
      | None =>
          Throw "TypeError: Cannot read properties of undefined (reading 'replaceAll')"
      end
  end.

Fixpoint missingCasesOf (symbolName : option string)
         (missingBranchTypes : list (option TsType))
  : Completion (list string) :=
  match missingBranchTypes with
  | [] => Normal []
  | t :: rest =>
      bindC (missingCase symbolName t) (fun code =>
      bindC (missingCasesOf symbolName rest) (fun codes =>
      Normal (code :: codes)))
  end.

Definition fixSwitch (node caseBlock : Node)
           (missingBranchTypes : list (option TsType))
           (symbolName : option string) : Completion (list TextChange) :=
  let lastCase := last (map Some (clausesOf caseBlock)) None in
  let caseIndent :=
    match lastCase with
    | Some lastCase =>
        JsString.repeat " "
          (characterOfPosition (typescript ctx) (sourceFile ctx)
             (getStart lastCase))
    | None =>
        JsString.repeat " "
          (characterOfPosition (typescript ctx) (sourceFile ctx)
             (getStart node))
    end in
  bindC (missingCasesOf symbolName missingBranchTypes) (fun missingCases =>
  let fixString :=
    JsString.join (map (fun code => caseIndent ++ code) missingCases)
      (String JsString.newline "") in
  match lastCase with
  | Some lastCase =>
      Normal [ {| newText := String JsString.newline "" ++ fixString;
                  span_start := getStart lastCase;
                  span_length := 0 |} ]
  | None =>
      let openingBrace := getFirstToken caseBlock in
      bindC (nullThrows
               (match openingBrace with
                | Some t =>
                    if kind_eqb (kind t) OpenBraceToken then openingBrace
                    else None
                | None => None
                end)
               (NullThrowsReasons.MissingToken "{" "discriminant"))
        (fun openingBrace' =>
      let closingBrace := getLastToken caseBlock in
      bindC (nullThrows
               (match closingBrace with
                | Some t =>
                    if kind_eqb (kind t) CloseBraceToken then openingBrace
                    else None
                | None => None
                end)
               (NullThrowsReasons.MissingToken "}" "discriminant"))
        (fun _ =>
      match closingBrace with
      | Some closingBrace =>
          Normal [ {| newText :=
                        JsString.join
                          ["{"; fixString; caseIndent ++ "}"]
                          (String JsString.newline "");
                      span_start := getStart openingBrace';
                      span_length :=
                        getEnd closingBrace - getStart openingBrace' |} ]
      | None => Throw "TypeError: closingBrace is undefined"
      end))
  end).

Definition missingBranchName (missingType : TsType) : string :=
  if tsutils.isTypeFlagSet missingType TypeFlags.ESSymbolLike
  then "typeof " ++ interpolate (TS.symbolName missingType)
  else typeToString (checker ctx) missingType.

Definition checkSwitchExhaustive (node caseBlock : Node)
           (switchMetadata : SwitchMetadata) : list Diagnostic :=
  let missingLiteralBranchTypes :=
    missingLiteralBranchTypes switchMetadata in
  let symbolName := symbolName_ switchMetadata in
  match missingLiteralBranchTypes, defaultCase switchMetadata with
  | _ :: _, None =>
      let missingBranches :=
        JsString.join (map missingBranchName missingLiteralBranchTypes)
          " | " in
      [ withFix
          (reportWarning (notExhaustive missingBranches)
             (getStart node) (getEnd node))
          "Add branches for missing cases."
          (bindC (fixSwitch node caseBlock
                    (map Some missingLiteralBranchTypes) symbolName)
             (fun textChanges =>
                Normal [ {| changes_fileName := fileName (sourceFile ctx);
                            textChanges := textChanges |} ])) ]
  | _, _ => []
  end.

Definition checkSwitchUnnecessaryDefaultCase
           (switchMetadata : SwitchMetadata) : list Diagnostic :=
  if allowDefaultCaseForExhaustiveSwitch options then []
  else
    match missingLiteralBranchTypes switchMetadata,
          defaultCase switchMetadata with
    | [], Some defaultCase =>
        if negb (containsNonLiteralType switchMetadata)
        then [ reportWarning unnecessaryDefault
                 (getStart defaultCase) (getEnd defaultCase) ]
        else []
    | _, _ => []
    end.

Definition checkSwitchNoUnionDefaultCase (node expression caseBlock : Node)
           (switchMetadata : SwitchMetadata) : list Diagnostic :=
  if negb (requireDefaultForNonUnion options) then []
  else
    match defaultCase switchMetadata with
    | None =>
        if containsNonLiteralType switchMetadata
        then
          let missingBranches := "default" in
          [ withFix
              (reportWarning (notExhaustive missingBranches)
                 (getStart expression) (getEnd node))
              "Add branches for missing cases."
              (bindC (fixSwitch node caseBlock [None] None)
                 (fun textChanges =>
                    Normal
                      [ {| changes_fileName := fileName (sourceFile ctx);
                           textChanges := textChanges |} ])) ]
        else []
    | Some _ => []
    end.

Definition visit (ancestors : list Node) (node : Node) : M Next :=
  match shape node with
  | SSwitchStatement expression caseBlock =>
      let switchMetadata := getSwitchMetadata expression caseBlock in
      ((checkSwitchExhaustive node caseBlock switchMetadata
          ++ checkSwitchUnnecessaryDefaultCase switchMetadata
          ++ checkSwitchNoUnionDefaultCase node expression caseBlock
               switchMetadata)%list,
       Normal Descend)
  | _ => ret Descend
  end.

Definition rule : M unit := Traversal.run visit (sourceFile ctx).

End Create.

End SwitchExhaustivenessCheck.

(* ================================================================== *)
(** ** Regular expressions, as far as the rules use them *)

Module RegExp.

(** The pieces of a pattern anchored at the start of the input: a
    starred character class, an optional character, a literal text. *)
Inductive Item : Type :=
| StarClass (p : ascii -> bool)
| OptChar (c : ascii)
| Literal (s : string).

Fixpoint stripPrefix (p s : string) : option string :=
  match p, s with
  | EmptyString, _ => Some s
  | String a p', String b s' =>
      if Ascii.eqb a b then stripPrefix p' s' else None
  | String _ _, EmptyString => None
  end.

(** [regexp.test(s)] for [^items]: is there a way to match every item
    in turn, from the start of [s]? *)
Fixpoint test (items : list Item) (s : string) {struct items} : bool :=
  match items with
  | [] => true
  | Literal l :: rest =>
      match stripPrefix l s with
      | Some s' => test rest s'
      | None => false
      end
  | OptChar c :: rest =>
      match s with
      | String x r => (Ascii.eqb x c && test rest r) || test rest s
      | EmptyString => test rest s
      end
  | StarClass p :: rest =>
      (fix star (s : string) : bool :=
         match s with
         | String x r => (p x && star r) || test rest s
         | EmptyString => test rest s
         end) s
  end.

(** [\s] on 8-bit code units: tab, line feed, vertical tab, form feed,
    carriage return, space, no-break space. *)
Definition isWhiteSpace (c : ascii) : bool :=
  let n := nat_of_ascii c in
  (Nat.leb 9 n && Nat.leb n 13) || Nat.eqb n 32 || Nat.eqb n 160.

Definition slash : ascii := "/"%char.
Definition star_ : ascii := "*"%char.

End RegExp.

(* ================================================================== *)
(** ** rules/prefer-ts-expect-error.ts *)

Module PreferTsExpectError.
Import TS Reporting Host Utils Traversal.

(** The pattern for a line comment (after its two slashes): white space,
    an optional slash, white space, then the marker. *)
Definition tsIgnoreRegExpSingleLine : list RegExp.Item :=
  [ RegExp.StarClass RegExp.isWhiteSpace;
    RegExp.OptChar RegExp.slash;
    RegExp.StarClass RegExp.isWhiteSpace;
    RegExp.Literal "@ts-ignore" ].

(** The pattern for the last line of a block comment: white space, then
    any run of slashes and asterisks, then white space, then the marker. *)
Definition tsIgnoreRegExpMultiLine : list RegExp.Item :=
  [ RegExp.StarClass RegExp.isWhiteSpace;
    RegExp.StarClass
      (fun c => Ascii.eqb c RegExp.slash || Ascii.eqb c RegExp.star_);
    RegExp.StarClass RegExp.isWhiteSpace;
    RegExp.Literal "@ts-ignore" ].

Definition useTsExpectError : string :=
  "Use " ++ JsString.doubleQuote ++ "@ts-expect-error" ++ JsString.doubleQuote
    ++ " to ensure an error is actually being suppressed.".

Section Create.
Variable ctx : RuleContext.

Definition isLineComment (comment : CommentRange) : bool :=
  kind_eqb SingleLineCommentTrivia (comment_kind comment).

Definition commentText (comment : CommentRange) : string :=
  JsString.slice (text (sourceFile ctx))
    (comment_pos comment) (comment_end comment).

Definition getLastCommentLine (comment : CommentRange) : string :=
  if isLineComment comment then commentText comment
  else
    (* For multiline comments - we look at only the last line. *)
    let commentlines := JsString.split (commentText comment)
                          JsString.newline in
    last commentlines "".

Definition isValidTsIgnorePresent (comment : CommentRange) : bool :=
  let line := getLastCommentLine comment in
  if isLineComment comment
  then RegExp.test tsIgnoreRegExpSingleLine (JsString.sliceFrom line 2)
  else RegExp.test tsIgnoreRegExpMultiLine line.

(** The fix of a flagged comment. *)
Definition replacePos (comment : CommentRange) : Z :=
  comment_pos comment + JsString.indexOf (commentText comment) "@ts-ignore".

Definition replaceLength : Z := JsString.length "@ts-ignore".

Definition fixChange (comment : CommentRange) : TextChange :=
  {| newText := "@ts-expect-error";
     span_start := replacePos comment;
     span_length := replaceLength |}.

Definition checkComment (comment : CommentRange) : list Diagnostic :=
  if isValidTsIgnorePresent comment
  then [ withFix
           (reportWarning useTsExpectError
              (comment_pos comment) (comment_end comment))
           "[No Description]"
           (Normal [ {| changes_fileName := fileName (sourceFile ctx);
                        textChanges := [fixChange comment] |} ]) ]
  else [].

Definition visit (ancestors : list Node) (node : Node) : M Next :=
  let comments :=
    match getLeadingCommentRanges (typescript ctx)
            (text (sourceFile ctx)) (pos (info node)) with
    | Some ranges => ranges
    | None => []
    end in
  (flat_map checkComment comments, Normal Descend).

Definition rule : M unit := Traversal.run visit (sourceFile ctx).

End Create.

End PreferTsExpectError.

(* ================================================================== *)
(** ** The rule written in tsslint.config.ts *)

Module NoDuplicateCase.
Import TS Reporting Host Utils Traversal.

Section Create.
Variable ctx : RuleContext.

Definition Set_hasLabel (seen : list string) (label : string) : bool :=
  existsb (String.eqb label) seen.

Fixpoint checkClauses (caseClauses : list Node) (seenLabels : list string)
  : list Diagnostic :=
  match caseClauses with
  | [] => []
  | clause :: rest =>
      match shape clause with
      | SCaseClause expression _ =>
          let label := getText (sourceFile ctx) expression in
          if Set_hasLabel seenLabels label
          then reportWarning "Disallow duplicate case labels"
                 (getStart clause) (getEnd clause)
               :: checkClauses rest seenLabels
          else checkClauses rest (label :: seenLabels)
      | _ => checkClauses rest seenLabels
      end
  end.

Definition visit (ancestors : list Node) (node : Node) : M Next :=
  match shape node with
  | SSwitchStatement _ caseBlock =>
      (checkClauses (SwitchExhaustivenessCheck.clausesOf caseBlock) [],
       Normal Descend)
  | _ => ret Descend
  end.

Definition rule : M unit := Traversal.run visit (sourceFile ctx).

End Create.

End NoDuplicateCase.

(* ================================================================== *)
(** ** rules/prefer-nullish-coalescing.ts *)

Module PreferNullishCoalescing.
Import TS Reporting Host Utils Traversal.

(** [ignorePrimitives]: [true], or a choice per primitive. *)
Inductive IgnorePrimitives : Type :=
| IgnoreAll
| IgnoreSome (bigint boolean number string_ : bool).

Record Options : Type := {
  allowRuleToRunWithoutStrictNullChecksIKnowWhatIAmDoing : bool;
  ignoreConditionalTests : bool;
  ignoreTernaryTests : bool;
  ignoreMixedLogicalExpressions : bool;
  ignorePrimitives : IgnorePrimitives
}.

Definition defaultOptions : Options :=
  {| allowRuleToRunWithoutStrictNullChecksIKnowWhatIAmDoing := false;
     ignoreConditionalTests := false;
     ignoreTernaryTests := false;
     ignoreMixedLogicalExpressions := false;
     ignorePrimitives := IgnoreSome false false false false |}.

Definition requiresStrictNullChecks : string :=
  "This rule requires the `strictNullChecks` compiler option to be turned on to function correctly.".

Definition preferOverTernary : string :=
  "Prefer using nullish coalescing operator (`??`) instead of a ternary expression, as it is simpler to read.".

Definition preferOverLogicalOr : string :=
  "Prefer using nullish coalescing operator (`??`) instead of a logical or (`||`), as it is a safer operator.".

Definition fixToNullishCoalescing : string :=
  "Fix to nullish coalescing operator (`??`).".

Definition isLogicalOrExpression (node : Node) : bool :=
  match shape node with
  | SBinaryExpression _ operatorToken _ =>
      kind_eqb (kind operatorToken) BarBarToken
  | _ => false
  end.

Definition isLogicalAndExpression (node : Node) : bool :=
  match shape node with
  | SBinaryExpression _ operatorToken _ =>
      kind_eqb (kind operatorToken) AmpersandAmpersandToken
  | _ => false
  end.

Definition isLogicalExpression (node : Node) : bool :=
  isLogicalOrExpression node || isLogicalAndExpression node.

Definition Set_hasNode (s : list Node) (n : Node) : bool :=
  existsb (sameNode n) s.

(** [isConditionalTest(node)]: the loop over [current = current.parent],
    with the set [parents] gathered on the way. *)
Fixpoint isConditionalTest_loop (parents : list Node) (chain : list Node)
  : bool :=
  match chain with
  | [] => false
  | current :: rest =>
      let parents := current :: parents in
      let conditionSeen :=
        match shape current with
        | SConditionalExpression condition _ _ _ _ =>
            Set_hasNode parents condition
        | SForStatement _ (Some condition) _ _ =>
            Set_hasNode parents condition
        | _ => false
        end in
      let expressionSeen :=
        match shape current with
        | SDoStatement _ expression => Set_hasNode parents expression
        | SIfStatement expression _ _ => Set_hasNode parents expression
        | SWhileStatement expression _ => Set_hasNode parents expression
        | _ => false
        end in
      if conditionSeen then true
      else if expressionSeen then true
      else if kind_eqb (kind current) ArrowFunction
              || kind_eqb (kind current) FunctionExpression
      then false
      else isConditionalTest_loop parents rest
  end.

Definition isConditionalTest (ancestors : list Node) (node : Node) : bool :=
  isConditionalTest_loop [node] ancestors.

(** [isMixedLogicalExpression(node)]: the loop over a queue that grows
    while it is read.  An entry is a node with its chain of parents; the
    parent of the root is [undefined], an entry [None].  Every node is
    taken up once, so the loop ends within [fuel] steps when [fuel] is
    three times the number of nodes of the file, plus three. *)
Definition QueueEntry : Type := option (Node * list Node).

Definition parentEntry (ancestors : list Node) : QueueEntry :=
  match ancestors with
  | p :: rest => Some (p, rest)
  | [] => None
  end.

Definition entrySeen (seen : list QueueEntry) (e : QueueEntry) : bool :=
  existsb
    (fun s =>
       match s, e with
       | Some (a, _), Some (b, _) => sameNode a b
       | None, None => true
       | _, _ => false
       end)
    seen.

Fixpoint isMixedLogicalExpression_loop (fuel : nat)
         (seen queue : list QueueEntry) : bool :=
  match fuel with
  | O => false
  | S fuel' =>
      match queue with
      | [] => false
      | current :: rest =>
          if entrySeen seen current
          then isMixedLogicalExpression_loop fuel' seen rest
          else
            let seen := current :: seen in
            match current with
            | Some (n, ancestors) =>
                match shape n with
                | SBinaryExpression lhs operatorToken rhs =>
                    if kind_eqb (kind operatorToken) AmpersandAmpersandToken
                    then true
                    else if kind_eqb (kind operatorToken) BarBarToken
                    then isMixedLogicalExpression_loop fuel' seen
                           (rest ++ [ parentEntry ancestors;
                                      Some (lhs, n :: ancestors);
                                      Some (rhs, n :: ancestors) ])%list
                    else isMixedLogicalExpression_loop fuel' seen rest
                | _ => isMixedLogicalExpression_loop fuel' seen rest
                end
            | None => isMixedLogicalExpression_loop fuel' seen rest
            end
      end
  end.

Definition isMixedLogicalExpression (ancestors : list Node)
           (node lhs rhs : Node) : bool :=
  let top := last ancestors node in
  isMixedLogicalExpression_loop (3 * nodeCount top + 3)
    []
    [ parentEntry ancestors;
      Some (lhs, node :: ancestors);
      Some (rhs, node :: ancestors) ].

(** The comparison operators a ternary test may use. *)
Definition isEqualityOperator (k : SyntaxKind) : bool :=
  kind_eqb k EqualsEqualsToken
  || kind_eqb k ExclamationEqualsToken
  || kind_eqb k EqualsEqualsEqualsToken
  || kind_eqb k ExclamationEqualsEqualsToken.

(** The first part of the ternary branch: the operator the test amounts
    to, if any, and the nodes inside the test. *)
Definition combine (strict loose l r : SyntaxKind) : option SyntaxKind :=
  if kind_eqb l strict && kind_eqb r strict then Some strict
  else if ((kind_eqb l strict || kind_eqb r strict)
           && (kind_eqb l loose || kind_eqb r loose))
          || (kind_eqb l loose && kind_eqb r loose)
  then Some loose
  else None.

Definition analyseTest (condition : Node)
  : option SyntaxKind * list Node :=
  match shape condition with
  | SBinaryExpression lhs operatorToken rhs =>
      if isEqualityOperator (kind operatorToken)
      then (Some (kind operatorToken), [lhs; rhs])
      else if isLogicalExpression condition
      then
        match shape lhs, shape rhs with
        | SBinaryExpression ll lop lr, SBinaryExpression rl rop rr =>
            let nodes := [ll; lr; rl; rr] in
            if kind_eqb (kind operatorToken) BarBarToken
            then (combine EqualsEqualsEqualsToken EqualsEqualsToken
                    (kind lop) (kind rop), nodes)
            else if kind_eqb (kind operatorToken) AmpersandAmpersandToken
            then (combine ExclamationEqualsEqualsToken ExclamationEqualsToken
                    (kind lop) (kind rop), nodes)
            else (None, nodes)
        | _, _ => (None, [lhs; rhs])
        end
      else (None, [lhs; rhs])
  | _ => (None, [])
  end.

(** What the loop over the nodes of the test keeps. *)
Record TestState : Type := {
  identifier : option Node;
  hasUndefinedCheck : bool;
  hasNullCheck : bool
}.

Definition initialState : TestState :=
  {| identifier := None; hasUndefinedCheck := false; hasNullCheck := false |}.

Section Create.
Variable options : Options.
Variable ctx : RuleContext.

Definition isStrictNullChecks : bool := strictNullChecks (compilerOptions ctx).

Definition isNegated (operator : SyntaxKind) : bool :=
  kind_eqb operator ExclamationEqualsEqualsToken
  || kind_eqb operator ExclamationEqualsToken.

Definition isPositive (operator : SyntaxKind) : bool :=
  kind_eqb operator EqualsEqualsEqualsToken
  || kind_eqb operator EqualsEqualsToken.

(** we check that the test only contains null, undefined and the
    identifier; [None] is the [return] of the loop. *)
Fixpoint scanTest (operator : SyntaxKind) (whenTrue whenFalse : Node)
         (nodes : list Node) (st : TestState) : option TestState :=
  match nodes with
  | [] => Some st
  | testNode :: rest =>
      if tsutils.isNullLiteral testNode
      then scanTest operator whenTrue whenFalse rest
             {| identifier := identifier st;
                hasUndefinedCheck := hasUndefinedCheck st;
                hasNullCheck := true |}
      else if isUndefinedIdentifier testNode
      then scanTest operator whenTrue whenFalse rest
             {| identifier := identifier st;
                hasUndefinedCheck := true;
                hasNullCheck := hasNullCheck st |}
      else if isNegated operator
              && isNodeEqual (sourceFile ctx) testNode whenTrue
      then scanTest operator whenTrue whenFalse rest
             {| identifier := Some testNode;
                hasUndefinedCheck := hasUndefinedCheck st;
                hasNullCheck := hasNullCheck st |}
      else if isPositive operator
              && isNodeEqual (sourceFile ctx) testNode whenFalse
      then scanTest operator whenTrue whenFalse rest
             {| identifier := Some testNode;
                hasUndefinedCheck := hasUndefinedCheck st;
                hasNullCheck := hasNullCheck st |}
      else None
  end.

Definition isFixable (operator : SyntaxKind) (identifier : Node)
           (hasUndefinedCheck hasNullCheck : bool) : bool :=
  (* it is fixable if we check for both null and undefined, or not if
     neither *)
  if Bool.eqb hasUndefinedCheck hasNullCheck then hasUndefinedCheck
  (* it is fixable if we loosely check for either null or undefined *)
  else if kind_eqb operator EqualsEqualsToken
          || kind_eqb operator ExclamationEqualsToken
  then true
  else
    let tsNode := identifier in
    let type := getTypeAtLocation (checker ctx) tsNode in
    let flags := getTypeFlags (typeUtils ctx) type in
    if negb (Z.land flags (Z.lor TypeFlags.Any TypeFlags.Unknown) =? 0)
    then false
    else
      let hasNullType := negb (Z.land flags TypeFlags.Null =? 0) in
      (* it is fixable if we check for undefined and the type is not
         nullable *)
      if hasUndefinedCheck && negb hasNullType then true
      else
        let hasUndefinedType :=
          negb (Z.land flags TypeFlags.Undefined =? 0) in
        (* it is fixable if we check for null and the type can't be
           undefined *)
        hasNullCheck && negb hasUndefinedType.

Definition ternaryFix (operator : SyntaxKind)
           (node whenTrue whenFalse : Node) : list FileTextChanges :=
  let '(lhs, rhs) :=
    if isPositive operator then (whenFalse, whenTrue)
    else (whenTrue, whenFalse) in
  [ {| changes_fileName := fileName (sourceFile ctx);
       textChanges :=
         [ {| newText := getText (sourceFile ctx) lhs ++ " ?? "
                         ++ getText (sourceFile ctx) rhs;
              span_start := getStart node;
              span_length := getWidth node |} ] |} ].

(** [ts.isConditionalExpression(node)] *)
Definition visitConditionalExpression
           (node condition whenTrue whenFalse : Node) : M Next :=
  if ignoreTernaryTests options then ret Return
  else
    let '(operator, nodesInsideTestExpression) := analyseTest condition in
    match operator with
    | None => ret Return
    | Some operator =>
        match scanTest operator whenTrue whenFalse
                nodesInsideTestExpression initialState with
        | None => ret Return
        | Some st =>
            match identifier st with
            | None => ret Return
            | Some identifier =>
                if isFixable operator identifier
                     (hasUndefinedCheck st) (hasNullCheck st)
                then
                  (emit (withFix
                           (reportWarning preferOverTernary
                              (getStart node) (getEnd node))
                           fixToNullishCoalescing
                           (Normal (ternaryFix operator node
                                      whenTrue whenFalse))) ;;;
                   ret Descend)%rule
                else ret Descend
            end
        end
    end.

Definition ignorableFlags : Z :=
  let wanted (choice : bool) (flag : Z) : list Z :=
    if choice then [flag] else [] in
  let chosen :=
    match ignorePrimitives options with
    | IgnoreAll =>
        [TypeFlags.BigInt; TypeFlags.BooleanLiteral; TypeFlags.Number;
         TypeFlags.String]
    | IgnoreSome bigint boolean number string_ =>
        (wanted bigint TypeFlags.BigInt
           ++ wanted boolean TypeFlags.BooleanLiteral
           ++ wanted number TypeFlags.Number
           ++ wanted string_ TypeFlags.String)%list
    end in
  fold_left (fun previous flag => Z.lor previous flag) chosen 0.

(** [(type as ts.UnionOrIntersectionType).types.some(...)]: a type
    that is neither has no [types]. *)
Definition someConstituent (type : TsType) (p : TsType -> bool)
  : Completion bool :=
  if tsutils.isTypeFlagSet type
       (Z.lor TypeFlags.Union TypeFlags.Intersection)
  then Normal (existsb p (types type))
  else Throw "TypeError: Cannot read properties of undefined (reading 'some')".

Definition logicalOrFix (ancestors : list Node) (lhs rhs barBarOperator : Node)
  : list FileTextChanges :=
  let insertion (t : string) (at_ : Z) : TextChange :=
    {| newText := t; span_start := at_; span_length := 0 |} in
  let parenthesised :=
    match parent ancestors with
    | Some p =>
        if isLogicalOrExpression p
        then
          [ match shape lhs with
            | SBinaryExpression ll _ lr =>
                if isLogicalExpression lhs
                   && negb (isLogicalOrExpression ll)
                then insertion "(" (getStart lr)
                else insertion "(" (getStart lhs)
            | _ => insertion "(" (getStart lhs)
            end;
            insertion ")" (getEnd rhs) ]
        else []
    | None => []
    end in
  [ {| changes_fileName := fileName (sourceFile ctx);
       textChanges :=
         (parenthesised
            ++ [ {| newText := "??";
                    span_start := getStart barBarOperator;
                    span_length := getWidth barBarOperator |} ])%list |} ].

(** [ts.isBinaryExpression(node) && operatorToken.kind === BarBarToken] *)
Definition visitLogicalOr (ancestors : list Node)
           (node lhs operatorToken rhs : Node) : M Next :=
  let tsNode := node in
  let type := getTypeAtLocation (checker ctx) lhs in
  if negb (tsutils.isTypeFlagSet type
             (Z.lor TypeFlags.Null TypeFlags.Undefined))
  then ret Return
  else if ignoreConditionalTests options && isConditionalTest ancestors node
  then ret Return
  else
    let isMixedLogical := isMixedLogicalExpression ancestors node lhs rhs in
    if ignoreMixedLogicalExpressions options && isMixedLogical
    then ret Return
    else
      (ignored <-
         (if negb (flags type =? TypeFlags.Null)
             && negb (flags type =? TypeFlags.Undefined)
          then liftC (someConstituent type
                        (fun t => tsutils.isTypeFlagSet t ignorableFlags))
          else ret false) ;;
       if (ignored : bool) then ret Return
       else
         barBarOperator <-
           liftC (nullThrows
                    (NoUnnecessaryTypeAssertion.getTokenAfter node lhs
                       (Some (fun child =>
                                kind_eqb (kind child) (kind operatorToken))))
                    (NullThrowsReasons.MissingToken "operator" "||")) ;;
         emit (withFix
                 (reportWarning preferOverLogicalOr
                    (getStart barBarOperator) (getEnd barBarOperator))
                 fixToNullishCoalescing
                 (Normal (logicalOrFix ancestors lhs rhs barBarOperator))) ;;;
         ret Descend)%rule.

Definition visit (ancestors : list Node) (node : Node) : M Next :=
  match shape node with
  | SConditionalExpression condition _ whenTrue _ whenFalse =>
      visitConditionalExpression node condition whenTrue whenFalse
  | SBinaryExpression lhs operatorToken rhs =>
      if kind_eqb (kind operatorToken) BarBarToken
      then visitLogicalOr ancestors node lhs operatorToken rhs
      else ret Descend
  | _ => ret Descend
  end.

Definition configurationCheck : M unit :=
  if negb isStrictNullChecks
     && negb (allowRuleToRunWithoutStrictNullChecksIKnowWhatIAmDoing options)
  then emit (reportWarning requiresStrictNullChecks 0 0)
  else ret tt.

Definition rule : M unit :=
  (configurationCheck ;;; Traversal.run visit (sourceFile ctx))%rule.

End Create.

End PreferNullishCoalescing.

(* ================================================================== *)
(** ** rules/no-unnecessary-condition.ts *)

Module NoUnnecessaryCondition.
Import TS Reporting Host Utils Traversal.

Record Options : Type := {
  (** Whether to ignore constant loop conditions, such as [while (true)]. *)
  allowConstantLoopConditions : bool;
  (** Whether to not error when running with a tsconfig that has
      strictNullChecks turned. *)
  allowRuleToRunWithoutStrictNullChecksIKnowWhatIAmDoing : bool
}.

Definition defaultOptions : Options :=
  {| allowConstantLoopConditions := false;
     allowRuleToRunWithoutStrictNullChecksIKnowWhatIAmDoing := false |}.

Definition requiresStrictNullChecks : string :=
  "This rule requires the `strictNullChecks` compiler option to be turned on to function correctly.".
Definition valueIsNever : string :=
  "Unnecessary conditional, value is `never`.".
Definition alwaysFalsy : string :=
  "Unnecessary conditional, value is always falsy.".
Definition alwaysTruthy : string :=
  "Unnecessary conditional, value is always truthy.".
Definition neverNullish : string :=
  "Unnecessary conditional, expected left-hand side of `??` operator to be possibly null or undefined.".
Definition alwaysNullish : string :=
  "Unnecessary conditional, left-hand side of `??` operator is always `null` or `undefined`.".
Definition literalBinaryExpression : string :=
  "Unnecessary conditional, both sides of the expression are literal values.".
Definition noOverlapBooleanExpression : string :=
  "Unnecessary conditional, the types have no overlap.".
Definition alwaysTruthyFunc : string :=
  "This callback should return a conditional, but return is always truthy.".
Definition alwaysFalsyFunc : string :=
  "This callback should return a conditional, but return is always falsy.".
Definition neverOptionalChain : string :=
  "Unnecessary optional chain on a non-nullish value.".

(** [type.value.toString()]; a literal type carries a value. *)
Definition valueToString (v : option LiteralValue) : string :=
  match v with
  | Some (StringValue s) => s
  | Some (NumberValue n) => NilEmpty.string_of_int (Z.to_int n)
  | Some (PseudoBigIntValue _ _) => "[object Object]"
  | None => ""
  end.

(** Truthiness utilities *)
Definition isTruthyLiteral (type : TsType) : bool :=
  tsutils.isTrueLiteralType type
  || (TS.isLiteral type
      && match value type with
         | Some v => truthyValue v
         | None => false
         end).

(** isLiteralType only covers numbers and strings, this is a more
    exhaustive check. *)
Definition isLiteral (type : TsType) : bool :=
  tsutils.isBooleanLiteralType type
  || (flags type =? 32768)
  || (flags type =? 65536)
  || (flags type =? 16384)
  || TS.isLiteral type.

Definition BOOL_OPERATORS : list SyntaxKind :=
  [ LessThanToken; GreaterThanToken; LessThanEqualsToken;
    GreaterThanEqualsToken; EqualsEqualsToken; EqualsEqualsEqualsToken;
    ExclamationEqualsToken; ExclamationEqualsEqualsToken ].

Definition ARRAY_PREDICATE_FUNCTIONS : list string :=
  [ "filter"; "find"; "some"; "every" ].

Definition Set_hasKind (s : list SyntaxKind) (k : SyntaxKind) : bool :=
  existsb (kind_eqb k) s.

Definition Set_hasName (s : list string) (x : string) : bool :=
  existsb (String.eqb x) s.

Definition isPropertyAccessExpression (n : Node) : bool :=
  kind_eqb (kind n) PropertyAccessExpression.
Definition isElementAccessExpression (n : Node) : bool :=
  kind_eqb (kind n) ElementAccessExpression.
Definition isCallExpression (n : Node) : bool :=
  kind_eqb (kind n) CallExpression.
Definition isBinaryExpression (n : Node) : bool :=
  kind_eqb (kind n) BinaryExpression.
Definition isConditionalExpression (n : Node) : bool :=
  kind_eqb (kind n) ConditionalExpression.
Definition isDoStatement (n : Node) : bool := kind_eqb (kind n) DoStatement.
Definition isForStatement (n : Node) : bool := kind_eqb (kind n) ForStatement.
Definition isIfStatement (n : Node) : bool := kind_eqb (kind n) IfStatement.
Definition isWhileStatement (n : Node) : bool :=
  kind_eqb (kind n) WhileStatement.
Definition isStringLiteralNode (n : Node) : bool :=
  kind_eqb (kind n) StringLiteral.
Definition isNonNullExpression (n : Node) : bool :=
  kind_eqb (kind n) NonNullExpression.

(** [node.questionDotToken] *)
Definition questionDotTokenOf (n : Node) : option Node :=
  match shape n with
  | SPropertyAccessExpression _ q _ => q
  | SElementAccessExpression _ q _ => q
  | SCallExpression _ q _ _ => q
  | _ => None
  end.

Definition hasQuestionDotToken (n : Node) : bool :=
  match questionDotTokenOf n with
  | Some _ => true
  | None => false
  end.

(** [ts.isPropertyAccessChain(node)], [ts.isElementAccessChain(node)] *)
Definition isOptionalChainFlagged (n : Node) : bool :=
  negb (Z.land (nodeFlags (info n)) NodeFlags.OptionalChain =? 0).
Definition isPropertyAccessChain (n : Node) : bool :=
  isPropertyAccessExpression n && isOptionalChainFlagged n.
Definition isElementAccessChain (n : Node) : bool :=
  isElementAccessExpression n && isOptionalChainFlagged n.

Section Create.
Variable options : Options.
Variable ctx : RuleContext.

Definition isPossiblyFalsy (type : TsType) : bool :=
  existsb
    (fun type => isTypeFlagSet (typeUtils ctx) type 117724)
    (filter (fun t => negb (isTruthyLiteral t))
       (flat_map (fun type => tsutils.intersectionTypeParts type)
          (tsutils.unionTypeParts type))).

Definition isPossiblyTruthy (type : TsType) : bool :=
  existsb
    (fun intersectionParts =>
       (* It is possible to define intersections that are always
          falsy, like ["" & { __brand: string }]. *)
       forallb (fun type => negb (tsutils.isFalsyType type))
         intersectionParts)
    (map (fun type => tsutils.intersectionTypeParts type)
       (tsutils.unionTypeParts type)).

(** Nullish utilities *)
Definition nullishFlag : Z := Z.lor 32768 65536.
Definition isNullishType (type : TsType) : bool :=
  isTypeFlagSet (typeUtils ctx) type nullishFlag.
Definition isPossiblyNullish (type : TsType) : bool :=
  existsb isNullishType (tsutils.unionTypeParts type).
Definition isAlwaysNullish (type : TsType) : bool :=
  forallb isNullishType (tsutils.unionTypeParts type).

Definition isStrictNullChecks : bool :=
  strictNullChecks (compilerOptions ctx).

Definition configurationCheck : M unit :=
  if negb isStrictNullChecks
     && negb (allowRuleToRunWithoutStrictNullChecksIKnowWhatIAmDoing options)
  then emit (reportWarning requiresStrictNullChecks 0 0)
  else ret tt.

Definition nodeIsArrayType (node : Node) : bool :=
  let nodeType := getConstrainedTypeAtLocation (checker ctx) node in
  existsb (fun part => isArrayType (checker ctx) part)
    (tsutils.unionTypeParts nodeType).

Definition nodeIsTupleType (node : Node) : bool :=
  let nodeType := getConstrainedTypeAtLocation (checker ctx) node in
  existsb (fun part => isTupleType (checker ctx) part)
    (tsutils.unionTypeParts nodeType).

Definition isArrayIndexExpression (node : Node) : bool :=
  match shape node with
  (* Is an index signature *)
  | SElementAccessExpression _ _ argumentExpression =>
      (* ...into an array type *)
      nodeIsArrayType argumentExpression
      (* ... or a tuple type *)
      || (nodeIsTupleType argumentExpression
          (* Exception: literal index into a tuple - will have a sound
             type *)
          && isStringLiteralNode argumentExpression)
  | _ => false
  end.

Fixpoint isNullablePropertyType (objType propertyType : TsType)
         {struct propertyType} : bool :=
  if isUnion propertyType
  then existsb (fun type => isNullablePropertyType objType type)
         (types propertyType)
  else
    let byIndexInfo :=
      let typeName := getTypeName (typeUtils ctx) propertyType in
      match find
              (fun keyType =>
                 String.eqb (getTypeName (typeUtils ctx) keyType) typeName)
              (getIndexInfosOfType (checker ctx) objType) with
      | Some _ => true
      | None => false
      end in
    if isNumberLiteral propertyType || isStringLiteral propertyType
    then
      match getTypeOfPropertyOfName (typeUtils ctx) objType
              (valueToString (value propertyType)) with
      | Some propType => isNullableType (typeUtils ctx) propType
      | None => byIndexInfo
      end
    else byIndexInfo.

Definition isNullableMemberExpression (node : Node) : bool :=
  match shape node with
  | SElementAccessExpression expression _ argumentExpression =>
      let objectType := getTypeAtLocation (checker ctx) expression in
      let propertyType :=
        getTypeAtLocation (checker ctx) argumentExpression in
      isNullablePropertyType objectType propertyType
  | SPropertyAccessExpression expression _ property =>
      let objectType := getTypeAtLocation (checker ctx) expression in
      match shape property with
      | SIdentifier escapedText =>
          match getProperty (checker ctx) objectType escapedText with
          | Some propertyType =>
              if tsutils.isSymbolFlagSet propertyType SymbolFlags.Optional
              then true
              else false
          | None => false
          end
      | _ => false
      end
  | _ => false
  end.

Definition involvesAnyUnknownOrTypeVariable (type : TsType) : bool :=
  existsb
    (fun part =>
       isTypeAnyType (typeUtils ctx) part
       || isTypeUnknownType (typeUtils ctx) part
       || isTypeFlagSet (typeUtils ctx) part TypeFlags.TypeVariable)
    (tsutils.unionTypeParts type).

(** The part of [checkNode] after its three early exits. *)
Definition checkNodeType (node : Node) (isUnaryNotArgument : bool)
  : list Diagnostic :=
  let type := getConstrainedTypeAtLocation (checker ctx) node in
  (* Conditional is always necessary if it involves: [any] or
     [unknown] or a naked type variable *)
  if involvesAnyUnknownOrTypeVariable type then []
  else
    let message : option string :=
      if isTypeFlagSet (typeUtils ctx) type TypeFlags.Never
      then Some valueIsNever
      else if negb (isPossiblyTruthy type)
      then Some (if negb isUnaryNotArgument then alwaysFalsy
                 else alwaysTruthy)
      else if negb (isPossiblyFalsy type)
      then Some (if negb isUnaryNotArgument then alwaysTruthy
                 else alwaysFalsy)
      else None in
    match message with
    | Some message => [reportWarning message (getStart node) (getEnd node)]
    | None => []
    end.

(** Checks if a conditional node is necessary: if the type of the node
    is always true or always false, it's not necessary. *)
Fixpoint checkNode (node : Node) (isUnaryNotArgument : bool)
         {struct node} : list Diagnostic :=
  match shape node with
  | SPrefixUnaryExpression operator operand =>
      (* Check if the node is Unary Negation expression and handle it *)
      if kind_eqb operator ExclamationToken
      then checkNode operand true
      else if isArrayIndexExpression node then []
      else checkNodeType node isUnaryNotArgument
  | SBinaryExpression _ operatorToken rhs =>
      if isArrayIndexExpression node then []
      (* When checking logical expressions, only check the right side *)
      else if negb (kind_eqb (kind operatorToken) QuestionQuestionToken)
      then checkNode rhs false
      else checkNodeType node isUnaryNotArgument
  | _ =>
      if isArrayIndexExpression node then []
      else checkNodeType node isUnaryNotArgument
  end.

(** Recursively searches an optional chain for an array index
    expression. *)
Fixpoint optionChainContainsOptionArrayIndex (node : Node) : bool :=
  match shape node with
  | SPropertyAccessExpression lhsNode q _
  | SElementAccessExpression lhsNode q _
  | SCallExpression lhsNode q _ _ =>
      if match q with Some _ => true | None => false end
         && isArrayIndexExpression lhsNode
      then true
      else if isPropertyAccessExpression lhsNode
              || isElementAccessExpression lhsNode
              || isCallExpression lhsNode
      then optionChainContainsOptionArrayIndex lhsNode
      else false
  | _ => false
  end.

Definition checkNodeForNullish (node : Node) : list Diagnostic :=
  let type := getConstrainedTypeAtLocation (checker ctx) node in
  (* Conditional is always necessary if it involves [any], [unknown]
     or a naked type parameter *)
  if isTypeFlagSet (typeUtils ctx) type
       (Z.lor TypeFlags.Any
          (Z.lor TypeFlags.Unknown
             (Z.lor TypeFlags.TypeParameter TypeFlags.TypeVariable)))
  then []
  else
    let message : option string :=
      if isTypeFlagSet (typeUtils ctx) type TypeFlags.Never
      then Some valueIsNever
      else if negb (isPossiblyNullish type)
              && negb ((isPropertyAccessExpression node
                        || isElementAccessExpression node)
                       && isNullableMemberExpression node)
      then
        if negb (isArrayIndexExpression node)
           && negb ((isPropertyAccessChain node
                     || isElementAccessChain node)
                    && negb (isNonNullExpression node)
                    && optionChainContainsOptionArrayIndex node)
        then Some neverNullish
        else None
      else if isAlwaysNullish type then Some alwaysNullish
      else None in
    match message with
    | Some message => [reportWarning message (getStart node) (getEnd node)]
    | None => []
    end.

(** Checks that a binary expression is necessarily conditional,
    reports otherwise.  If both sides of the binary expression are
    literal values, it's not a necessary condition. *)
Definition isComparable (operatorKind : SyntaxKind) (type : TsType)
           (flag : Z) : bool :=
  (* Allow comparison to [any], [unknown] or a naked type parameter. *)
  let flag :=
    Z.lor flag
      (Z.lor TypeFlags.Any
         (Z.lor TypeFlags.Unknown
            (Z.lor TypeFlags.TypeParameter TypeFlags.TypeVariable))) in
  (* Allow loose comparison to nullish values. *)
  let flag :=
    if kind_eqb operatorKind EqualsEqualsToken
       || kind_eqb operatorKind ExclamationEqualsToken
    then Z.lor flag
           (Z.lor TypeFlags.Null
              (Z.lor TypeFlags.Undefined TypeFlags.Void))
    else flag in
  isTypeFlagSet (typeUtils ctx) type flag.

Definition checkIfBinaryExpressionIsNecessaryConditional (node : Node)
  : list Diagnostic :=
  match shape node with
  | SBinaryExpression lhs operatorToken rhs =>
      if negb (Set_hasKind BOOL_OPERATORS (kind operatorToken)) then []
      else
        let leftType := getConstrainedTypeAtLocation (checker ctx) lhs in
        let rightType := getConstrainedTypeAtLocation (checker ctx) rhs in
        if isLiteral leftType && isLiteral rightType
        then [reportWarning literalBinaryExpression
                (getStart node) (getEnd node)]
        (* Workaround for
           https://github.com/microsoft/TypeScript/issues/37160 *)
        else if isStrictNullChecks
        then
          let UNDEFINED := TypeFlags.Undefined in
          let NULL := TypeFlags.Null in
          let VOID := TypeFlags.Void in
          let comparable := isComparable (kind operatorToken) in
          if ((flags leftType =? UNDEFINED)
              && negb (comparable rightType (Z.lor UNDEFINED VOID)))
             || ((flags rightType =? UNDEFINED)
                 && negb (comparable leftType (Z.lor UNDEFINED VOID)))
             || ((flags leftType =? NULL)
                 && negb (comparable rightType NULL))
             || ((flags rightType =? NULL)
                 && negb (comparable leftType NULL))
          then [reportWarning noOverlapBooleanExpression
                  (getStart node) (getEnd node)]
          else []
        else []
  | _ => []
  end.

(** Checks that a logical expression contains a boolean, reports
    otherwise. *)
Definition checkLogicalExpressionForUnnecessaryConditionals (node : Node)
  : list Diagnostic :=
  match shape node with
  | SBinaryExpression lhs operatorToken _ =>
      if kind_eqb (kind operatorToken) QuestionQuestionToken
      then checkNodeForNullish lhs
      (* Only checks the left side, since the right side might not be
         "conditional" at all. *)
      else checkNode lhs false
  | _ => []
  end.

(** Checks that a testable expression of a loop is necessarily
    conditional, reports otherwise. *)
Definition checkIfLoopIsNecessaryConditional (node : Node)
  : list Diagnostic :=
  let test :=
    match shape node with
    | SForStatement _ condition _ _ => condition
    | SDoStatement _ expression => Some expression
    | SWhileStatement expression _ => Some expression
    | _ => None
    end in
  match test with
  | None => []       (* e.g. [for(;;)] *)
  | Some test =>
      if allowConstantLoopConditions options
         && tsutils.isTrueLiteralType
              (getConstrainedTypeAtLocation (checker ctx) test)
      then []
      else checkNode test false
  end.

Definition isArrayPredicateFunction (node : Node) : bool :=
  match shape node with
  | SCallExpression expression _ _ _ =>
      (* looks like [something.filter] or [something.find] *)
      match shape expression with
      | SPropertyAccessExpression object _ name =>
          match shape name with
          | SIdentifier escapedText =>
              Set_hasName ARRAY_PREDICATE_FUNCTIONS escapedText
              (* and the left-hand side is an array, according to the
                 types *)
              && (nodeIsArrayType object || nodeIsTupleType object)
          | _ => false
          end
      | _ => false
      end
  | _ => false
  end.

(** The node a callback returns, in the two cases the rule looks into:
    [() => something] and [() => { return something; }]. *)
Definition returnedNode (callback : Node) : option Node :=
  match shape callback with
  | SArrowFunction _ body | SFunctionExpression _ body =>
      match shape body with
      | SBlock callbackBody =>
          match callbackBody with
          | [statement] =>
              match shape statement with
              | SReturnStatement (Some expression) => Some expression
              | _ => None
              end
          | _ => None
          end
      | _ => Some body
      end
  | _ => None
  end.

Definition checkCallExpression (node : Node) : list Diagnostic :=
  match shape node with
  | SCallExpression _ _ _ arguments =>
      (* If this is something like arr.filter(x => /*condition*/),
         check [condition] *)
      match arguments with
      | callback :: _ =>
          if isArrayPredicateFunction node
          then
            match returnedNode callback with
            | Some returned => checkNode returned false
            | None =>
                (* Otherwise just do type analysis on the function as a
                   whole. *)
                let returnTypes :=
                  getCallSignaturesOfType (checker ctx)
                    (getConstrainedTypeAtLocation (checker ctx) callback)
                in
                match returnTypes with
                | [] => []  (* Not a callable function *)
                | _ :: _ =>
                    (* Predicate is always necessary if it involves
                       [any] or [unknown] *)
                    if existsb
                         (fun t => isTypeAnyType (typeUtils ctx) t
                                   || isTypeUnknownType (typeUtils ctx) t)
                         returnTypes
                    then []
                    else
                      ((if negb (existsb isPossiblyFalsy returnTypes)
                        then [reportWarning alwaysTruthyFunc
                                (getStart callback) (getEnd callback)]
                        else [])
                       ++
                       (if negb (existsb isPossiblyTruthy returnTypes)
                        then [reportWarning alwaysFalsyFunc
                                (getStart callback) (getEnd callback)]
                        else []))%list
                end
            end
          else []
      | [] => []
      end
  | _ => []
  end.

(** Checks whether a member expression is nullable or not regardless
    of it's previous node. *)
Definition isMemberExpressionNullableOriginFromObject (node : Node)
  : bool :=
  match shape node with
  | SPropertyAccessExpression expression _ property
  | SElementAccessExpression expression _ property =>
      let prevType :=
        getConstrainedTypeAtLocation (checker ctx) expression in
      match shape property with
      | SIdentifier escapedText =>
          if isUnion prevType
          then
            let isOwnNullable :=
              existsb
                (fun type =>
                   if isElementAccessExpression node
                   then
                     let propertyType :=
                       getConstrainedTypeAtLocation (checker ctx) property
                     in
                     isNullablePropertyType type propertyType
                   else
                     match getTypeOfPropertyOfName (typeUtils ctx) type
                             escapedText with
                     | Some propType =>
                         isNullableType (typeUtils ctx) propType
                     | None => hasStringIndexInfo (checker ctx) type
                     end)
                (types prevType) in
            negb isOwnNullable && isNullableType (typeUtils ctx) prevType
          else false
      | _ => false
      end
  | _ => false
  end.

Definition isCallExpressionNullableOriginFromCallee (node : Node)
  : bool :=
  match shape node with
  | SCallExpression expression _ _ _ =>
      let prevType :=
        getConstrainedTypeAtLocation (checker ctx) expression in
      if isUnion prevType
      then
        let isOwnNullable :=
          existsb
            (fun type =>
               existsb
                 (fun returnType =>
                    isNullableType_allowUndefined (typeUtils ctx)
                      returnType)
                 (getCallSignatures (checker ctx) type))
            (types prevType) in
        negb isOwnNullable
        && isNullableType_allowUndefined (typeUtils ctx) prevType
      else false
  | _ => false
  end.

Definition isOptionableExpression (node : Node) : bool :=
  let type := getConstrainedTypeAtLocation (checker ctx) node in
  let isOwnNullable :=
    if isPropertyAccessExpression node || isElementAccessExpression node
    then negb (isMemberExpressionNullableOriginFromObject node)
    else if isCallExpression node
    then negb (isCallExpressionNullableOriginFromCallee node)
    else true in
  let possiblyVoid := isTypeFlagSet (typeUtils ctx) type TypeFlags.Void in
  isTypeFlagSet (typeUtils ctx) type
    (Z.lor TypeFlags.Any TypeFlags.Unknown)
  || (isOwnNullable
      && (isNullableType (typeUtils ctx) type || possiblyVoid)).

(** [node.expression] of a member or call expression *)
Definition expressionOf (node : Node) : option Node :=
  match shape node with
  | SPropertyAccessExpression expression _ _
  | SElementAccessExpression expression _ _
  | SCallExpression expression _ _ _ => Some expression
  | _ => None
  end.

Definition checkOptionalChain (node beforeOperator : Node) (fix_ : string)
  : M unit :=
  (* We only care if this step in the chain is optional. *)
  if negb (hasQuestionDotToken node) then ret tt
  else if optionChainContainsOptionArrayIndex node then ret tt
  else
    match expressionOf node with
    | None => ret tt
    | Some nodeToCheck =>
        if isOptionableExpression nodeToCheck then ret tt
        else
          (questionDotOperator <-
             liftC (nullThrows
                      (NoUnnecessaryTypeAssertion.getTokenAfter node
                         beforeOperator
                         (Some (fun token =>
                                  kind_eqb (kind token) QuestionDotToken)))
                      (NullThrowsReasons.MissingToken "operator" "?.")) ;;
           emit (withFix
                   (reportWarning neverOptionalChain
                      (getStart questionDotOperator)
                      (getEnd questionDotOperator))
                   "[No Description]"
                   (Normal
                      [ {| changes_fileName := fileName (sourceFile ctx);
                           textChanges :=
                             [ {| newText := fix_;
                                  span_start :=
                                    getStart questionDotOperator;
                                  span_length :=
                                    getWidth questionDotOperator |} ]
                        |} ])))%rule
    end.

Definition checkOptionalMemberExpression (node : Node) : M unit :=
  match expressionOf node with
  | Some expression =>
      checkOptionalChain node expression
        (if isElementAccessExpression node then "" else ".")
  | None => ret tt
  end.

Definition checkOptionalCallExpression (node : Node) : M unit :=
  match expressionOf node with
  | Some expression => checkOptionalChain node expression ""
  | None => ret tt
  end.

Definition operatorKindOf (node : Node) : option SyntaxKind :=
  match shape node with
  | SBinaryExpression _ operatorToken _ => Some (kind operatorToken)
  | _ => None
  end.

Definition operatorIs (node : Node) (k : SyntaxKind) : bool :=
  match operatorKindOf node with
  | Some k' => kind_eqb k' k
  | None => false
  end.

Definition leftOf (node : Node) : option Node :=
  match shape node with
  | SBinaryExpression lhs _ _ => Some lhs
  | _ => None
  end.

Definition onNode (o : option Node) (f : Node -> list Diagnostic)
  : M unit :=
  match o with
  | Some n => (f n, Normal tt)
  | None => throw "TypeError: Cannot read properties of undefined"
  end.

Definition conditionOf (node : Node) : option Node :=
  match shape node with
  | SConditionalExpression condition _ _ _ _ => Some condition
  | SIfStatement expression _ _ => Some expression
  | _ => None
  end.

(** The body of [cb] before [node.forEachChild(cb)]; the last branch
    calls [optionalCallHandler]. *)
Definition dispatch (optionalCallHandler : Node -> M unit)
           (ancestors : list Node) (node : Node) : M unit :=
  if isBinaryExpression node
  then
    (* Similar to checkLogicalExpressionForUnnecessaryConditionals,
       since [a ||= b] is equivalent to [a || (a = b)] *)
    if operatorIs node BarBarEqualsToken
       || operatorIs node AmpersandAmpersandEqualsToken
    then tryCatch (onNode (leftOf node) (fun l => checkNode l false))
    else if operatorIs node QuestionQuestionEqualsToken
    then tryCatch (onNode (leftOf node) checkNodeForNullish)
    else if operatorIs node QuestionQuestionToken
            || operatorIs node BarBarToken
            || operatorIs node AmpersandAmpersandToken
    then tryCatch
           (checkLogicalExpressionForUnnecessaryConditionals node,
            Normal tt)
    else tryCatch
           (checkIfBinaryExpressionIsNecessaryConditional node, Normal tt)
  else if isCallExpression node
  then tryCatch (checkCallExpression node, Normal tt)
  else if isConditionalExpression node
  then tryCatch (onNode (conditionOf node) (fun c => checkNode c false))
  else if isDoStatement node
  then tryCatch (checkIfLoopIsNecessaryConditional node, Normal tt)
  else if isForStatement node
  then tryCatch (checkIfLoopIsNecessaryConditional node, Normal tt)
  else if isIfStatement node
  then tryCatch (onNode (conditionOf node) (fun c => checkNode c false))
  else if isWhileStatement node
  then tryCatch (checkIfLoopIsNecessaryConditional node, Normal tt)
  else if (isPropertyAccessExpression node
           || isElementAccessExpression node)
          && hasQuestionDotToken node
  then tryCatch (checkOptionalMemberExpression node)
  else if isCallExpression node && hasQuestionDotToken node
  then tryCatch (optionalCallHandler node)
  else ret tt.

Definition visit (ancestors : list Node) (node : Node) : M Next :=
  (dispatch checkOptionalCallExpression ancestors node ;;;
   ret Descend)%rule.

Definition rule : M unit :=
  (configurationCheck ;;; Traversal.run visit (sourceFile ctx))%rule.

End Create.

End NoUnnecessaryCondition.

(* ================================================================== *)
(** ** The specification's wording, for comparison with the code *)

Module Spec.
Import TS Reporting Host.

(** "both types differ only by presence of an [undefined] constituent":
    leaving the [undefined] constituents out, the two types have the
    same constituents. *)
Definition nonUndefinedParts (t : TsType) : list TsType :=
  filter (fun part => negb (tsutils.isTypeFlagSet part TypeFlags.Undefined))
    (tsutils.unionTypeParts t).

Definition differOnlyByUndefined (a b : TsType) : bool :=
  forallb (Set_has (nonUndefinedParts b)) (nonUndefinedParts a)
  && forallb (Set_has (nonUndefinedParts a)) (nonUndefinedParts b).

(** "a literal-like type: a string/number/boolean literal, undefined,
    null, or void" *)
Definition LiteralLike (t : TsType) : Prop :=
  tsutils.isTypeFlagSet t TypeFlags.StringLiteral = true
  \/ tsutils.isTypeFlagSet t TypeFlags.NumberLiteral = true
  \/ tsutils.isTypeFlagSet t TypeFlags.BooleanLiteral = true
  \/ flags t = TypeFlags.Undefined
  \/ flags t = TypeFlags.Null
  \/ flags t = TypeFlags.Void.

(** "every reported span must satisfy start <= end and both must lie
    within the source file's byte length" *)
Definition spanWithin (len : Z) (d : Diagnostic) : Prop :=
  0 <= d_start d /\ d_start d <= d_end d /\ d_end d <= len.

(** The text of a node lies in the file, and the text of the properties
    of a node ends within the node: what the parser guarantees. *)
Definition rangeOk (len : Z) (n : Node) : Prop :=
  0 <= getStart n /\ getStart n <= getEnd n /\ getEnd n <= len.

Fixpoint wellFormed (len : Z) (n : Node) {struct n} : Prop :=
  rangeOk len n
  /\ Traversal.foldChildren True and
       (fun c => getEnd c <= getEnd n /\ wellFormed len c) (shape n).

Definition commentRangeOk (len : Z) (c : CommentRange) : Prop :=
  0 <= comment_pos c /\ comment_pos c <= comment_end c
  /\ comment_end c <= len.

(** The comment ranges the scanner finds lie in the text. *)
Definition commentsWithin (ts : Scanner) (text : string) : Prop :=
  forall p ranges,
    getLeadingCommentRanges ts text p = Some ranges ->
    Forall (commentRangeOk (JsString.length text)) ranges.

(** "a literal-like part (literal value, null, undefined, or
    unique-symbol)": a type that stands for one concrete value. *)
Definition literalLikePart (t : TsType) : Prop :=
  tsutils.isTypeFlagSet t TypeFlags.StringLiteral = true
  \/ tsutils.isTypeFlagSet t TypeFlags.NumberLiteral = true
  \/ tsutils.isTypeFlagSet t TypeFlags.BigIntLiteral = true
  \/ tsutils.isTypeFlagSet t TypeFlags.BooleanLiteral = true
  \/ tsutils.isTypeFlagSet t TypeFlags.Null = true
  \/ tsutils.isTypeFlagSet t TypeFlags.Undefined = true
  \/ tsutils.isTypeFlagSet t TypeFlags.UniqueESSymbol = true.

(** "the discriminant type itself contains any non-literal constituent":
    with the type decomposed into its union constituents, and each of
    them into its intersection parts, some part is not literal-like.  So
    ["foo" | number] and ["foo" & { bar: 1 }] contain a non-literal
    constituent, and ["foo" | "bar"] does not. *)
Definition hasNonLiteralConstituent (type : TsType) : Prop :=
  exists part sub,
    In part (tsutils.unionTypeParts type)
    /\ In sub (tsutils.intersectionTypeParts part)
    /\ ~ literalLikePart sub.

(** "any union constituent carries the ... flag": a nullability class
    (undefined, null or void, given by its flag) is present in a type when
    one of the union constituents of the type carries the flag. *)
Definition includesClass (class : Z) (t : TsType) : bool :=
  existsb (fun part => tsutils.isTypeFlagSet part class)
    (tsutils.unionTypeParts t).

(** "for each of the nullability classes undefined, null, and void
    present in the operand's type, the contextual type also includes that
    class" *)
Definition contextAccepts (type contextualType : TsType) : bool :=
  forallb
    (fun class =>
       implb (includesClass class type) (includesClass class contextualType))
    [TypeFlags.Undefined; TypeFlags.Null; TypeFlags.Void].


(** "a missing branch": a literal-like part of the discriminant type,
    decomposed into union and then intersection parts, that is not
    identity-equal to the type of any existing case clause. *)
Definition missingBranch (checker : TypeChecker) (type : TsType)
           (clauses : list Node) (s : TsType) : Prop :=
  (exists part,
      In part (tsutils.unionTypeParts type)
      /\ In s (tsutils.intersectionTypeParts part))
  /\ SwitchExhaustivenessCheck.isTypeLiteralLikeType s = true
  /\ forall clause expression statements,
       In clause clauses ->
       shape clause = SCaseClause expression statements ->
       type_id (Utils.getConstrainedTypeAtLocation checker expression)
       <> type_id s.

(** A text occurs in a string. *)
Definition occursIn (needle s : string) : Prop :=
  exists pre post, s = (pre ++ needle ++ post)%string.

End Spec.

(* ================================================================== *)
(** ** Sample programs *)

Module Samples.
Import TS Reporting Host.

Definition at_ (id : nat) (s e : Z) : NodeInfo :=
  {| node_id := id; pos := s; start := s; end_ := e; nodeFlags := 0 |}.

Definition token (id : nat) (k : SyntaxKind) (s e : Z) : Node :=
  mkNode (at_ id s e) [] (SToken k).

Definition identifier (id : nat) (name : string) (s e : Z) : Node :=
  mkNode (at_ id s e) [] (SIdentifier name).

(** Types of the checker. *)
Definition anyType : TsType := mkType 1 TypeFlags.Any [] None None "any".
Definition stringType : TsType :=
  mkType 2 TypeFlags.String [] None None "string".
Definition undefinedType : TsType :=
  mkType 3 TypeFlags.Undefined [] None None "undefined".
Definition nullType : TsType := mkType 4 TypeFlags.Null [] None None "null".
Definition numberType : TsType :=
  mkType 5 TypeFlags.Number [] None None "number".
Definition stringOrUndefined : TsType :=
  mkType 6 TypeFlags.Union [stringType; undefinedType] None None "".
Definition literalOne : TsType :=
  mkType 7 TypeFlags.NumberLiteral [] None (Some (NumberValue 1)) "".
Definition literalA : TsType :=
  mkType 8 TypeFlags.StringLiteral [] None (Some (StringValue "a")) "".
Definition literalB : TsType :=
  mkType 9 TypeFlags.StringLiteral [] None (Some (StringValue "b")) "".
Definition aOrB : TsType :=
  mkType 10 TypeFlags.Union [literalA; literalB] None None "".
Definition functionType : TsType :=
  mkType 11 TypeFlags.Object [] None None "".
Definition stringOrNull : TsType :=
  mkType 12 TypeFlags.Union [stringType; nullType] None None "".

Definition typeName (t : TsType) : string :=
  match value t with
  | Some (StringValue s) => "'" ++ s ++ "'"
  | Some (NumberValue n) => NilEmpty.string_of_int (Z.to_int n)
  | _ => intrinsicName t
  end.

(** A checker that knows the type of some nodes (by identity) and takes
    every other node to be [any]. *)
Fixpoint typeIn (known : list (nat * TsType)) (n : Node) : TsType :=
  match known with
  | [] => anyType
  | (id, t) :: rest =>
      if Nat.eqb id (node_id (info n)) then t else typeIn rest n
  end.

Definition sampleChecker (known : list (nat * TsType)) : TypeChecker :=
  {| getTypeAtLocation := typeIn known;
     getBaseConstraintOfType := fun _ => None;
     getTypeFromTypeNode := typeIn known;
     typeToString := typeName;
     isArrayType := fun _ => false;
     isTupleType := fun _ => false;
     getIndexInfosOfType := fun _ => [];
     hasStringIndexInfo := fun _ => false;
     getProperty := fun _ _ => None;
     getCallSignatures := fun _ => [];
     getCallSignaturesOfType := fun _ => [] |}.

(** The flags of a type and of the constituents of a union. *)
Definition unionFlags (t : TsType) : Z :=
  fold_left (fun acc part => Z.lor acc (flags part))
    (tsutils.unionTypeParts t) 0.

Definition sampleTypeUtils (contextual : Node -> option TsType) : TypeUtils :=
  {| getContextualType := contextual;
     getDeclaration := fun _ => None;
     isNullableType := fun t =>
       negb (Z.land (unionFlags t)
               (Z.lor TypeFlags.Null TypeFlags.Undefined) =? 0);
     isNullableType_allowUndefined := fun t =>
       negb (Z.land (unionFlags t)
               (Z.lor TypeFlags.Null TypeFlags.Undefined) =? 0);
     isTypeAnyType := fun t => negb (Z.land (flags t) TypeFlags.Any =? 0);
     isTypeUnknownType := fun t =>
       negb (Z.land (flags t) TypeFlags.Unknown =? 0);
     isTypeFlagSet := fun t flag => negb (Z.land (unionFlags t) flag =? 0);
     getTypeFlags := unionFlags;
     getTypeName := typeName;
     getTypeOfPropertyOfName := fun _ _ => None |}.

Definition isLetter (c : ascii) : bool :=
  let n := nat_of_ascii c in
  (Nat.leb 65 n && Nat.leb n 90) || (Nat.leb 97 n && Nat.leb n 122)
  || Nat.eqb n 95 || Nat.eqb n 36.

Definition isDigit (c : ascii) : bool :=
  let n := nat_of_ascii c in Nat.leb 48 n && Nat.leb n 57.

Definition sampleScanner (comments : Z -> option (list CommentRange))
  : Scanner :=
  {| isIdentifierStart := fun c _ => isLetter c;
     isIdentifierPart := fun c _ => isLetter c || isDigit c;
     getLeadingCommentRanges := fun _ p => comments p;
     characterOfPosition := fun _ p => p |}.

Definition strict : CompilerOptions :=
  {| strictNullChecks := true;
     exactOptionalPropertyTypes := false;
     target := None |}.

Definition strictExact : CompilerOptions :=
  {| strictNullChecks := true;
     exactOptionalPropertyTypes := true;
     target := None |}.

Definition sampleContext (sf : SourceFileData) (opts : CompilerOptions)
           (known : list (nat * TsType)) : RuleContext :=
  {| typescript := sampleScanner (fun _ => None);
     sourceFile := sf;
     checker := sampleChecker known;
     compilerOptions := opts;
     typeUtils := sampleTypeUtils (fun _ => None) |}.

Definition sourceFileOf (name txt : string) (statements : list Node)
  : SourceFileData :=
  let len := JsString.length txt in
  {| text := txt;
     fileName := name;
     root := mkNode (at_ 0 0 len)
               (statements ++ [token 1000 EndOfFileToken len len])%list
               (SOther SourceFile
                  (statements ++ [token 1000 EndOfFileToken len len])%list)
  |}.

(** [const foo = <number>(3 + 5);] (the program of test.js): the type
    assertion and the four children [getChildren] gives it. *)
Module TypeAssertion.
Definition source : string := "const foo = <number>(3 + 5);".
Definition lessThan : Node := token 11 LessThanToken 12 13.
Definition numberKeyword : Node := token 12 NumberKeyword 13 19.
Definition greaterThan : Node := token 13 GreaterThanToken 19 20.
Definition three : Node := token 15 NumericLiteral 21 22.
Definition plus : Node := token 16 PlusToken 23 24.
Definition five : Node := token 17 NumericLiteral 25 26.
Definition sum : Node :=
  mkNode (at_ 18 21 26) [three; plus; five]
    (SBinaryExpression three plus five).
Definition parenthesized : Node :=
  mkNode (at_ 14 20 27)
    [token 19 OpenParenToken 20 21; sum; token 20 CloseParenToken 26 27]
    (SOther ParenthesizedExpression [sum]).
Definition assertion : Node :=
  mkNode (at_ 10 12 27)
    [lessThan; numberKeyword; greaterThan; parenthesized]
    (STypeAssertion numberKeyword parenthesized).
Definition isLessThan (n : Node) : bool := kind_eqb (kind n) LessThanToken.
Definition isGreaterThan (n : Node) : bool :=
  kind_eqb (kind n) GreaterThanToken.
End TypeAssertion.

(** A file with no statement, for properties that only need a checker. *)
Definition emptyFile : SourceFileData := sourceFileOf "empty.ts" "" [].

Definition exactContext : RuleContext := sampleContext emptyFile strictExact [].

Definition contextWith (sf : SourceFileData) (opts : CompilerOptions)
           (known : list (nat * TsType)) (contextual : Node -> option TsType)
  : RuleContext :=
  {| typescript := sampleScanner (fun _ => None);
     sourceFile := sf;
     checker := sampleChecker known;
     compilerOptions := opts;
     typeUtils := sampleTypeUtils contextual |}.

(** [f(x!);] with [x : string | undefined] and a parameter of that type. *)
Module NonNull.
Definition source : string := "f(x!);".
Definition f : Node := identifier 21 "f" 0 1.
Definition x : Node := identifier 22 "x" 2 3.
Definition bang : Node := token 23 ExclamationToken 3 4.
Definition assertion : Node :=
  mkNode (at_ 24 2 4) [x; bang] (SNonNullExpression x).
Definition call : Node :=
  mkNode (at_ 25 0 5)
    [f; token 26 OpenParenToken 1 2; assertion; token 27 CloseParenToken 4 5]
    (SCallExpression f None [] [assertion]).
Definition statement : Node :=
  mkNode (at_ 28 0 6) [call; token 29 CloseBraceToken 5 6]
    (SOther ExpressionStatement [call]).
Definition file : SourceFileData := sourceFileOf "nonnull.ts" source [statement].
Definition context : RuleContext :=
  contextWith file strict [(22%nat, stringOrUndefined)]
    (fun n => if Nat.eqb (node_id (info n)) 24 then Some stringOrUndefined
              else None).
End NonNull.

(** [1 === 1;] *)
Module LiteralComparison.
Definition source : string := "1 === 1;".
Definition one : Node := token 31 NumericLiteral 0 1.
Definition equals : Node := token 32 EqualsEqualsEqualsToken 2 5.
Definition otherOne : Node := token 33 NumericLiteral 6 7.
Definition comparison : Node :=
  mkNode (at_ 34 0 7) [one; equals; otherOne]
    (SBinaryExpression one equals otherOne).
Definition statement : Node :=
  mkNode (at_ 35 0 8) [comparison] (SOther ExpressionStatement [comparison]).
Definition file : SourceFileData :=
  sourceFileOf "literal.ts" source [statement].
Definition context : RuleContext :=
  sampleContext file strict [(31%nat, literalOne); (33%nat, literalOne)].
End LiteralComparison.

(** [f?.();] with [f] a function. *)
Module OptionalCall.
Definition source : string := "f?.();".
Definition f : Node := identifier 41 "f" 0 1.
Definition questionDot : Node := token 42 QuestionDotToken 1 3.
Definition call : Node :=
  mkNode (at_ 43 0 5)
    [f; questionDot; token 44 OpenParenToken 3 4;
     token 45 CloseParenToken 4 5]
    (SCallExpression f (Some questionDot) [] []).
Definition statement : Node :=
  mkNode (at_ 46 0 6) [call] (SOther ExpressionStatement [call]).
Definition file : SourceFileData :=
  sourceFileOf "optional-call.ts" source [statement].
Definition context : RuleContext :=
  sampleContext file strict [(41%nat, functionType); (43%nat, stringType)].
End OptionalCall.

(** [switch (x.k) { case 'a': break; }] with [x.k : 'a' | 'b']. *)
Module Switch.
Definition source : string := "switch (x.k) { case 'a': break; }".
Definition x : Node := identifier 51 "x" 8 9.
Definition k : Node := identifier 52 "k" 10 11.
Definition discriminant : Node :=
  mkNode (at_ 53 8 11) [x; token 54 DotToken 9 10; k]
    (SPropertyAccessExpression x None k).
Definition caseA : Node := mkNode (at_ 55 20 23) [] SStringLiteral.
Definition breakStatement : Node :=
  mkNode (at_ 56 25 31) [] (SOther ExpressionStatement []).
Definition clause : Node :=
  mkNode (at_ 57 15 31) [caseA; breakStatement]
    (SCaseClause caseA [breakStatement]).
Definition openBrace : Node := token 58 OpenBraceToken 13 14.
Definition closeBrace : Node := token 59 CloseBraceToken 32 33.
Definition caseBlock : Node :=
  mkNode (at_ 60 13 33)
    [openBrace; mkNode (at_ 61 15 31) [clause] (SOther SyntaxList [clause]);
     closeBrace]
    (SCaseBlock [clause]).
Definition statement : Node :=
  mkNode (at_ 62 0 33)
    [token 63 OpenParenToken 7 8; discriminant; token 64 CloseParenToken 11 12;
     caseBlock]
    (SSwitchStatement discriminant caseBlock).
Definition file : SourceFileData := sourceFileOf "switch.ts" source [statement].
Definition context : RuleContext :=
  sampleContext file strict [(53%nat, aOrB); (55%nat, literalA)].

(** [switch (x.k) { case 'a': break; case 'b': break; default: break; }],
    as far as the rule reads it. *)
Definition caseB : Node := mkNode (at_ 65 38 41) [] SStringLiteral.
Definition clauseB : Node :=
  mkNode (at_ 66 33 49) [caseB] (SCaseClause caseB []).
Definition defaultClause : Node :=
  mkNode (at_ 67 50 65) [] (SDefaultClause []).
Definition fullCaseBlock : Node :=
  mkNode (at_ 68 13 67) [openBrace; closeBrace]
    (SCaseBlock [clause; clauseB; defaultClause]).
Definition fullContext : RuleContext :=
  sampleContext file strict
    [(53%nat, aOrB); (55%nat, literalA); (65%nat, literalB)].
Definition noDefaultAllowed : SwitchExhaustivenessCheck.Options :=
  {| SwitchExhaustivenessCheck.allowDefaultCaseForExhaustiveSwitch := false;
     SwitchExhaustivenessCheck.requireDefaultForNonUnion := false |}.
(** The same statement over a discriminant of type [string]. *)
Definition nonLiteralContext : RuleContext :=
  sampleContext file strict [(53%nat, stringType); (55%nat, literalA)].
End Switch.

(** A file that is one flagged line comment. *)
Module Suppression.
Definition source : string := "// @ts-ignore: legacy".
Definition comment : CommentRange :=
  {| comment_kind := SingleLineCommentTrivia;
     comment_pos := 0;
     comment_end := 21 |}.
Definition file : SourceFileData := sourceFileOf "suppress.ts" source [].
Definition context : RuleContext :=
  {| typescript :=
       sampleScanner (fun p => if p =? 21 then Some [comment] else None);
     sourceFile := file;
     checker := sampleChecker [];
     compilerOptions := strict;
     typeUtils := sampleTypeUtils (fun _ => None) |}.
End Suppression.

(** [a === null || a === undefined ? b : a;] as the parser gives it: in
    an expression [undefined] is an identifier, [null] a keyword token.
    [withUndefined u] is the statement with [u] as the node of
    [undefined]. *)
Module Ternary.
Definition source : string := "a === null || a === undefined ? b : a;".
Definition a1 : Node := identifier 71 "a" 0 1.
Definition equals1 : Node := token 72 EqualsEqualsEqualsToken 2 5.
Definition nullKeyword : Node := token 73 NullKeyword 6 10.
Definition nullTest : Node :=
  mkNode (at_ 74 0 10) [a1; equals1; nullKeyword]
    (SBinaryExpression a1 equals1 nullKeyword).
Definition barBar : Node := token 75 BarBarToken 11 13.
Definition a2 : Node := identifier 76 "a" 14 15.
Definition equals2 : Node := token 77 EqualsEqualsEqualsToken 16 19.
Definition undefinedIdentifier : Node := identifier 78 "undefined" 20 29.
Definition undefinedKeyword : Node := token 78 UndefinedKeyword 20 29.
Definition b : Node := identifier 82 "b" 32 33.
Definition a3 : Node := identifier 84 "a" 36 37.
Definition withUndefined (u : Node) : Node :=
  let undefinedTest :=
    mkNode (at_ 79 14 29) [a2; equals2; u] (SBinaryExpression a2 equals2 u) in
  let condition :=
    mkNode (at_ 80 0 29) [nullTest; barBar; undefinedTest]
      (SBinaryExpression nullTest barBar undefinedTest) in
  let question := token 81 QuestionToken 30 31 in
  let colon := token 83 ColonToken 34 35 in
  let ternary :=
    mkNode (at_ 85 0 37) [condition; question; b; colon; a3]
      (SConditionalExpression condition question b colon a3) in
  mkNode (at_ 86 0 38) [ternary] (SOther ExpressionStatement [ternary]).
Definition file (u : Node) : SourceFileData :=
  sourceFileOf "ternary.ts" source [withUndefined u].
Definition context (u : Node) : RuleContext :=
  sampleContext (file u) strict
    [(71%nat, stringOrNull); (76%nat, stringOrNull); (84%nat, stringOrNull)].
End Ternary.

End Samples.

(* ================================================================== *)
(** ** type-utils/getSourceFileOfNode.ts *)

Module GetSourceFileOfNode.
Import TS Reporting.

(** Gets the source file for a given node: the loop over
    [node = node.parent], [ancestors] being the chain of [parent]
    references of [node], nearest first.  Past the last parent [node] is
    [undefined], and reading its [kind] throws. *)
Fixpoint getSourceFileOfNode (ancestors : list Node) (node : Node)
  : Completion Node :=
  if negb (kind_eqb (kind node) SourceFile)
  then
    match ancestors with
    | parent :: rest => getSourceFileOfNode rest parent
    | [] =>
        Throw "TypeError: Cannot read properties of undefined (reading 'kind')"
    end
  else Normal node.

End GetSourceFileOfNode.

(* ================================================================== *)
(** ** getTokenAtPosition (test.js) *)

Module TokenAtPosition.
Import TS.

(** [position < end || (position === end && child.kind === EndOfFileToken)] *)
Definition holdsPosition (position : Z) (child : Node) : bool :=
  let end_ := getEnd child in
  (position <? end_)
  || ((position =? end_) && kind_eqb (kind child) EndOfFileToken).

(** The [while] loop from the moment [current] is taken off the queue.
    The queue holds one node at most: a child is pushed right before the
    [break] out of the [for] loop over the children, and taken off at the
    next turn. *)
Fixpoint descend (position : Z) (current : Node) {struct current} : Node :=
  (fix children (rest : list Node) : Node :=
     match rest with
     | [] => current
     | child :: rest' =>
         let start := getFullStart child in
         if start >? position
         (* If this child begins after position, then all subsequent
            children will as well. *)
         then current
         else if holdsPosition position child
         then descend position child
         else children rest'
     end) (getChildren current).

Definition getTokenAtPosition (sourceFile : SourceFileData) (position : Z)
  : Node :=
  descend position (root sourceFile).

End TokenAtPosition.

(* ================================================================== *)
(** ** tsslint.config.ts: convertTSLintRule *)

Module TSLintBridge.
Import TS Reporting.

(** What the function reads of TSLint: the severity in the options of
    the rule, and of every failure its text, its two positions and its
    fix, which is one replacement or an array of them. *)
Inductive RuleSeverity : Set := SeverityWarning | SeverityError | SeverityOff.

Record Replacement : Type := {
  replacement_text : string;
  replacement_start : Z;
  replacement_length : Z
}.

Inductive TSLintFix : Type :=
| OneReplacement (r : Replacement)
| Replacements (rs : list Replacement).

Record RuleFailure : Type := {
  getFailure : string;
  getStartPosition : Z;
  getEndPosition : Z;
  (** [undefined] when [hasFix()] is false *)
  getFix : option TSLintFix
}.

Section Convert.
Variable sourceFile : SourceFileData.

(** [Array.isArray(fix) ? fix : [fix]], for a failure that has a fix. *)
Definition replacesOf (failure : RuleFailure) : list Replacement :=
  match getFix failure with
  | Some (OneReplacement r) => [r]
  | Some (Replacements rs) => rs
  | None => []
  end.

(** [reporter.withFix('Replace with ' + replace.text, () => [...])] *)
Definition withReplacement (reporter : Diagnostic) (replace : Replacement)
  : Diagnostic :=
  withFix reporter ("Replace with " ++ replacement_text replace)
    (Normal
       [ {| changes_fileName := fileName sourceFile;
            textChanges :=
              [ {| newText := replacement_text replace;
                   span_start := replacement_start replace;
                   span_length := replacement_length replace |} ] |} ]).

(** The fix that call registers. *)
Definition replacementFix (replace : Replacement) : Fix :=
  {| description := "Replace with " ++ replacement_text replace;
     getEdits :=
       Normal
         [ {| changes_fileName := fileName sourceFile;
              textChanges :=
                [ {| newText := replacement_text replace;
                     span_start := replacement_start replace;
                     span_length := replacement_length replace |} ] |} ] |}.

(** The inner loop [for (let i = 0; i < failures.length; i++)], which
    goes through all the failures of the rule. *)
Definition withFixesOf (failures : list RuleFailure) (reporter : Diagnostic)
  : Diagnostic :=
  fold_left
    (fun reporter failure =>
       fold_left withReplacement (replacesOf failure) reporter)
    failures reporter.

(** The rule [convertTSLintRule(Rule)] returns, for the severity
    [rule.getOptions()] gives and the failures the TSLint rule finds. *)
Definition convertTSLintRule (ruleSeverity : RuleSeverity)
           (failures : list RuleFailure) : list Diagnostic :=
  match ruleSeverity with
  | SeverityOff => []
  | _ =>
      map
        (fun failure =>
           let report :=
             match ruleSeverity with
             | SeverityError => reportError
             | _ => reportWarning
             end in
           let reporter :=
             report (getFailure failure) (getStartPosition failure)
               (getEndPosition failure) in
           withFixesOf failures reporter)
        failures
  end.

End Convert.

End TSLintBridge.

(* ================================================================== *)
(** ** Tests on the code units of a text *)

Module Text.

(** Whether every code unit of a string satisfies [p]. *)
Fixpoint every (p : ascii -> bool) (s : string) : bool :=
  match s with
  | EmptyString => true
  | String c rest => p c && every p rest
  end.

Definition isLineTerminator (c : ascii) : bool :=
  Ascii.eqb c JsString.newline || Ascii.eqb c JsString.carriageReturn.

Definition noLineTerminator (s : string) : bool :=
  every (fun c => negb (isLineTerminator c)) s.

Definition noBackslash (s : string) : bool :=
  every (fun c => negb (Ascii.eqb c JsString.backslash)) s.

Definition noLineFeed (s : string) : bool :=
  every (fun c => negb (Ascii.eqb c JsString.newline)) s.

End Text.

(* ================================================================== *)
(** ** The text the fixes write, as JavaScript reads it *)

Module JsLiteral.

(** The value of a single-quoted string literal with the given body, for
    the escapes the fixes write: a backslash before a backslash, a quote,
    [n] or [r].  [None] when the body holds a quote or a line terminator
    of its own, which end the literal, or another escape. *)
Fixpoint valueOf (body : string) : option string :=
  match body with
  | EmptyString => Some EmptyString
  | String c rest =>
      if Ascii.eqb c JsString.backslash
      then
        match rest with
        | String d rest' =>
            let unit :=
              if Ascii.eqb d JsString.backslash then Some JsString.backslash
              else if Ascii.eqb d JsString.quote then Some JsString.quote
              else if Ascii.eqb d "n"%char then Some JsString.newline
              else if Ascii.eqb d "r"%char then Some JsString.carriageReturn
              else None in
            match unit, valueOf rest' with
            | Some u, Some v => Some (String u v)
            | _, _ => None
            end
        | EmptyString => None
        end
      else if Ascii.eqb c JsString.quote
              || Ascii.eqb c JsString.newline
              || Ascii.eqb c JsString.carriageReturn
      then None
      else
        match valueOf rest with
        | Some v => Some (String c v)
        | None => None
        end
  end.

End JsLiteral.

(* ================================================================== *)
(** ** Predicates the properties are stated with *)

Module Props.
Import TS Reporting Host.

(** [d] is [n] or is reached from [n] through [getChildren]. *)
Inductive within (n : Node) : Node -> Prop :=
| within_self : within n n
| within_child (c d : Node) :
    In c (getChildren n) -> within c d -> within n d.

(** [Q] holds of [n] and of every node [forEachChild] reaches from it. *)
Fixpoint everyNode (Q : Node -> Prop) (n : Node) {struct n} : Prop :=
  Q n /\ Traversal.foldChildren True and (everyNode Q) (shape n).

(** A diagnostic that carries no fix. *)
Definition plain (d : Diagnostic) : Prop := fixes d = [].

(** [tested] repeats the branch of a ternary that the operator of its
    test makes the result for a value that is neither null nor
    undefined. *)
Definition repeats (ctx : RuleContext) (operator : SyntaxKind)
           (whenTrue whenFalse tested : Node) : Prop :=
  (PreferNullishCoalescing.isNegated operator = true
   /\ Utils.isNodeEqual (sourceFile ctx) tested whenTrue = true)
  \/ (PreferNullishCoalescing.isPositive operator = true
      /\ Utils.isNodeEqual (sourceFile ctx) tested whenFalse = true).

(** [tested] is an operand of a comparison of the test [condition], and
    [operator] is the kind of the operator of that comparison: the
    comparison is the test itself, or one of the two sides of a test made
    with [||] or [&&]. *)
Inductive testedBy (condition : Node) : Node -> SyntaxKind -> Prop :=
| tested_directly (l o r tested : Node) :
    shape condition = SBinaryExpression l o r ->
    tested = l \/ tested = r ->
    testedBy condition tested (kind o)
| tested_on_a_side (lhs o rhs side l so r tested : Node) :
    shape condition = SBinaryExpression lhs o rhs ->
    kind o = BarBarToken \/ kind o = AmpersandAmpersandToken ->
    side = lhs \/ side = rhs ->
    shape side = SBinaryExpression l so r ->
    tested = l \/ tested = r ->
    testedBy condition tested (kind so).

End Props.

(* ================================================================== *)
(** ** More sample programs *)

Module Examples.
Import TS Reporting Host Samples.

(** [x as string] with [x : string]. *)
Module AsExpression.
Definition source : string := "x as string".
Definition x : Node := identifier 91 "x" 0 1.
Definition asKeyword : Node := token 92 AsKeyword 2 4.
Definition stringKeyword : Node := token 93 StringKeyword 5 11.
Definition assertion : Node :=
  mkNode (at_ 94 0 11) [x; asKeyword; stringKeyword]
    (SAsExpression x stringKeyword).
Definition statement : Node :=
  mkNode (at_ 95 0 11) [assertion] (SOther ExpressionStatement [assertion]).
Definition file : SourceFileData := sourceFileOf "as.ts" source [statement].
Definition context : RuleContext :=
  sampleContext file strict
    [(91%nat, stringType); (93%nat, stringType); (94%nat, stringType)].
Definition ignoreString : NoUnnecessaryTypeAssertion.Options :=
  {| NoUnnecessaryTypeAssertion.typesToIgnore := Some ["string"] |}.
Definition ignoreNothing : NoUnnecessaryTypeAssertion.Options :=
  {| NoUnnecessaryTypeAssertion.typesToIgnore := None |}.
End AsExpression.

(** The switch statements of [Samples.Switch] with other case blocks. *)
Module Switch.
Import Samples.Switch.
Definition requireDefault : SwitchExhaustivenessCheck.Options :=
  {| SwitchExhaustivenessCheck.allowDefaultCaseForExhaustiveSwitch := true;
     SwitchExhaustivenessCheck.requireDefaultForNonUnion := true |}.
(** [switch (x.k) { case 'a': break; case 'b': break; default: break; }] *)
Definition fullStatement : Node :=
  mkNode (at_ 69 0 67)
    [token 63 OpenParenToken 7 8; discriminant; token 64 CloseParenToken 11 12;
     fullCaseBlock]
    (SSwitchStatement discriminant fullCaseBlock).
(** [switch (x.k) { case 'a': break; case 'b': break; }] *)
Definition bothCaseBlock : Node :=
  mkNode (at_ 70 13 51) [openBrace; closeBrace]
    (SCaseBlock [clause; clauseB]).
Definition bothStatement : Node :=
  mkNode (at_ 71 0 51)
    [token 63 OpenParenToken 7 8; discriminant; token 64 CloseParenToken 11 12;
     bothCaseBlock]
    (SSwitchStatement discriminant bothCaseBlock).
End Switch.

(** A block comment whose marker is not on its last line. *)
Module BlockComment.
Definition source : string :=
  "/* @ts-ignore" ++ String JsString.newline " */".
Definition comment : CommentRange :=
  {| comment_kind := MultiLineCommentTrivia;
     comment_pos := 0;
     comment_end := 17 |}.
Definition file : SourceFileData := sourceFileOf "block.ts" source [].
Definition context : RuleContext :=
  {| typescript :=
       sampleScanner (fun p => if p =? 17 then Some [comment] else None);
     sourceFile := file;
     checker := sampleChecker [];
     compilerOptions := strict;
     typeUtils := sampleTypeUtils (fun _ => None) |}.
End BlockComment.

(** [null || b] *)
Module LogicalOr.
Definition source : string := "null || b".
Definition nullKeyword : Node := token 111 NullKeyword 0 4.
Definition barBar : Node := token 112 BarBarToken 5 7.
Definition b : Node := identifier 113 "b" 8 9.
Definition disjunction : Node :=
  mkNode (at_ 114 0 9) [nullKeyword; barBar; b]
    (SBinaryExpression nullKeyword barBar b).
Definition statement : Node :=
  mkNode (at_ 115 0 9) [disjunction] (SOther ExpressionStatement [disjunction]).
Definition file : SourceFileData := sourceFileOf "or.ts" source [statement].
Definition context : RuleContext :=
  sampleContext file strict [(111%nat, nullType)].
(** The nodes of [if (() => null || b) {}] above the disjunction, as far
    as [isConditionalTest] reads them. *)
Definition arrow : Node :=
  mkNode (at_ 116 0 9) [disjunction] (SArrowFunction [] disjunction).
Definition ifStatement : Node :=
  mkNode (at_ 117 0 9) [arrow] (SIfStatement arrow (token 118 Block 9 9) None).
End LogicalOr.

(** [a?.b] with [a : string]. *)
Module OptionalMember.
Definition source : string := "a?.b".
Definition a : Node := identifier 121 "a" 0 1.
Definition questionDot : Node := token 122 QuestionDotToken 1 3.
Definition b : Node := identifier 123 "b" 3 4.
Definition access : Node :=
  mkNode
    {| node_id := 124; pos := 0; start := 0; end_ := 4;
       nodeFlags := NodeFlags.OptionalChain |}
    [a; questionDot; b]
    (SPropertyAccessExpression a (Some questionDot) b).
Definition statement : Node :=
  mkNode (at_ 125 0 4) [access] (SOther ExpressionStatement [access]).
Definition file : SourceFileData := sourceFileOf "member.ts" source [statement].
Definition context : RuleContext :=
  sampleContext file strict [(121%nat, stringType); (124%nat, stringType)].
End OptionalMember.

(** [a !== null ? a : b] with [a : string | null]. *)
Module NullTernary.
Definition source : string := "a !== null ? a : b".
Definition a1 : Node := identifier 131 "a" 0 1.
Definition notEquals : Node := token 132 ExclamationEqualsEqualsToken 2 5.
Definition nullKeyword : Node := token 133 NullKeyword 6 10.
Definition test : Node :=
  mkNode (at_ 134 0 10) [a1; notEquals; nullKeyword]
    (SBinaryExpression a1 notEquals nullKeyword).
Definition question : Node := token 135 QuestionToken 11 12.
Definition a2 : Node := identifier 136 "a" 13 14.
Definition colon : Node := token 137 ColonToken 15 16.
Definition b : Node := identifier 138 "b" 17 18.
Definition ternary : Node :=
  mkNode (at_ 139 0 18) [test; question; a2; colon; b]
    (SConditionalExpression test question a2 colon b).
Definition statement : Node :=
  mkNode (at_ 140 0 18) [ternary] (SOther ExpressionStatement [ternary]).
Definition file : SourceFileData := sourceFileOf "null.ts" source [statement].
Definition context : RuleContext :=
  sampleContext file strict [(131%nat, stringOrNull)].
End NullTernary.

(** Two failures of a TSLint rule, the second with a fix. *)
Module Failures.
Import TSLintBridge.
Definition first : RuleFailure :=
  {| getFailure := "first"; getStartPosition := 0; getEndPosition := 1;
     getFix := None |}.
Definition second : RuleFailure :=
  {| getFailure := "second"; getStartPosition := 2; getEndPosition := 3;
     getFix :=
       Some (OneReplacement
               {| replacement_text := "x";
                  replacement_start := 2;
                  replacement_length := 1 |}) |}.
End Failures.

(** A file that is the line comment [//  @ts-ignore next]. *)
Module LineComment.
Definition source : string := "//  @ts-ignore next".
Definition comment : CommentRange :=
  {| comment_kind := SingleLineCommentTrivia;
     comment_pos := 0;
     comment_end := 19 |}.
Definition file : SourceFileData := sourceFileOf "line.ts" source [].
Definition context : RuleContext :=
  {| typescript :=
       sampleScanner (fun p => if p =? 19 then Some [comment] else None);
     sourceFile := file;
     checker := sampleChecker [];
     compilerOptions := strict;
     typeUtils := sampleTypeUtils (fun _ => None) |}.
End LineComment.

(** [a != null ? a : b] *)
Module LooseTernary.
Definition source : string := "a != null ? a : b".
Definition a1 : Node := identifier 151 "a" 0 1.
Definition notEquals : Node := token 152 ExclamationEqualsToken 2 4.
Definition nullKeyword : Node := token 153 NullKeyword 5 9.
Definition test : Node :=
  mkNode (at_ 154 0 9) [a1; notEquals; nullKeyword]
    (SBinaryExpression a1 notEquals nullKeyword).
Definition question : Node := token 155 QuestionToken 10 11.
Definition a2 : Node := identifier 156 "a" 12 13.
Definition colon : Node := token 157 ColonToken 14 15.
Definition b : Node := identifier 158 "b" 16 17.
Definition ternary : Node :=
  mkNode (at_ 159 0 17) [test; question; a2; colon; b]
    (SConditionalExpression test question a2 colon b).
Definition statement : Node :=
  mkNode (at_ 160 0 17) [ternary] (SOther ExpressionStatement [ternary]).
Definition file : SourceFileData := sourceFileOf "loose.ts" source [statement].
Definition context : RuleContext := sampleContext file strict [].
End LooseTernary.

(** More types of the checker.  [missingType] is the type of a property
    that is absent, which the checker keeps apart from [undefined] under
    exactOptionalPropertyTypes; it carries the Undefined flag too. *)
Definition missingType : TsType :=
  mkType 13 TypeFlags.Undefined [] None None "undefined".
Definition stringOrMissing : TsType :=
  mkType 14 TypeFlags.Union [stringType; missingType] None None "".
Definition stringOrNullOrUndefined : TsType :=
  mkType 15 TypeFlags.Union [stringType; nullType; undefinedType] None None "".
Definition literalC : TsType :=
  mkType 16 TypeFlags.StringLiteral [] None (Some (StringValue "c")) "".
Definition aOrBOrC : TsType :=
  mkType 17 TypeFlags.Union [literalA; literalB; literalC] None None "".
Definition literalFoo : TsType :=
  mkType 18 TypeFlags.StringLiteral [] None (Some (StringValue "foo")) "".
Definition objectBar : TsType :=
  mkType 19 TypeFlags.Object [] None None "{ bar: 1; }".
Definition fooAndBar : TsType :=
  mkType 20 TypeFlags.Intersection [literalFoo; objectBar] None None "".

(** [f(x!);] of [Samples.NonNull] with other types. *)
Module NonNullArgument.
Import Samples.NonNull.
(** [x : string | null | undefined] and a parameter of type
    [string | undefined]. *)
Definition nullableContext : RuleContext :=
  contextWith file strict [(22%nat, stringOrNullOrUndefined)]
    (fun n => if Nat.eqb (node_id (info n)) 24 then Some stringOrUndefined
              else None).
(** [x : string | undefined] and a parameter of type [string]. *)
Definition stringContext : RuleContext :=
  contextWith file strict [(22%nat, stringOrUndefined)]
    (fun n => if Nat.eqb (node_id (info n)) 24 then Some stringType
              else None).
End NonNullArgument.

(** [switch (x.k) { case 'a': break; }] of [Samples.Switch] with
    [x.k : 'a' | 'b' | 'c']. *)
Module SwitchOverThree.
Import Samples.Switch.
Definition context : RuleContext :=
  sampleContext file strict [(53%nat, aOrBOrC); (55%nat, literalA)].
End SwitchOverThree.

(** [switch (x) { case 'foo': break; default: break; }] with
    [x : 'foo' & { bar: 1 }]. *)
Module SwitchOverIntersection.
Definition source : string :=
  "switch (x) { case 'foo': break; default: break; }".
Definition x : Node := identifier 171 "x" 8 9.
Definition caseFoo : Node := mkNode (at_ 172 18 23) [] SStringLiteral.
Definition breakStatement : Node :=
  mkNode (at_ 174 25 31) [] (SOther ExpressionStatement []).
Definition clause : Node :=
  mkNode (at_ 173 13 31) [caseFoo; breakStatement]
    (SCaseClause caseFoo [breakStatement]).
Definition otherBreak : Node :=
  mkNode (at_ 176 41 47) [] (SOther ExpressionStatement []).
Definition defaultClause : Node :=
  mkNode (at_ 175 32 47) [otherBreak] (SDefaultClause [otherBreak]).
Definition openBrace : Node := token 177 OpenBraceToken 11 12.
Definition closeBrace : Node := token 178 CloseBraceToken 48 49.
Definition caseBlock : Node :=
  mkNode (at_ 179 11 49)
    [openBrace;
     mkNode (at_ 183 13 47) [clause; defaultClause]
       (SOther SyntaxList [clause; defaultClause]);
     closeBrace]
    (SCaseBlock [clause; defaultClause]).
Definition statement : Node :=
  mkNode (at_ 180 0 49)
    [token 181 OpenParenToken 7 8; x; token 182 CloseParenToken 9 10;
     caseBlock]
    (SSwitchStatement x caseBlock).
Definition file : SourceFileData :=
  sourceFileOf "intersection.ts" source [statement].
Definition context : RuleContext :=
  sampleContext file strict [(171%nat, fooAndBar); (172%nat, literalFoo)].
(** The case block of [switch (x) { case 'foo': break; }]. *)
Definition caseBlockWithoutDefault : Node :=
  mkNode (at_ 184 11 33) [openBrace; closeBrace] (SCaseBlock [clause]).
Definition statementWithoutDefault : Node :=
  mkNode (at_ 185 0 33)
    [token 181 OpenParenToken 7 8; x; token 182 CloseParenToken 9 10;
     caseBlockWithoutDefault]
    (SSwitchStatement x caseBlockWithoutDefault).
End SwitchOverIntersection.

End Examples.

(* ================================================================== *)
(** * Properties *)

(** ** Token lookup (no-unnecessary-type-assertion.ts) *)

Section TokenLookup.
Import TS NoUnnecessaryTypeAssertion.

Lemma forIndices_constant (indices : list Z) (r : option Node) :
  forIndices indices (fun _ => r) = match indices with [] => None | _ => r end.
Proof.
  induction indices as [| i rest IH]; simpl; [reflexivity |].
  destruct r; [reflexivity |].
  rewrite IH. destruct rest; reflexivity.
Qed.

(** Whatever the siblings are, [getTokenAfter] and [getTokenBefore] give
    back the node they were asked about, or nothing. *)
Lemma getTokenAfter_gives_node (parent node : Node) (condition : Condition)
      (r : Node) :
  getTokenAfter parent node condition = Some r -> r = node.
Proof.
  unfold getTokenAfter. rewrite forIndices_constant.
  destruct (upTo _ _); [discriminate |].
  destruct (holds condition node); congruence.
Qed.

Lemma getTokenBefore_gives_node (parent node : Node) (condition : Condition)
      (r : Node) :
  getTokenBefore parent node condition = Some r -> r = node.
Proof.
  unfold getTokenBefore. rewrite forIndices_constant.
  destruct (downTo0 _); [discriminate |].
  destruct (holds condition node); congruence.
Qed.

(** C1.  In [<number>(3 + 5)] the token after the type [number] that is
    a [>] exists, and so does the token before it that is a [<]: the
    sibling scans of the specification find them.  [getTokenAfter] and
    [getTokenBefore] test the node itself in place of its siblings and
    find nothing; without a condition they return the node itself. *)
Theorem getToken_tests_node_not_siblings :
  let p := Samples.TypeAssertion.assertion in
  let n := Samples.TypeAssertion.numberKeyword in
  getTokenAfter p n (Some Samples.TypeAssertion.isGreaterThan) = None
  /\ tokenAfter_spec p n (Some Samples.TypeAssertion.isGreaterThan)
     = Some Samples.TypeAssertion.greaterThan
  /\ getTokenBefore p n (Some Samples.TypeAssertion.isLessThan) = None
  /\ tokenBefore_spec p n (Some Samples.TypeAssertion.isLessThan)
     = Some Samples.TypeAssertion.lessThan
  /\ getTokenAfter p n None = Some n
  /\ tokenAfter_spec p n None = Some Samples.TypeAssertion.greaterThan.
Proof. repeat split; reflexivity. Qed.

End TokenLookup.

(** ** Type assertions (no-unnecessary-type-assertion.ts) *)

Section TypeAssertionFacts.
Import TS Host NoUnnecessaryTypeAssertion.

Lemma Set_has_true (parts : list TsType) (t : TsType) :
  Set_has parts t = true <-> exists u, In u parts /\ type_id u = type_id t.
Proof.
  unfold Set_has, sameType. rewrite existsb_exists.
  split; intros (u & Hin & Hu); exists u; split; auto.
  - symmetry. now apply Nat.eqb_eq.
  - apply Nat.eqb_eq. now symmetry.
Qed.

(** When [isTypeUnchanged] answers [true]. *)
Lemma isTypeUnchanged_true_iff
      (ctx : RuleContext) (uncast cast : TsType) :
  isTypeUnchanged ctx uncast cast = true
  <->
  type_id uncast = type_id cast
  \/ (exactOptionalPropertyTypes (compilerOptions ctx) = true
      /\ tsutils.isTypeFlagSet uncast TypeFlags.Undefined = true
      /\ tsutils.isTypeFlagSet cast TypeFlags.Undefined = true
      /\ List.length (withoutUndefined (tsutils.unionTypeParts uncast))
         = List.length (withoutUndefined (tsutils.unionTypeParts cast))
      /\ forall part,
           In part (withoutUndefined (tsutils.unionTypeParts cast)) ->
           exists u,
             In u (withoutUndefined (tsutils.unionTypeParts uncast))
             /\ type_id u = type_id part).
Proof.
  unfold isTypeUnchanged, sameType.
  destruct (Nat.eqb_spec (type_id uncast) (type_id cast)) as [Heq | Hne].
  - split; auto.
  - destruct (tsutils.isTypeFlagSet uncast TypeFlags.Undefined) eqn:Hu;
      destruct (tsutils.isTypeFlagSet cast TypeFlags.Undefined) eqn:Hc;
      destruct (exactOptionalPropertyTypes (compilerOptions ctx)) eqn:Hx;
      simpl;
      try (split; [discriminate | intros [H | H]; [contradiction | ];
                   destruct H as (? & ? & ? & _); discriminate]).
    destruct (Nat.eqb_spec
                (List.length (withoutUndefined (tsutils.unionTypeParts uncast)))
                (List.length (withoutUndefined (tsutils.unionTypeParts cast))))
      as [Hlen | Hlen]; simpl.
    + rewrite forallb_forall. split.
      * intros Hall. right. repeat split; auto.
        intros part Hin. apply Set_has_true. now apply Hall.
      * intros [H | (_ & _ & _ & _ & Hall)]; [contradiction |].
        intros part Hin. apply Set_has_true. now apply Hall.
    + split; [discriminate |].
      intros [H | (_ & _ & _ & Hl & _)]; [contradiction | contradiction].
Qed.

(** C3.  The exception of [isTypeUnchanged] is out of the reach of
    union types.  With exactOptionalPropertyTypes on, take two different
    types that differ only by the presence of an [undefined] constituent.
    When one of them does not carry the Undefined flag itself - and a
    union type does not: it carries the Union flag, and the flags of its
    constituents are on the constituents - [isTypeUnchanged] answers
    [false], where the specification has [true]. *)
Theorem isTypeUnchanged_false_for_unions_that_differ_by_undefined
        (ctx : RuleContext) (uncast cast : TsType) :
  exactOptionalPropertyTypes (compilerOptions ctx) = true ->
  Spec.differOnlyByUndefined uncast cast = true ->
  type_id uncast <> type_id cast ->
  tsutils.isTypeFlagSet uncast TypeFlags.Undefined = false
  \/ tsutils.isTypeFlagSet cast TypeFlags.Undefined = false ->
  isTypeUnchanged ctx uncast cast = false.
Proof.
  intros _ _ Hne Hflags.
  unfold isTypeUnchanged, sameType.
  destruct (Nat.eqb_spec (type_id uncast) (type_id cast)) as [Heq | _];
    [contradiction |].
  destruct Hflags as [-> | ->]; [reflexivity |].
  now rewrite andb_false_r.
Qed.

(** [foo.a as string | undefined] for [foo : { a?: string }]: the type of
    [foo.a] is the union of [string] and the type of an absent property,
    the asserted type the union of [string] and [undefined]. *)
Lemma isTypeUnchanged_false_for_unions_that_differ_by_undefined_witness :
  exactOptionalPropertyTypes (compilerOptions Samples.exactContext) = true
  /\ Spec.differOnlyByUndefined Examples.stringOrMissing
       Samples.stringOrUndefined = true
  /\ tsutils.unionTypeParts Examples.stringOrMissing
     = [Samples.stringType; Examples.missingType]
  /\ tsutils.unionTypeParts Samples.stringOrUndefined
     = [Samples.stringType; Samples.undefinedType]
  /\ isTypeUnchanged Samples.exactContext Examples.stringOrMissing
       Samples.stringOrUndefined = false.
Proof.
  split; [reflexivity |]. split; [reflexivity |].
  split; [reflexivity |]. split; [reflexivity |].
  apply (isTypeUnchanged_false_for_unions_that_differ_by_undefined
           Samples.exactContext Examples.stringOrMissing
           Samples.stringOrUndefined).
  - reflexivity.
  - reflexivity.
  - discriminate.
  - left. reflexivity.
Defined.

(** Where the constituents of [cast] are pairwise distinct, the exception
    of [isTypeUnchanged] compares the two sets of constituents: each
    constituent of [uncast] without the Undefined flag is then one of
    [cast] too. *)
Lemma isTypeUnchanged_same_constituents
      (ctx : RuleContext) (uncast cast : TsType) :
  NoDup (map type_id (withoutUndefined (tsutils.unionTypeParts cast))) ->
  isTypeUnchanged ctx uncast cast = true ->
  type_id uncast <> type_id cast ->
  forall u,
    In u (withoutUndefined (tsutils.unionTypeParts uncast)) ->
    exists part,
      In part (withoutUndefined (tsutils.unionTypeParts cast))
      /\ type_id part = type_id u.
Proof.
  intros Hnd Htrue Hne u Hu.
  apply isTypeUnchanged_true_iff in Htrue.
  destruct Htrue as [H | (_ & _ & _ & Hlen & Hall)]; [contradiction |].
  set (us := withoutUndefined (tsutils.unionTypeParts uncast)) in *.
  set (cs := withoutUndefined (tsutils.unionTypeParts cast)) in *.
  assert (Hincl : incl (map type_id cs) (map type_id us)).
  { intros i Hi. apply in_map_iff in Hi. destruct Hi as (part & <- & Hin).
    destruct (Hall part Hin) as (u' & Hu' & Hid).
    rewrite <- Hid. now apply in_map. }
  assert (Hback : incl (map type_id us) (map type_id cs)).
  { apply NoDup_length_incl; auto. rewrite !length_map. lia. }
  assert (Hi : In (type_id u) (map type_id cs)).
  { apply Hback. now apply in_map. }
  apply in_map_iff in Hi. destruct Hi as (part & Hid & Hin).
  exists part. auto.
Qed.

(** C4.  The rule looks for the nullability classes on the operand's
    type itself, and a union type carries none of the flags Undefined,
    Null and Void itself: they are on its constituents.  So for a
    non-null assertion outside a plain assignment whose operand has a
    nullable type that carries none of the three flags itself, the rule
    reports the assertion as unnecessary whenever there is a contextual
    type at the assertion: also when the operand's type includes a class
    (undefined, null or void) that the contextual type does not include,
    where the specification, and the comment in the rule, have no
    report. *)
Theorem nullable_union_assertion_reported_against_any_context
        (ctx : RuleContext) (ancestors : list Node) (node expression : Node)
        (contextualType : TsType) :
  isPlainAssignment (Traversal.parent ancestors) = false ->
  let type := Utils.getConstrainedTypeAtLocation (checker ctx) expression in
  isNullableType (typeUtils ctx) type = true ->
  tsutils.isTypeFlagSet type TypeFlags.Undefined = false ->
  tsutils.isTypeFlagSet type TypeFlags.Null = false ->
  tsutils.isTypeFlagSet type TypeFlags.Void = false ->
  getContextualType (typeUtils ctx) node = Some contextualType ->
  Spec.contextAccepts type contextualType = false ->
  Reporting.reported (visitNonNullExpression ctx ancestors node expression)
  = [ Reporting.withFix
        (Reporting.reportWarning
           "This assertion is unnecessary since the receiver accepts the original type of the expression."
           (getStart node) (getEnd node))
        "[No Description]"
        (Reporting.Normal
           [ {| Reporting.changes_fileName := fileName (sourceFile ctx);
                Reporting.textChanges :=
                  [ {| Reporting.newText := "";
                       Reporting.span_start := getEnd expression;
                       Reporting.span_length :=
                         getEnd node - getEnd expression |} ] |} ]) ].
Proof.
  intros Hparent type Hnullable Hundefined Hnull Hvoid Hcontext _.
  unfold visitNonNullExpression. rewrite Hparent. fold type.
  rewrite Hnullable. simpl. rewrite Hcontext.
  unfold acceptedByContext. rewrite Hundefined, Hnull, Hvoid.
  reflexivity.
Qed.

(** [f(x!);] twice: with [x : string | null | undefined] where the
    parameter has type [string | undefined], the example of the comment in
    the rule, and with [x : string | undefined] where the parameter has
    type [string]. *)
Lemma nullable_union_assertion_reported_against_any_context_witness :
  (Spec.includesClass TypeFlags.Null Examples.stringOrNullOrUndefined = true
   /\ Spec.includesClass TypeFlags.Null Samples.stringOrUndefined = false
   /\ Reporting.reported
        (visitNonNullExpression Examples.NonNullArgument.nullableContext
           [Samples.NonNull.call; Samples.NonNull.statement]
           Samples.NonNull.assertion Samples.NonNull.x)
      = [ Reporting.withFix
            (Reporting.reportWarning
               "This assertion is unnecessary since the receiver accepts the original type of the expression."
               2 4)
            "[No Description]"
            (Reporting.Normal
               [ {| Reporting.changes_fileName := "nonnull.ts";
                    Reporting.textChanges :=
                      [ {| Reporting.newText := "";
                           Reporting.span_start := 3;
                           Reporting.span_length := 1 |} ] |} ]) ])
  /\ (Spec.includesClass TypeFlags.Undefined Samples.stringOrUndefined = true
      /\ Spec.includesClass TypeFlags.Undefined Samples.stringType = false
      /\ Reporting.reported
           (visitNonNullExpression Examples.NonNullArgument.stringContext
              [Samples.NonNull.call; Samples.NonNull.statement]
              Samples.NonNull.assertion Samples.NonNull.x)
         = [ Reporting.withFix
               (Reporting.reportWarning
                  "This assertion is unnecessary since the receiver accepts the original type of the expression."
                  2 4)
               "[No Description]"
               (Reporting.Normal
                  [ {| Reporting.changes_fileName := "nonnull.ts";
                       Reporting.textChanges :=
                         [ {| Reporting.newText := "";
                              Reporting.span_start := 3;
                              Reporting.span_length := 1 |} ] |} ]) ]).
Proof.
  split; (split; [reflexivity |]); (split; [reflexivity |]).
  - apply (nullable_union_assertion_reported_against_any_context
             Examples.NonNullArgument.nullableContext
             [Samples.NonNull.call; Samples.NonNull.statement]
             Samples.NonNull.assertion Samples.NonNull.x
             Samples.stringOrUndefined); reflexivity.
  - apply (nullable_union_assertion_reported_against_any_context
             Examples.NonNullArgument.stringContext
             [Samples.NonNull.call; Samples.NonNull.statement]
             Samples.NonNull.assertion Samples.NonNull.x
             Samples.stringType); reflexivity.
Defined.

End TypeAssertionFacts.

(** ** Conditions (no-unnecessary-condition.ts) *)

Section ConditionFacts.
Import TS Host Reporting NoUnnecessaryCondition.

Lemma kind_eqb_eq (a b : SyntaxKind) : kind_eqb a b = true <-> a = b.
Proof.
  unfold kind_eqb. split.
  - apply internal_SyntaxKind_dec_bl.
  - apply internal_SyntaxKind_dec_lb.
Qed.

Lemma land_nonzero_widen (f small big : Z) :
  Z.land big small = small -> Z.land f small <> 0 -> Z.land f big <> 0.
Proof.
  intros Hsub Hnz Hz. apply Hnz.
  rewrite <- Hsub, Z.land_assoc, Hz. reflexivity.
Qed.

Lemma isTypeFlagSet_widen (t : TsType) (small big : Z) :
  Z.land big small = small ->
  tsutils.isTypeFlagSet t small = true ->
  tsutils.isTypeFlagSet t big = true.
Proof.
  unfold tsutils.isTypeFlagSet. intros Hsub H.
  apply negb_true_iff in H. apply Z.eqb_neq in H.
  apply negb_true_iff. apply Z.eqb_neq.
  now apply (land_nonzero_widen _ small).
Qed.

(** A literal-like type, in the words of the specification, is a literal
    for the rule. *)
Lemma LiteralLike_isLiteral (t : TsType) :
  Spec.LiteralLike t -> isLiteral t = true.
Proof.
  unfold Spec.LiteralLike, isLiteral, tsutils.isBooleanLiteralType.
  intros [H | [H | [H | [H | [H | H]]]]].
  - assert (Hl : TS.isLiteral t = true).
    { apply (isTypeFlagSet_widen t TypeFlags.StringLiteral); auto. }
    rewrite Hl. now rewrite !orb_true_r.
  - assert (Hl : TS.isLiteral t = true).
    { apply (isTypeFlagSet_widen t TypeFlags.NumberLiteral); auto. }
    rewrite Hl. now rewrite !orb_true_r.
  - now rewrite H.
  - rewrite H. simpl. now rewrite !orb_true_r.
  - rewrite H. simpl. now rewrite !orb_true_r.
  - rewrite H. simpl. now rewrite !orb_true_r.
Qed.

(** C8.  A comparison with one of [<], [>], [<=], [>=], [==], [===],
    [!=], [!==] whose two operands have literal-like constrained types is
    reported, once, over the whole comparison, with the message that both
    sides of the expression are literal values. *)
Theorem literal_comparison_is_reported
        (options : Options) (ctx : RuleContext) (ancestors : list Node)
        (node lhs operatorToken rhs : Node) :
  shape node = SBinaryExpression lhs operatorToken rhs ->
  In (kind operatorToken)
     [ LessThanToken; GreaterThanToken; LessThanEqualsToken;
       GreaterThanEqualsToken; EqualsEqualsToken; EqualsEqualsEqualsToken;
       ExclamationEqualsToken; ExclamationEqualsEqualsToken ] ->
  Spec.LiteralLike (Utils.getConstrainedTypeAtLocation (checker ctx) lhs) ->
  Spec.LiteralLike (Utils.getConstrainedTypeAtLocation (checker ctx) rhs) ->
  reported (visit options ctx ancestors node)
  = [ reportWarning
        "Unnecessary conditional, both sides of the expression are literal values."
        (getStart node) (getEnd node) ].
Proof.
  intros Hshape Hop Hl Hr.
  apply LiteralLike_isLiteral in Hl. apply LiteralLike_isLiteral in Hr.
  unfold visit, dispatch, isBinaryExpression, operatorIs, operatorKindOf,
    checkIfBinaryExpressionIsNecessaryConditional, kind at 1.
  rewrite Hshape. simpl.
  simpl in Hop.
  destruct Hop as [H | [H | [H | [H | [H | [H | [H | [H | []]]]]]]]];
    rewrite <- H; simpl; rewrite Hl, Hr; reflexivity.
Qed.

Lemma literal_comparison_is_reported_witness :
  reported
    (visit defaultOptions Samples.LiteralComparison.context
       [Samples.LiteralComparison.statement]
       Samples.LiteralComparison.comparison)
  = [ reportWarning
        "Unnecessary conditional, both sides of the expression are literal values."
        0 7 ].
Proof.
  apply (literal_comparison_is_reported defaultOptions
           Samples.LiteralComparison.context
           [Samples.LiteralComparison.statement]
           Samples.LiteralComparison.comparison
           Samples.LiteralComparison.one
           Samples.LiteralComparison.equals
           Samples.LiteralComparison.otherOne).
  - reflexivity.
  - simpl. tauto.
  - right. left. reflexivity.
  - right. left. reflexivity.
Defined.

(** What [checkNode] can say. *)
Lemma checkNodeType_messages (ctx : RuleContext) (n : Node) (b : bool)
      (d : Diagnostic) :
  In d (checkNodeType ctx n b) ->
  message d = valueIsNever \/ message d = alwaysFalsy
  \/ message d = alwaysTruthy.
Proof.
  unfold checkNodeType.
  destruct (involvesAnyUnknownOrTypeVariable ctx _); [intros [] |].
  destruct (isTypeFlagSet (typeUtils ctx) _ TypeFlags.Never).
  { intros [<- | []]. auto. }
  destruct (negb (isPossiblyTruthy _)).
  { intros [<- | []]. destruct b; simpl; auto. }
  destruct (negb (isPossiblyFalsy ctx _)).
  { intros [<- | []]. destruct b; simpl; auto. }
  intros [].
Qed.

Lemma checkNode_messages (ctx : RuleContext) (n : Node) :
  forall (b : bool) (d : Diagnostic),
    In d (checkNode ctx n b) ->
    message d = valueIsNever \/ message d = alwaysFalsy
    \/ message d = alwaysTruthy.
Proof.
  induction n as [i cs _ sh IH] using Node_ind.
  intros b d. simpl.
  destruct IH; simpl;
    repeat match goal with
           | |- context [if ?c then _ else _] => destruct c
           end;
    try (apply checkNodeType_messages); try (intros []); eauto.
Qed.

Lemma checkCallExpression_messages (ctx : RuleContext) (n : Node)
      (d : Diagnostic) :
  In d (checkCallExpression ctx n) ->
  message d <> neverOptionalChain.
Proof.
  unfold checkCallExpression.
  destruct (shape n); try (intros []).
  destruct arguments as [| callback rest]; [intros [] |].
  destruct (isArrayPredicateFunction ctx n); [| intros []].
  destruct (returnedNode callback) as [returned |].
  - intros H. apply checkNode_messages in H.
    destruct H as [-> | [-> | ->]]; discriminate.
  - destruct (getCallSignaturesOfType _ _); [intros [] |].
    destruct (existsb _ _); [intros [] |].
    intros H. apply in_app_or in H.
    destruct H as [H | H];
      [destruct (negb (existsb (isPossiblyFalsy ctx) _))
      | destruct (negb (existsb isPossiblyTruthy _))];
      simpl in H; try contradiction;
      destruct H as [<- | []]; discriminate.
Qed.

(** C9.  In the dispatch of the rule the branch guarded by
    [ts.isCallExpression(node) && node.questionDotToken] is never taken:
    what the rule does at a node is the same whatever that branch would
    do, a call expression is handled by [checkCallExpression] alone, and
    no diagnostic reported at a call expression is the one for an
    unnecessary optional chain. *)
Theorem optional_call_branch_is_unreachable
        (options : Options) (ctx : RuleContext) (ancestors : list Node)
        (node : Node) :
  (forall handler handler' : Node -> M unit,
      dispatch options ctx handler ancestors node
      = dispatch options ctx handler' ancestors node)
  /\ (isCallExpression node = true ->
      reported (visit options ctx ancestors node)
      = checkCallExpression ctx node
      /\ forall d,
          In d (reported (visit options ctx ancestors node)) ->
          message d <> "Unnecessary optional chain on a non-nullish value.").
Proof.
  split.
  - intros handler handler'. unfold dispatch.
    destruct (isBinaryExpression node); [reflexivity |].
    destruct (isCallExpression node); reflexivity.
  - intros Hcall.
    assert (Hk : kind node = CallExpression) by now apply kind_eqb_eq.
    assert (Heq : reported (visit options ctx ancestors node)
                  = checkCallExpression ctx node).
    { unfold visit, dispatch, isBinaryExpression. rewrite Hcall, Hk. simpl.
      now rewrite app_nil_r. }
    split; [exact Heq |].
    rewrite Heq. apply checkCallExpression_messages.
Qed.

Lemma optional_call_branch_is_unreachable_witness :
  isCallExpression Samples.OptionalCall.call = true
  /\ hasQuestionDotToken Samples.OptionalCall.call = true
  /\ reported
       (visit defaultOptions Samples.OptionalCall.context
          [Samples.OptionalCall.statement] Samples.OptionalCall.call)
     = checkCallExpression Samples.OptionalCall.context
         Samples.OptionalCall.call.
Proof.
  split; [reflexivity |]. split; [reflexivity |].
  apply (optional_call_branch_is_unreachable defaultOptions
           Samples.OptionalCall.context [Samples.OptionalCall.statement]
           Samples.OptionalCall.call).
  reflexivity.
Defined.

End ConditionFacts.

(** ** Switch statements (switch-exhaustiveness-check.ts) *)

Section SwitchFacts.
Import TS Host Reporting SwitchExhaustivenessCheck.

(** What the rule takes for a type that contains a non-literal type: a
    union constituent none of whose intersection parts is literal-like. *)
Lemma doesTypeContainNonLiteralType_iff (type : TsType) :
  doesTypeContainNonLiteralType type = true
  <-> exists part,
      In part (tsutils.unionTypeParts type)
      /\ forall sub,
           In sub (tsutils.intersectionTypeParts part) ->
           isTypeLiteralLikeType sub = false.
Proof.
  unfold doesTypeContainNonLiteralType.
  rewrite existsb_exists. split.
  - intros (part & Hin & Hall). exists part. split; [exact Hin |].
    rewrite forallb_forall in Hall. intros sub Hsub.
    apply Hall in Hsub. now apply negb_true_iff.
  - intros (part & Hin & Hall). exists part. split; [exact Hin |].
    apply forallb_forall. intros sub Hsub.
    apply negb_true_iff. now apply Hall.
Qed.

Lemma isTypeFlagSet_lor (t : TsType) (a b : Z) :
  tsutils.isTypeFlagSet t (Z.lor a b)
  = tsutils.isTypeFlagSet t a || tsutils.isTypeFlagSet t b.
Proof.
  unfold tsutils.isTypeFlagSet. rewrite Z.land_lor_distr_r.
  destruct (Z.eqb_spec (Z.land (flags t) a) 0) as [Ha | Ha];
    destruct (Z.eqb_spec (Z.land (flags t) b) 0) as [Hb | Hb]; simpl.
  - rewrite Ha, Hb. reflexivity.
  - apply negb_true_iff, Z.eqb_neq. intros H.
    apply Z.lor_eq_0_iff in H. tauto.
  - apply negb_true_iff, Z.eqb_neq. intros H.
    apply Z.lor_eq_0_iff in H. tauto.
  - apply negb_true_iff, Z.eqb_neq. intros H.
    apply Z.lor_eq_0_iff in H. tauto.
Qed.

(** The literal-like types of the rule are the literal-like parts of the
    specification. *)
Lemma isTypeLiteralLikeType_iff (t : TsType) :
  isTypeLiteralLikeType t = true <-> Spec.literalLikePart t.
Proof.
  unfold isTypeLiteralLikeType, Spec.literalLikePart.
  change 2944
    with (Z.lor TypeFlags.StringLiteral
            (Z.lor TypeFlags.NumberLiteral
               (Z.lor TypeFlags.BigIntLiteral TypeFlags.BooleanLiteral))).
  change 32768 with TypeFlags.Undefined.
  change 65536 with TypeFlags.Null.
  change 8192 with TypeFlags.UniqueESSymbol.
  rewrite !isTypeFlagSet_lor, !orb_true_iff.
  tauto.
Qed.

Lemma caseTypesOf_has (ctx : RuleContext) (clauses : list Node) (s : TsType) :
  Set_has (caseTypesOf ctx clauses) s = true
  <-> exists clause expression statements,
      In clause clauses
      /\ shape clause = SCaseClause expression statements
      /\ type_id (Utils.getConstrainedTypeAtLocation (checker ctx) expression)
         = type_id s.
Proof.
  rewrite Set_has_true. unfold caseTypesOf. split.
  - intros (u & Hin & Hid). apply in_flat_map in Hin.
    destruct Hin as (clause & Hclause & Hu).
    destruct (shape clause) eqn:Hshape; try contradiction.
    destruct Hu as [<- | []].
    exists clause, expression, statements. auto.
  - intros (clause & expression & statements & Hin & Hshape & Hid).
    exists (Utils.getConstrainedTypeAtLocation (checker ctx) expression).
    split; [| exact Hid].
    apply in_flat_map. exists clause. split; [exact Hin |].
    rewrite Hshape. now left.
Qed.

(** The missing branches the rule computes are the missing branches of the
    specification. *)
Lemma missingBranchTypesOf_spec (ctx : RuleContext) (type : TsType)
      (clauses : list Node) (s : TsType) :
  In s (missingBranchTypesOf type (caseTypesOf ctx clauses))
  <-> Spec.missingBranch (checker ctx) type clauses s.
Proof.
  unfold missingBranchTypesOf, Spec.missingBranch. split.
  - intros Hin. apply in_flat_map in Hin. destruct Hin as (part & Hpart & Hin).
    apply in_flat_map in Hin. destruct Hin as (sub & Hsub & Hin).
    destruct (Set_has (caseTypesOf ctx clauses) sub) eqn:Hhas;
      [contradiction |].
    destruct (isTypeLiteralLikeType sub) eqn:Hlit; [| contradiction].
    destruct Hin as [<- | []].
    split; [exists part; auto |]. split; [exact Hlit |].
    intros clause expression statements Hc Hshape Hid.
    assert (Set_has (caseTypesOf ctx clauses) sub = true).
    { apply caseTypesOf_has. exists clause, expression, statements. auto. }
    congruence.
  - intros ((part & Hpart & Hsub) & Hlit & Hnone).
    apply in_flat_map. exists part. split; [exact Hpart |].
    apply in_flat_map. exists s. split; [exact Hsub |].
    destruct (Set_has (caseTypesOf ctx clauses) s) eqn:Hhas.
    + apply caseTypesOf_has in Hhas.
      destruct Hhas as (clause & expression & statements & Hc & Hshape & Hid).
      exfalso. exact (Hnone clause expression statements Hc Hshape Hid).
    + rewrite Hlit. now left.
Qed.

(** C7.  The rule takes a discriminant type to contain a non-literal
    type only when a union constituent has no literal-like intersection
    part at all.  So, with allowDefaultCaseForExhaustiveSwitch off, take a
    switch statement with a default clause and no missing literal branch
    whose discriminant type contains a non-literal constituent, while
    each of its union constituents has a literal-like intersection part,
    as ["foo" & { bar: 1 }] has: the rule reports the default clause as
    unnecessary, where the specification, and the comment on
    [doesTypeContainNonLiteralType], have no report. *)
Theorem default_reported_although_a_constituent_is_not_literal
        (options : Options) (ctx : RuleContext)
        (expression caseBlock defaultClause : Node) :
  allowDefaultCaseForExhaustiveSwitch options = false ->
  let type := Utils.getConstrainedTypeAtLocation (checker ctx) expression in
  let clauses := clausesOf caseBlock in
  find (fun c => kind_eqb (kind c) DefaultClause) clauses
  = Some defaultClause ->
  (forall s, ~ Spec.missingBranch (checker ctx) type clauses s) ->
  Spec.hasNonLiteralConstituent type ->
  (forall part,
      In part (tsutils.unionTypeParts type) ->
      exists sub,
        In sub (tsutils.intersectionTypeParts part)
        /\ Spec.literalLikePart sub) ->
  checkSwitchUnnecessaryDefaultCase options
    (getSwitchMetadata ctx expression caseBlock)
  = [ reportWarning
        "The switch statement is exhaustive, so the default case is unnecessary."
        (getStart defaultClause) (getEnd defaultClause) ].
Proof.
  intros Hopt type clauses Hdefault Hnone _ Hliteral.
  unfold checkSwitchUnnecessaryDefaultCase, getSwitchMetadata. rewrite Hopt.
  simpl. fold type. fold clauses. rewrite Hdefault.
  assert (Hmiss : missingBranchTypesOf type (caseTypesOf ctx clauses) = []).
  { destruct (missingBranchTypesOf type (caseTypesOf ctx clauses))
      as [| s rest] eqn:Hm; [reflexivity |].
    exfalso. apply (Hnone s). apply missingBranchTypesOf_spec.
    rewrite Hm. now left. }
  rewrite Hmiss.
  assert (Hnl : doesTypeContainNonLiteralType type = false).
  { destruct (doesTypeContainNonLiteralType type) eqn:Hc; [| reflexivity].
    apply doesTypeContainNonLiteralType_iff in Hc.
    destruct Hc as (part & Hpart & Hall).
    destruct (Hliteral part Hpart) as (sub & Hsub & Hlit).
    apply isTypeLiteralLikeType_iff in Hlit.
    rewrite (Hall sub Hsub) in Hlit. discriminate. }
  rewrite Hnl. reflexivity.
Qed.

(** [switch (x) { case 'foo': break; default: break; }] with
    [x : 'foo' & { bar: 1 }]: the one report of the rule is that the
    default clause is unnecessary. *)
Lemma default_reported_although_a_constituent_is_not_literal_witness :
  Spec.hasNonLiteralConstituent Examples.fooAndBar
  /\ doesTypeContainNonLiteralType Examples.fooAndBar = false
  /\ checkSwitchUnnecessaryDefaultCase Samples.Switch.noDefaultAllowed
       (getSwitchMetadata Examples.SwitchOverIntersection.context
          Examples.SwitchOverIntersection.x
          Examples.SwitchOverIntersection.caseBlock)
     = [ reportWarning
           "The switch statement is exhaustive, so the default case is unnecessary."
           32 47 ]
  /\ reported
       (rule Samples.Switch.noDefaultAllowed
          Examples.SwitchOverIntersection.context)
     = [ reportWarning
           "The switch statement is exhaustive, so the default case is unnecessary."
           32 47 ].
Proof.
  assert (Hobject : ~ Spec.literalLikePart Examples.objectBar).
  { intros H. repeat (destruct H as [H | H]; [discriminate H |]).
    discriminate H. }
  assert (Hhas : Spec.hasNonLiteralConstituent Examples.fooAndBar).
  { exists Examples.fooAndBar, Examples.objectBar.
    split; [left; reflexivity |].
    split; [right; left; reflexivity | exact Hobject]. }
  split; [exact Hhas |]. split; [reflexivity |].
  split; [| reflexivity].
  apply (default_reported_although_a_constituent_is_not_literal
           Samples.Switch.noDefaultAllowed
           Examples.SwitchOverIntersection.context
           Examples.SwitchOverIntersection.x
           Examples.SwitchOverIntersection.caseBlock
           Examples.SwitchOverIntersection.defaultClause).
  - reflexivity.
  - reflexivity.
  - intros s ((part & Hpart & Hsub) & Hlit & Hcase).
    destruct Hpart as [<- | []].
    destruct Hsub as [<- | [<- | []]].
    + apply (Hcase Examples.SwitchOverIntersection.clause
               Examples.SwitchOverIntersection.caseFoo
               [Examples.SwitchOverIntersection.breakStatement]);
        [left; reflexivity | reflexivity | reflexivity].
    + discriminate Hlit.
  - exact Hhas.
  - intros part [<- | []]. exists Examples.literalFoo.
    split; [left; reflexivity |]. left. reflexivity.
Defined.

Lemma find_none_of (f : Node -> bool) (l : list Node) :
  (forall c, In c l -> f c = false) -> find f l = None.
Proof.
  induction l as [| c rest IH]; intros H; simpl; [reflexivity |].
  rewrite (H c (or_introl eq_refl)). apply IH.
  intros c' Hc'. apply H. now right.
Qed.



Lemma last_map_Some (l : list Node) (x : Node) :
  last (map Some (l ++ [x])) None = Some x.
Proof.
  induction l as [| y rest IH]; simpl; [reflexivity |].
  rewrite IH. destruct (map Some (rest ++ [x])) eqn:Hm; [| reflexivity].
  destruct rest; discriminate.
Qed.






End SwitchFacts.

(** ** Suppression comments (prefer-ts-expect-error.ts) *)

Section StringFacts.

Lemma append_assoc_s (a b c : string) : ((a ++ b) ++ c = a ++ (b ++ c))%string.
Proof. induction a as [| x a IH]; simpl; [reflexivity | now rewrite IH]. Qed.

Lemma append_nil_r_s (a : string) : (a ++ "" = a)%string.
Proof. induction a as [| x a IH]; simpl; [reflexivity | now rewrite IH]. Qed.


Lemma substring_0_0 (s : string) : substring 0 0 s = ""%string.
Proof. destruct s; reflexivity. Qed.

Lemma substring_prefix_app (a b : string) :
  substring 0 (String.length a) (a ++ b) = a.
Proof.
  induction a as [| x a IH]; simpl; [apply substring_0_0 | now rewrite IH].
Qed.

Lemma substring_skip_app (a b : string) (n m : nat) :
  substring (String.length a + n) m (a ++ b) = substring n m b.
Proof. induction a as [| x a IH]; simpl; [reflexivity | exact IH]. Qed.

Lemma substring_whole (s : string) : substring 0 (String.length s) s = s.
Proof.
  rewrite <- (append_nil_r_s s) at 2. apply substring_prefix_app.
Qed.

(** A substring lies in its string, after at most [n] code units. *)
Lemma substring_decompose (n m : nat) (s : string) :
  exists pre post,
    s = (pre ++ substring n m s ++ post)%string
    /\ String.length pre = Nat.min n (String.length s).
Proof.
  revert n m. induction s as [| x s IH]; intros n m.
  - exists ""%string, ""%string. destruct n, m; simpl; auto.
  - destruct n as [| n].
    + destruct m as [| m].
      * exists ""%string, (String x s). simpl. auto.
      * destruct (IH 0%nat m) as (pre & post & Hs & Hlen).
        simpl in Hlen. destruct pre; [| discriminate].
        exists ""%string, post. simpl. simpl in Hs. now rewrite <- Hs.
    + destruct (IH n m) as (pre & post & Hs & Hlen).
      exists (String x pre), post. simpl. now rewrite <- Hs, Hlen.
Qed.

Lemma occursIn_substring (needle s : string) (n m : nat) :
  Spec.occursIn needle (substring n m s) -> Spec.occursIn needle s.
Proof.
  intros (a & b & Hsub).
  destruct (substring_decompose n m s) as (pre & post & Hs & _).
  exists (pre ++ a)%string, (b ++ post)%string.
  rewrite Hs at 1. rewrite Hsub.
  now rewrite !append_assoc_s.
Qed.

Lemma occursIn_suffix (needle pre s : string) :
  Spec.occursIn needle s -> Spec.occursIn needle (pre ++ s).
Proof.
  intros (a & b & ->). exists (pre ++ a)%string, b.
  now rewrite !append_assoc_s.
Qed.

Lemma occursIn_index (needle s : string) :
  needle <> ""%string -> Spec.occursIn needle s ->
  exists i, String.index 0 needle s = Some i.
Proof.
  intros Hne (pre & post & ->).
  destruct (String.index 0 needle (pre ++ needle ++ post)) as [i |] eqn:Hi;
    [now exists i |].
  exfalso.
  apply (index_correct3 0 (String.length pre) needle _ Hi Hne);
    [apply Nat.le_0_l |].
  rewrite <- (Nat.add_0_r (String.length pre)).
  rewrite substring_skip_app. apply substring_prefix_app.
Qed.


End StringFacts.

Section SuppressionFacts.
Import TS Host Reporting PreferTsExpectError.

Lemma stripPrefix_app (p s rest : string) :
  RegExp.stripPrefix p s = Some rest -> s = (p ++ rest)%string.
Proof.
  revert s. induction p as [| a p IH]; intros s H; simpl in H.
  - now inversion H.
  - destruct s as [| b s]; [discriminate |].
    destruct (Ascii.eqb_spec a b) as [<- | Hne]; [| discriminate].
    simpl. now rewrite <- (IH s H).
Qed.

Lemma occursIn_cons (needle s : string) (x : ascii) :
  Spec.occursIn needle s -> Spec.occursIn needle (String x s).
Proof. apply (occursIn_suffix needle (String x "")). Qed.

(** A string that matches a pattern holds every literal of the pattern. *)
Lemma test_literal_occurs (items : list RegExp.Item) (l : string) :
  In (RegExp.Literal l) items ->
  forall s, RegExp.test items s = true -> Spec.occursIn l s.
Proof.
  induction items as [| item rest IH]; intros Hin; [contradiction |].
  destruct item as [p | c | l'].
  - destruct Hin as [Hin | Hin]; [discriminate |].
    intros s. simpl. induction s as [| x r IHs]; intros H.
    + now apply IH.
    + apply orb_true_iff in H. destruct H as [H | H]; [| now apply IH].
      apply andb_true_iff in H. destruct H as [_ H].
      apply occursIn_cons. now apply IHs.
  - destruct Hin as [Hin | Hin]; [discriminate |].
    intros s H. simpl in H. destruct s as [| x r]; [now apply IH |].
    apply orb_true_iff in H. destruct H as [H | H]; [| now apply IH].
    apply andb_true_iff in H. destruct H as [_ H].
    apply occursIn_cons. now apply IH.
  - intros s H. simpl in H.
    destruct (RegExp.stripPrefix l' s) as [s' |] eqn:Hstrip; [| discriminate].
    apply stripPrefix_app in Hstrip. subst s.
    destruct Hin as [Hin | Hin].
    + inversion Hin. subst. exists ""%string, s'. reflexivity.
    + apply occursIn_suffix. now apply IH.
Qed.

Lemma split_aux_nonempty (sep : ascii) (s cur : string) :
  JsString.split_aux sep s cur <> [].
Proof.
  revert cur. induction s as [| c rest IH]; intros cur; simpl;
    [discriminate |].
  destruct (Ascii.eqb c sep); [discriminate | apply IH].
Qed.

(** The last line of a text is its end. *)
Lemma split_aux_last (sep : ascii) (s cur : string) :
  exists pre,
    (cur ++ s = pre ++ last (JsString.split_aux sep s cur) "")%string.
Proof.
  revert cur. induction s as [| c rest IH]; intros cur; simpl.
  - exists ""%string. simpl. apply append_nil_r_s.
  - destruct (Ascii.eqb c sep).
    + destruct (IH ""%string) as (pre & Hpre).
      exists (cur ++ String c pre)%string.
      destruct (JsString.split_aux sep rest "") as [| l ls] eqn:Hsplit.
      * now apply split_aux_nonempty in Hsplit.
      * simpl in Hpre. rewrite append_assoc_s. simpl.
        change (last (cur :: l :: ls) ""%string) with (last (l :: ls) ""%string).
        now rewrite <- Hpre.
    + destruct (IH (cur ++ String c "")%string) as (pre & Hpre).
      exists pre. rewrite <- Hpre. rewrite append_assoc_s. reflexivity.
Qed.



(** A flagged comment holds the marker. *)
Lemma flagged_comment_holds_marker (ctx : RuleContext) (comment : CommentRange) :
  isValidTsIgnorePresent ctx comment = true ->
  Spec.occursIn "@ts-ignore" (commentText ctx comment).
Proof.
  unfold isValidTsIgnorePresent, getLastCommentLine.
  destruct (isLineComment comment).
  - intros H.
    apply (test_literal_occurs tsIgnoreRegExpSingleLine "@ts-ignore") in H;
      [| simpl; tauto].
    unfold JsString.sliceFrom in H. now apply occursIn_substring in H.
  - intros H.
    apply (test_literal_occurs tsIgnoreRegExpMultiLine "@ts-ignore") in H;
      [| simpl; tauto].
    unfold JsString.split in H.
    destruct (split_aux_last JsString.newline (commentText ctx comment) "")
      as (pre & Hpre).
    simpl in Hpre. rewrite Hpre. now apply occursIn_suffix.
Qed.



End SuppressionFacts.

(** ** Nullish coalescing (prefer-nullish-coalescing.ts) *)

Section NullishFacts.
Import TS Host Reporting PreferNullishCoalescing.

(** C6.  [a === null || a === undefined ? b : a] tests [a] strictly
    against both [null] and [undefined], and the rule reports nothing for
    it: [isUndefinedIdentifier] asks for the kind UndefinedKeyword, which
    the identifier [undefined] of an expression does not have, so the scan
    of the test gives up at that node.  Were the node of that kind, the
    rule would report the ternary and replace all of it by [a ?? b]. *)
Theorem ternary_with_undefined_identifier_is_not_flagged :
  reported (rule defaultOptions
              (Samples.Ternary.context Samples.Ternary.undefinedIdentifier))
  = []
  /\ Utils.isUndefinedIdentifier Samples.Ternary.undefinedIdentifier = false
  /\ reported (rule defaultOptions
                 (Samples.Ternary.context Samples.Ternary.undefinedKeyword))
     = [ withFix
           (reportWarning
              "Prefer using nullish coalescing operator (`??`) instead of a ternary expression, as it is simpler to read."
              0 37)
           "Fix to nullish coalescing operator (`??`)."
           (Normal [ {| changes_fileName := "ternary.ts";
                        textChanges :=
                          [ {| newText := "a ?? b";
                               span_start := 0;
                               span_length := 37 |} ] |} ]) ].
Proof. repeat split; reflexivity. Qed.

(** X27.  A ternary that strictly checks one of [null] and [undefined]
    alone.  It is fixable exactly when the type of the identifier is neither
    [any] nor [unknown] and does not hold the kind that is not checked. *)
Lemma isFixable_single_strict_check
      (ctx : RuleContext) (operator : SyntaxKind) (identifier : Node)
      (hasUndefinedCheck hasNullCheck : bool) :
  hasUndefinedCheck <> hasNullCheck ->
  operator = EqualsEqualsEqualsToken
  \/ operator = ExclamationEqualsEqualsToken ->
  let flags :=
    getTypeFlags (typeUtils ctx)
      (getTypeAtLocation (checker ctx) identifier) in
  isFixable ctx operator identifier hasUndefinedCheck hasNullCheck = true
  <-> Z.land flags (Z.lor TypeFlags.Any TypeFlags.Unknown) = 0
      /\ (hasUndefinedCheck = true -> Z.land flags TypeFlags.Null = 0)
      /\ (hasNullCheck = true -> Z.land flags TypeFlags.Undefined = 0).
Proof.
  intros Hne Hop flags. unfold isFixable. fold flags.
  assert (Hloose : kind_eqb operator EqualsEqualsToken
                   || kind_eqb operator ExclamationEqualsToken = false)
    by (destruct Hop as [-> | ->]; reflexivity).
  rewrite Hloose.
  destruct (Z.eqb_spec (Z.land flags (Z.lor TypeFlags.Any TypeFlags.Unknown)) 0)
    as [Hany | Hany];
    destruct (Z.eqb_spec (Z.land flags TypeFlags.Null) 0) as [Hn | Hn];
    destruct (Z.eqb_spec (Z.land flags TypeFlags.Undefined) 0) as [Hu | Hu];
    destruct hasUndefinedCheck, hasNullCheck; simpl;
    try (now contradiction Hne);
    split; intros H; try discriminate; try tauto;
    try (destruct H as (H1 & H2 & H3);
         first [ now contradiction Hany
               | now contradiction (Hn (H2 eq_refl))
               | now contradiction (Hu (H3 eq_refl))
               | specialize (H2 eq_refl); contradiction
               | specialize (H3 eq_refl); contradiction ]);
    repeat split; intros; try discriminate; auto.
Qed.

Lemma isFixable_single_strict_check_witness :
  isFixable (Samples.Ternary.context Samples.Ternary.undefinedKeyword)
    EqualsEqualsEqualsToken Samples.Ternary.a1 false true = true
  <-> Z.land
        (getTypeFlags
           (typeUtils (Samples.Ternary.context Samples.Ternary.undefinedKeyword))
           (getTypeAtLocation
              (checker (Samples.Ternary.context Samples.Ternary.undefinedKeyword))
              Samples.Ternary.a1))
        (Z.lor TypeFlags.Any TypeFlags.Unknown) = 0
      /\ (false = true ->
          Z.land
            (getTypeFlags
               (typeUtils
                  (Samples.Ternary.context Samples.Ternary.undefinedKeyword))
               (getTypeAtLocation
                  (checker
                     (Samples.Ternary.context Samples.Ternary.undefinedKeyword))
                  Samples.Ternary.a1))
            TypeFlags.Null = 0)
      /\ (true = true ->
          Z.land
            (getTypeFlags
               (typeUtils
                  (Samples.Ternary.context Samples.Ternary.undefinedKeyword))
               (getTypeAtLocation
                  (checker
                     (Samples.Ternary.context Samples.Ternary.undefinedKeyword))
                  Samples.Ternary.a1))
            TypeFlags.Undefined = 0).
Proof.
  apply (isFixable_single_strict_check
           (Samples.Ternary.context Samples.Ternary.undefinedKeyword)
           EqualsEqualsEqualsToken Samples.Ternary.a1 false true).
  - discriminate.
  - now left.
Defined.

End NullishFacts.

(** ** Reported spans (all rules) *)

Section SpanFacts.
Import TS Host Reporting Traversal.

Variable len : Z.
Hypothesis len_nonneg : 0 <= len.

Local Abbreviation spansOk := (Forall (Spec.spanWithin len)).

Lemma reportWarning_span (msg : string) (n : Node) :
  Spec.rangeOk len n ->
  Spec.spanWithin len (reportWarning msg (getStart n) (getEnd n)).
Proof. intros H. exact H. Qed.

Lemma withFix_span (d : Diagnostic) (desc : string)
      (edits : Completion (list FileTextChanges)) :
  Spec.spanWithin len d -> Spec.spanWithin len (withFix d desc edits).
Proof. intros H. exact H. Qed.

Lemma wellFormed_range (n : Node) :
  Spec.wellFormed len n -> Spec.rangeOk len n.
Proof. destruct n. simpl. tauto. Qed.

Lemma wellFormed_children (n : Node) :
  Spec.wellFormed len n ->
  foldChildren True and
    (fun c => getEnd c <= getEnd n /\ Spec.wellFormed len c) (shape n).
Proof. destruct n. simpl. tauto. Qed.

Lemma eachOf_and (G : Node -> Prop) (l : list Node) :
  eachOf True and G l <-> Forall G l.
Proof.
  induction l as [| x l IH]; simpl.
  - split; auto.
  - rewrite IH. split.
    + intros [H1 H2]. now constructor.
    + intros H. inversion H. auto.
Qed.

Lemma andThen_spans (a b : M unit) :
  spansOk (reported a) -> spansOk (reported b) ->
  spansOk (reported (andThen a b)).
Proof.
  destruct a as [ds [[] | e]], b as [ds' c]; simpl; intros Ha Hb.
  - apply Forall_app. auto.
  - exact Ha.
Qed.

Lemma bind_spans {A B : Type} (m : M A) (f : A -> M B) :
  spansOk (reported m) -> (forall a, spansOk (reported (f a))) ->
  spansOk (reported (Reporting.bind m f)).
Proof.
  destruct m as [ds [a | e]]; simpl; intros Hm Hf.
  - specialize (Hf a). destruct (f a) as [ds' c]. simpl in *.
    apply Forall_app. auto.
  - exact Hm.
Qed.

Lemma eachOf_spans (f : Node -> M unit) (G : Node -> Prop) (l : list Node) :
  list_all Node (fun c => G c -> spansOk (reported (f c))) l ->
  eachOf True and G l ->
  spansOk (reported (eachOf (ret tt) andThen f l)).
Proof.
  induction 1 as [| x Hx l Hl IH]; simpl.
  - constructor.
  - intros [Hg Hrest]. apply andThen_spans; auto.
Qed.

Lemma ifPresent_spans (f : Node -> M unit) (G : Node -> Prop) (o : option Node) :
  option_all Node (fun c => G c -> spansOk (reported (f c))) o ->
  ifPresent True G o ->
  spansOk (reported (ifPresent (ret tt) f o)).
Proof.
  destruct 1; simpl; auto.
Qed.

Lemma forEachChild_spans (f : Node -> M unit) (G : Node -> Prop)
      (sh : Shape Node) :
  Shape_all Node (fun c => G c -> spansOk (reported (f c))) sh ->
  foldChildren True and G sh ->
  spansOk (reported (forEachChild f sh)).
Proof.
  unfold forEachChild.
  destruct 1; simpl; intros HG;
    repeat match goal with
           | H : _ /\ _ |- _ => destruct H
           end;
    repeat first
           [ apply andThen_spans
           | now constructor
           | eapply eachOf_spans; eassumption
           | eapply ifPresent_spans; eassumption
           | now auto ].
Qed.

Lemma list_all_impl (P Q : Node -> Prop) (l : list Node) :
  (forall c, P c -> Q c) -> list_all Node P l -> list_all Node Q l.
Proof. intros H. induction 1; constructor; auto. Qed.

Lemma option_all_impl (P Q : Node -> Prop) (o : option Node) :
  (forall c, P c -> Q c) -> option_all Node P o -> option_all Node Q o.
Proof. intros H. destruct 1; constructor; auto. Qed.

Lemma Shape_all_impl (P Q : Node -> Prop) (sh : Shape Node) :
  (forall c, P c -> Q c) -> Shape_all Node P sh -> Shape_all Node Q sh.
Proof.
  intros H. destruct 1; constructor;
    eauto using list_all_impl, option_all_impl.
Qed.

Lemma list_all_always (P : Node -> Prop) (l : list Node) :
  (forall c, P c) -> list_all Node P l.
Proof. intros H. induction l; constructor; auto. Qed.

Lemma Shape_all_always (P : Node -> Prop) (sh : Shape Node) :
  (forall c, P c) -> Shape_all Node P sh.
Proof.
  intros H. destruct sh; constructor; auto using list_all_always;
    match goal with
    | |- option_all _ _ ?o => destruct o; constructor; auto
    end.
Qed.

(** The traversal reports what the visits of the nodes report. *)
Lemma cb_spans (visit : list Node -> Node -> M Next) :
  (forall anc n,
      Spec.wellFormed len n -> spansOk (reported (visit anc n))) ->
  forall n anc,
    Spec.wellFormed len n -> spansOk (reported (cb visit anc n)).
Proof.
  intros Hvisit. induction n as [i cs _ sh IH] using Node_ind.
  intros anc Hwf.
  set (n0 := {| info := i; getChildren := cs; shape := sh |}) in *.
  pose proof (Hvisit anc n0 Hwf) as Hhere.
  change (cb visit anc n0)
    with (match visit anc n0 with
          | (ds, Throw e) => (ds, Throw e)
          | (ds, Normal Return) => (ds, Normal tt)
          | (ds, Normal Descend) =>
              andThen (ds, Normal tt)
                (forEachChild (cb visit (n0 :: anc)) sh)
          end).
  destruct (visit anc n0) as [ds [[|] | e]]; simpl in Hhere; auto.
  apply (andThen_spans (ds, Normal tt)); [exact Hhere |].
  apply (forEachChild_spans (cb visit (n0 :: anc))
           (fun c => getEnd c <= getEnd n0 /\ Spec.wellFormed len c)).
  - eapply Shape_all_impl; [| exact IH].
    intros c Hc Hg. apply Hc. exact (proj2 Hg).
  - exact (wellFormed_children n0 Hwf).
Qed.

Lemma run_spans (visit : list Node -> Node -> M Next) (sf : SourceFileData) :
  (forall anc n,
      Spec.wellFormed len n -> spansOk (reported (visit anc n))) ->
  Spec.wellFormed len (root sf) ->
  spansOk (reported (run visit sf)).
Proof.
  intros Hvisit Hwf. unfold run.
  apply (forEachChild_spans (cb visit [root sf])
           (fun c => getEnd c <= getEnd (root sf) /\ Spec.wellFormed len c)).
  - apply Shape_all_always. intros c Hg.
    apply cb_spans; [exact Hvisit | exact (proj2 Hg)].
  - now apply wellFormed_children.
Qed.

Ltac spans :=
  repeat first
         [ apply Forall_nil
         | apply Forall_cons
         | apply Forall_app; split
         | assumption
         | apply withFix_span
         | apply reportWarning_span
         | apply wellFormed_range ].

Lemma typeAssertion_visit_spans
      (options : NoUnnecessaryTypeAssertion.Options) (ctx : RuleContext)
      (anc : list Node) (n : Node) :
  Spec.wellFormed len n ->
  spansOk (reported (NoUnnecessaryTypeAssertion.visit options ctx anc n)).
Proof.
  intros Hwf. pose proof (wellFormed_range n Hwf) as Hr.
  unfold NoUnnecessaryTypeAssertion.visit,
    NoUnnecessaryTypeAssertion.visitNonNullExpression,
    NoUnnecessaryTypeAssertion.visitAssertion.
  destruct (shape n); simpl;
    repeat match goal with
           | |- context [if ?c then _ else _] => destruct c; simpl
           | |- context [match ?c with Some _ => _ | None => _ end] =>
               destruct c; simpl
           end;
    spans.
Qed.

Lemma clausesOf_wellFormed (caseBlock : Node) :
  Spec.wellFormed len caseBlock ->
  Forall (Spec.wellFormed len) (SwitchExhaustivenessCheck.clausesOf caseBlock).
Proof.
  intros Hwf. unfold SwitchExhaustivenessCheck.clausesOf.
  apply wellFormed_children in Hwf.
  destruct (shape caseBlock); try constructor.
  simpl in Hwf. apply eachOf_and in Hwf.
  eapply Forall_impl; [| exact Hwf]. intros c Hc. exact (proj2 Hc).
Qed.

Lemma switch_visit_spans
      (options : SwitchExhaustivenessCheck.Options) (ctx : RuleContext)
      (anc : list Node) (n : Node) :
  Spec.wellFormed len n ->
  spansOk (reported (SwitchExhaustivenessCheck.visit options ctx anc n)).
Proof.
  intros Hwf. pose proof (wellFormed_range n Hwf) as Hr.
  unfold SwitchExhaustivenessCheck.visit.
  destruct (shape n) eqn:Hshape; simpl; try constructor.
  pose proof (wellFormed_children n Hwf) as Hparts.
  rewrite Hshape in Hparts. simpl in Hparts.
  destruct Hparts as ((He & Hwe) & (Hc & Hwc)).
  repeat (apply Forall_app; split).
  - unfold SwitchExhaustivenessCheck.checkSwitchExhaustive.
    destruct (SwitchExhaustivenessCheck.missingLiteralBranchTypes _);
      [constructor |].
    destruct (SwitchExhaustivenessCheck.defaultCase _); spans.
  - unfold SwitchExhaustivenessCheck.checkSwitchUnnecessaryDefaultCase.
    destruct (SwitchExhaustivenessCheck.allowDefaultCaseForExhaustiveSwitch _);
      [constructor |].
    destruct (SwitchExhaustivenessCheck.missingLiteralBranchTypes _);
      [| constructor].
    destruct (SwitchExhaustivenessCheck.defaultCase _) as [dc |] eqn:Hdc;
      [| constructor].
    destruct (negb _); [| constructor].
    simpl in Hdc. apply find_some in Hdc. destruct Hdc as [Hin _].
    pose proof (clausesOf_wellFormed _ Hwc) as Hall.
    rewrite Forall_forall in Hall. spans. now apply Hall.
  - unfold SwitchExhaustivenessCheck.checkSwitchNoUnionDefaultCase.
    destruct (negb _); [constructor |].
    destruct (SwitchExhaustivenessCheck.defaultCase _); [constructor |].
    destruct (SwitchExhaustivenessCheck.containsNonLiteralType _);
      [| constructor].
    constructor; [| constructor]. apply withFix_span.
    apply wellFormed_range in Hwe.
    unfold Spec.spanWithin, Spec.rangeOk in *. simpl. lia.
Qed.

Lemma tsExpectError_visit_spans (ctx : RuleContext) (anc : list Node) (n : Node) :
  Spec.commentsWithin (typescript ctx) (text (sourceFile ctx)) ->
  len = JsString.length (text (sourceFile ctx)) ->
  spansOk (reported (PreferTsExpectError.visit ctx anc n)).
Proof.
  intros Hcomments Hlen. unfold PreferTsExpectError.visit. simpl.
  destruct (getLeadingCommentRanges _ _ _) as [ranges |] eqn:Hranges;
    [| constructor].
  apply Hcomments in Hranges. rewrite <- Hlen in Hranges.
  induction Hranges as [| c rest Hc Hrest IH]; simpl; [constructor |].
  apply Forall_app. split; [| exact IH].
  unfold PreferTsExpectError.checkComment.
  destruct (PreferTsExpectError.isValidTsIgnorePresent ctx c);
    [| constructor].
  constructor; [| constructor]. apply withFix_span. exact Hc.
Qed.

Lemma checkClauses_spans (ctx : RuleContext) (clauses : list Node) :
  Forall (Spec.wellFormed len) clauses ->
  forall seen, spansOk (NoDuplicateCase.checkClauses ctx clauses seen).
Proof.
  induction 1 as [| c rest Hc Hrest IH]; intros seen; simpl; [constructor |].
  destruct (shape c); auto.
  destruct (NoDuplicateCase.Set_hasLabel _ _); auto.
  spans. apply IH.
Qed.

Lemma noDuplicateCase_visit_spans (ctx : RuleContext) (anc : list Node)
      (n : Node) :
  Spec.wellFormed len n ->
  spansOk (reported (NoDuplicateCase.visit ctx anc n)).
Proof.
  intros Hwf. unfold NoDuplicateCase.visit.
  destruct (shape n) eqn:Hshape; simpl; try constructor.
  pose proof (wellFormed_children n Hwf) as Hparts.
  rewrite Hshape in Hparts. simpl in Hparts.
  destruct Hparts as (_ & (_ & Hwc)).
  apply checkClauses_spans. now apply clausesOf_wellFormed.
Qed.

Lemma bind_spans_of {A B : Type} (m : M A) (f : A -> M B) :
  spansOk (reported m) ->
  (forall a, snd m = Normal a -> spansOk (reported (f a))) ->
  spansOk (reported (Reporting.bind m f)).
Proof.
  destruct m as [ds [a | e]]; simpl; intros Hm Hf.
  - specialize (Hf a eq_refl). destruct (f a) as [ds' c]. simpl in *.
    apply Forall_app. auto.
  - exact Hm.
Qed.

Lemma nullThrows_gives {A : Type} (o : option A) (msg : string) (a : A) :
  Utils.nullThrows o msg = Normal a -> o = Some a.
Proof. destruct o; simpl; congruence. Qed.

Lemma nullish_visit_spans
      (options : PreferNullishCoalescing.Options) (ctx : RuleContext)
      (anc : list Node) (n : Node) :
  Spec.wellFormed len n ->
  spansOk (reported (PreferNullishCoalescing.visit options ctx anc n)).
Proof.
  intros Hwf. pose proof (wellFormed_range n Hwf) as Hr.
  unfold PreferNullishCoalescing.visit.
  destruct (shape n) eqn:Hshape; simpl; try constructor.
  - pose proof (wellFormed_children n Hwf) as Hparts.
    rewrite Hshape in Hparts. simpl in Hparts.
    destruct Hparts as ((_ & Hleft) & _).
    destruct (kind_eqb (kind operatorToken) BarBarToken); [| constructor].
    unfold PreferNullishCoalescing.visitLogicalOr.
    destruct (negb (tsutils.isTypeFlagSet _ _)); [constructor |].
    destruct (_ && _); [constructor |].
    destruct (_ && _); [constructor |].
    apply bind_spans.
    + destruct (_ && _); constructor.
    + intros [|]; [constructor |].
      apply bind_spans_of; [constructor |].
      intros barBarOperator Hfound. simpl in Hfound.
      apply nullThrows_gives in Hfound.
      apply getTokenAfter_gives_node in Hfound. subst barBarOperator.
      apply bind_spans; [| intros; constructor].
      simpl. spans.
  - unfold PreferNullishCoalescing.visitConditionalExpression.
    destruct (PreferNullishCoalescing.ignoreTernaryTests options);
      [constructor |].
    destruct (PreferNullishCoalescing.analyseTest condition) as [[op |] nodes];
      [| constructor].
    destruct (PreferNullishCoalescing.scanTest _ _ _ _ _ _) as [st |];
      [| constructor].
    destruct (PreferNullishCoalescing.identifier st); [| constructor].
    destruct (PreferNullishCoalescing.isFixable _ _ _ _ _); [| constructor].
    simpl. spans.
Qed.

Lemma nullish_rule_spans
      (options : PreferNullishCoalescing.Options) (ctx : RuleContext) :
  Spec.wellFormed len (root (sourceFile ctx)) ->
  spansOk (reported (PreferNullishCoalescing.rule options ctx)).
Proof.
  intros Hwf. unfold PreferNullishCoalescing.rule.
  apply bind_spans.
  - unfold PreferNullishCoalescing.configurationCheck.
    destruct (_ && _); simpl; constructor; [| constructor].
    unfold Spec.spanWithin. simpl. lia.
  - intros _. apply run_spans; [| exact Hwf].
    intros anc n. apply nullish_visit_spans.
Qed.

Lemma checkNodeType_spans (ctx : RuleContext) (n : Node) (b : bool) :
  Spec.rangeOk len n ->
  spansOk (NoUnnecessaryCondition.checkNodeType ctx n b).
Proof.
  intros Hr. unfold NoUnnecessaryCondition.checkNodeType.
  repeat match goal with
         | |- context [if ?c then _ else _] => destruct c; simpl
         end; spans.
Qed.

Lemma checkNode_spans (ctx : RuleContext) (n : Node) :
  forall b, Spec.wellFormed len n ->
            spansOk (NoUnnecessaryCondition.checkNode ctx n b).
Proof.
  induction n as [i cs _ sh IH] using Node_ind. intros b Hwf.
  pose proof (wellFormed_range _ Hwf) as Hr.
  pose proof (wellFormed_children _ Hwf) as Hparts.
  destruct IH; simpl in *;
    repeat match goal with
           | H : _ /\ _ |- _ => destruct H
           | |- context [if ?c then _ else _] => destruct c; simpl
           end;
    try (now apply checkNodeType_spans);
    try constructor; auto.
Qed.

Lemma checkNodeForNullish_spans (ctx : RuleContext) (n : Node) :
  Spec.rangeOk len n ->
  spansOk (NoUnnecessaryCondition.checkNodeForNullish ctx n).
Proof.
  intros Hr. unfold NoUnnecessaryCondition.checkNodeForNullish.
  repeat match goal with
         | |- context [if ?c then _ else _] => destruct c; simpl
         end; spans.
Qed.

Lemma checkIfBinary_spans (ctx : RuleContext) (n : Node) :
  Spec.rangeOk len n ->
  spansOk
    (NoUnnecessaryCondition.checkIfBinaryExpressionIsNecessaryConditional ctx n).
Proof.
  intros Hr.
  unfold NoUnnecessaryCondition.checkIfBinaryExpressionIsNecessaryConditional.
  destruct (shape n); try constructor.
  repeat match goal with
         | |- context [if ?c then _ else _] => destruct c; simpl
         end; spans.
Qed.

Lemma returnedNode_wellFormed (callback r : Node) :
  Spec.wellFormed len callback ->
  NoUnnecessaryCondition.returnedNode callback = Some r ->
  Spec.wellFormed len r.
Proof.
  intros Hwf. unfold NoUnnecessaryCondition.returnedNode.
  pose proof (wellFormed_children _ Hwf) as Hparts.
  destruct (shape callback); try discriminate;
    simpl in Hparts; destruct Hparts as (_ & (_ & Hbody));
    pose proof (wellFormed_children _ Hbody) as Hb;
    destruct (shape body) eqn:Hshape; intros H;
    try (inversion H; subst; exact Hbody);
    (destruct statements as [| st [| ? ?]]; try discriminate;
     simpl in Hb; destruct Hb as ((_ & Hst) & _);
     pose proof (wellFormed_children _ Hst) as Hs;
     destruct (shape st); try discriminate;
     destruct expression; try discriminate;
     inversion H; subst; simpl in Hs; exact (proj2 Hs)).
Qed.

Lemma checkLogical_spans (ctx : RuleContext) (n : Node) :
  Spec.wellFormed len n ->
  spansOk
    (NoUnnecessaryCondition.checkLogicalExpressionForUnnecessaryConditionals
       ctx n).
Proof.
  intros Hwf.
  unfold NoUnnecessaryCondition.checkLogicalExpressionForUnnecessaryConditionals.
  pose proof (wellFormed_children _ Hwf) as Hparts.
  destruct (shape n); try constructor.
  simpl in Hparts. destruct Hparts as ((_ & Hleft) & _).
  destruct (kind_eqb _ _).
  - apply checkNodeForNullish_spans. now apply wellFormed_range.
  - now apply checkNode_spans.
Qed.

Lemma checkIfLoop_spans
      (options : NoUnnecessaryCondition.Options) (ctx : RuleContext)
      (n : Node) :
  Spec.wellFormed len n ->
  spansOk
    (NoUnnecessaryCondition.checkIfLoopIsNecessaryConditional options ctx n).
Proof.
  intros Hwf.
  unfold NoUnnecessaryCondition.checkIfLoopIsNecessaryConditional.
  pose proof (wellFormed_children _ Hwf) as Hparts.
  destruct (shape n); try constructor; simpl in Hparts.
  - destruct Hparts as (_ & (_ & He)).
    destruct (_ && _); [constructor | now apply checkNode_spans].
  - destruct Hparts as ((_ & He) & _).
    destruct (_ && _); [constructor | now apply checkNode_spans].
  - destruct condition as [test |]; [| constructor].
    destruct Hparts as (_ & ((_ & He) & _)).
    destruct (_ && _); [constructor | now apply checkNode_spans].
Qed.

Lemma checkCallExpression_spans (ctx : RuleContext) (n : Node) :
  Spec.wellFormed len n ->
  spansOk (NoUnnecessaryCondition.checkCallExpression ctx n).
Proof.
  intros Hwf. unfold NoUnnecessaryCondition.checkCallExpression.
  pose proof (wellFormed_children _ Hwf) as Hparts.
  destruct (shape n); try constructor.
  destruct arguments as [| callback rest]; [constructor |].
  simpl in Hparts. destruct Hparts as (_ & (_ & (_ & Hargs))).
  destruct Hargs as ((_ & Hcb) & _).
  destruct (NoUnnecessaryCondition.isArrayPredicateFunction ctx n);
    [| constructor].
  destruct (NoUnnecessaryCondition.returnedNode callback) as [r |] eqn:Hret.
  - apply checkNode_spans. now apply (returnedNode_wellFormed callback).
  - destruct (getCallSignaturesOfType _ _); [constructor |].
    destruct (existsb _ _); [constructor |].
    apply wellFormed_range in Hcb.
    apply Forall_app. split.
    + destruct (negb _); spans.
    + destruct (negb _); spans.
Qed.

Lemma expressionOf_wellFormed (n e : Node) :
  Spec.wellFormed len n ->
  NoUnnecessaryCondition.expressionOf n = Some e ->
  Spec.wellFormed len e.
Proof.
  intros Hwf. unfold NoUnnecessaryCondition.expressionOf.
  pose proof (wellFormed_children _ Hwf) as Hparts.
  destruct (shape n); try discriminate; simpl in Hparts;
    intros H; inversion H; subst; tauto.
Qed.

Lemma checkOptionalChain_spans (ctx : RuleContext) (n before : Node)
      (fix_ : string) :
  Spec.wellFormed len before ->
  spansOk
    (reported (NoUnnecessaryCondition.checkOptionalChain ctx n before fix_)).
Proof.
  intros Hwf. apply wellFormed_range in Hwf.
  unfold NoUnnecessaryCondition.checkOptionalChain.
  destruct (negb _); [constructor |].
  destruct (NoUnnecessaryCondition.optionChainContainsOptionArrayIndex ctx n);
    [constructor |].
  destruct (NoUnnecessaryCondition.expressionOf n); [| constructor].
  destruct (NoUnnecessaryCondition.isOptionableExpression ctx _);
    [constructor |].
  apply bind_spans_of; [constructor |].
  intros questionDotOperator Hfound. simpl in Hfound.
  apply nullThrows_gives in Hfound.
  apply getTokenAfter_gives_node in Hfound. subst questionDotOperator.
  simpl. spans.
Qed.

Lemma onNode_spans (o : option Node) (f : Node -> list Diagnostic) :
  (forall n, o = Some n -> spansOk (f n)) ->
  spansOk (reported (tryCatch (NoUnnecessaryCondition.onNode o f))).
Proof.
  intros H. destruct o as [n |]; simpl; [now apply H | constructor].
Qed.

Lemma condition_visit_spans
      (options : NoUnnecessaryCondition.Options) (ctx : RuleContext)
      (anc : list Node) (n : Node) :
  Spec.wellFormed len n ->
  spansOk (reported (NoUnnecessaryCondition.visit options ctx anc n)).
Proof.
  intros Hwf. pose proof (wellFormed_range n Hwf) as Hr.
  unfold NoUnnecessaryCondition.visit.
  apply bind_spans; [| intros; constructor].
  unfold NoUnnecessaryCondition.dispatch.
  repeat match goal with
         | |- context [if ?c then _ else _] => destruct c
         end;
    try (apply onNode_spans; intros x Hx);
    try (unfold tryCatch; simpl fst; simpl reported).
  all: try (now constructor).
  all: try (now apply checkLogical_spans).
  all: try (now apply checkIfBinary_spans).
  all: try (now apply checkCallExpression_spans).
  all: try (now apply checkIfLoop_spans).
  all: try (apply checkNode_spans).
  all: try (apply checkNodeForNullish_spans; apply wellFormed_range).
  all: try (unfold NoUnnecessaryCondition.leftOf,
             NoUnnecessaryCondition.conditionOf in Hx;
            pose proof (wellFormed_children _ Hwf) as Hparts;
            destruct (shape n); try discriminate;
            inversion Hx; subst; simpl in Hparts; tauto).
  all: unfold NoUnnecessaryCondition.checkOptionalMemberExpression,
         NoUnnecessaryCondition.checkOptionalCallExpression;
    destruct (NoUnnecessaryCondition.expressionOf n) as [e |] eqn:He;
    [| constructor];
    apply checkOptionalChain_spans;
    now apply (expressionOf_wellFormed n).
Qed.

Lemma condition_rule_spans
      (options : NoUnnecessaryCondition.Options) (ctx : RuleContext) :
  Spec.wellFormed len (root (sourceFile ctx)) ->
  spansOk (reported (NoUnnecessaryCondition.rule options ctx)).
Proof.
  intros Hwf. unfold NoUnnecessaryCondition.rule.
  apply bind_spans.
  - unfold NoUnnecessaryCondition.configurationCheck.
    destruct (_ && _); simpl; constructor; [| constructor].
    unfold Spec.spanWithin. simpl. lia.
  - intros _. apply run_spans; [| exact Hwf].
    intros anc n. apply condition_visit_spans.
Qed.

End SpanFacts.

Section AllRules.
Import TS Host Reporting.

(** C5.  In a file whose nodes lie in the text, each within its parent,
    and whose comment ranges lie in the text, every diagnostic that a rule
    module reports has [0 <= start <= end <= length of the text]: the
    rules for type assertions, switch statements, suppression comments,
    nullish coalescing, conditions and duplicate cases, whatever their
    options, the diagnostic at offset 0 for a missing strictNullChecks
    included. *)
Theorem reported_spans_lie_in_file
        (ctx : RuleContext)
        (assertionOptions : NoUnnecessaryTypeAssertion.Options)
        (switchOptions : SwitchExhaustivenessCheck.Options)
        (nullishOptions : PreferNullishCoalescing.Options)
        (conditionOptions : NoUnnecessaryCondition.Options) :
  let len := JsString.length (text (sourceFile ctx)) in
  Spec.wellFormed len (root (sourceFile ctx)) ->
  Spec.commentsWithin (typescript ctx) (text (sourceFile ctx)) ->
  forall d,
    In d (reported (NoUnnecessaryTypeAssertion.rule assertionOptions ctx)
          ++ reported (SwitchExhaustivenessCheck.rule switchOptions ctx)
          ++ reported (PreferTsExpectError.rule ctx)
          ++ reported (PreferNullishCoalescing.rule nullishOptions ctx)
          ++ reported (NoUnnecessaryCondition.rule conditionOptions ctx)
          ++ reported (NoDuplicateCase.rule ctx))%list ->
    0 <= d_start d /\ d_start d <= d_end d /\ d_end d <= len.
Proof.
  intros len Hwf Hcomments d Hd.
  assert (Hlen : 0 <= len) by (unfold len, JsString.length; lia).
  change (Spec.spanWithin len d).
  revert d Hd. apply Forall_forall.
  repeat (apply Forall_app; split).
  - apply run_spans; [| exact Hwf].
    intros anc n. apply typeAssertion_visit_spans.
  - apply run_spans; [| exact Hwf].
    intros anc n. apply switch_visit_spans.
  - apply run_spans; [| exact Hwf].
    intros anc n _. now apply tsExpectError_visit_spans.
  - now apply nullish_rule_spans.
  - now apply condition_rule_spans.
  - apply run_spans; [| exact Hwf].
    intros anc n. apply noDuplicateCase_visit_spans.
Qed.

Lemma reported_spans_lie_in_file_witness :
  Spec.wellFormed (JsString.length (text (sourceFile Samples.Switch.context)))
    (root (sourceFile Samples.Switch.context))
  /\ Spec.commentsWithin (typescript Samples.Switch.context)
       (text (sourceFile Samples.Switch.context))
  /\ In (reportWarning "Switch is not exhaustive. Cases not matched: default"
           8 33)
        (map (fun d => reportWarning (message d) (d_start d) (d_end d))
           (reported
              (SwitchExhaustivenessCheck.rule
                 {| SwitchExhaustivenessCheck.allowDefaultCaseForExhaustiveSwitch
                    := false;
                    SwitchExhaustivenessCheck.requireDefaultForNonUnion
                    := true |}
                 Samples.Switch.nonLiteralContext)))
  /\ forall d,
      In d (reported
              (NoUnnecessaryTypeAssertion.rule
                 {| NoUnnecessaryTypeAssertion.typesToIgnore := None |}
                 Samples.Switch.context)
            ++ reported
                 (SwitchExhaustivenessCheck.rule
                    SwitchExhaustivenessCheck.defaultOptions
                    Samples.Switch.context)
            ++ reported (PreferTsExpectError.rule Samples.Switch.context)
            ++ reported
                 (PreferNullishCoalescing.rule
                    PreferNullishCoalescing.defaultOptions
                    Samples.Switch.context)
            ++ reported
                 (NoUnnecessaryCondition.rule
                    NoUnnecessaryCondition.defaultOptions
                    Samples.Switch.context)
            ++ reported (NoDuplicateCase.rule Samples.Switch.context))%list ->
      0 <= d_start d /\ d_start d <= d_end d
      /\ d_end d
         <= JsString.length (text (sourceFile Samples.Switch.context)).
Proof.
  assert (Hwf : Spec.wellFormed
                  (JsString.length (text (sourceFile Samples.Switch.context)))
                  (root (sourceFile Samples.Switch.context))).
  { vm_compute. repeat split; discriminate. }
  assert (Hcomments : Spec.commentsWithin (typescript Samples.Switch.context)
                        (text (sourceFile Samples.Switch.context))).
  { intros p ranges H. discriminate. }
  split; [exact Hwf |]. split; [exact Hcomments |].
  split; [vm_compute; tauto |].
  exact (reported_spans_lie_in_file Samples.Switch.context
           {| NoUnnecessaryTypeAssertion.typesToIgnore := None |}
           SwitchExhaustivenessCheck.defaultOptions
           PreferNullishCoalescing.defaultOptions
           NoUnnecessaryCondition.defaultOptions Hwf Hcomments).
Defined.

End AllRules.

(* ================================================================== *)
(** * Further properties *)

(* ================================================================== *)
(** ** rules/utils.ts *)

Section UtilsFacts.
Import TS Host Reporting Utils.

Lemma kind_eqb_sym (a b : SyntaxKind) : kind_eqb a b = kind_eqb b a.
Proof. destruct a, b; reflexivity. Qed.

Lemma kind_eqb_true (a b : SyntaxKind) : kind_eqb a b = true -> a = b.
Proof. destruct a, b; simpl; congruence. Qed.

Lemma kind_eqb_refl (a : SyntaxKind) : kind_eqb a a = true.
Proof. destruct a; reflexivity. Qed.

Lemma allIdentifierParts_iff (ts : Scanner) (rest : string) (target : Z) :
  allIdentifierParts ts rest target = true
  <-> forall i d, String.get i rest = Some d ->
                  isIdentifierPart ts d target = true.
Proof.
  induction rest as [| c rest IH]; simpl.
  - split; [intros _ i d H; destruct i; discriminate | reflexivity].
  - destruct (isIdentifierPart ts c target) eqn:Hc; simpl.
    + rewrite IH. split.
      * intros H [| i] d Hd; [now inversion Hd; subst | eauto].
      * intros H i d Hd. apply (H (S i)). exact Hd.
    + split; [discriminate |]. intros H.
      specialize (H 0%nat c eq_refl). congruence.
Qed.

(** X1.  [requiresQuoting] answers [false] exactly for a name that is
    not empty, whose first code unit may start an identifier and whose
    every later code unit may continue one, for the given target or
    ESNext when none is given; for every other name, the empty one among
    them, it answers [true]. *)
Theorem requiresQuoting_false_iff
        (ts : Scanner) (name : string) (target : option Z) :
  let t := match target with Some t => t | None => 99 end in
  requiresQuoting ts name target = false
  <-> (exists c, String.get 0 name = Some c
                 /\ isIdentifierStart ts c t = true)
      /\ (forall i d, (1 <= i)%nat -> String.get i name = Some d ->
                      isIdentifierPart ts d t = true).
Proof.
  intros t. unfold requiresQuoting. change ESNext with 99. fold t.
  destruct name as [| c rest].
  - split; [discriminate |]. intros [(c & Hc & _) _]. discriminate.
  - destruct (isIdentifierStart ts c t) eqn:Hs; simpl.
    + rewrite negb_false_iff, allIdentifierParts_iff. split.
      * intros H. split; [exists c; auto |].
        intros [| i] d Hi Hd; [lia |]. eauto.
      * intros [_ H] i d Hd. apply (H (S i)); [lia | exact Hd].
    + split; [discriminate |]. intros [(c' & Hc' & Hst) _].
      inversion Hc'; subst. congruence.
Qed.

Lemma isNodeEqual_eq (sf : SourceFileData) (a b : Node) :
  isNodeEqual sf a b
  = if negb (kind_eqb (kind a) (kind b)) then false
    else if kind_eqb (kind a) ThisKeyword && kind_eqb (kind b) ThisKeyword
    then true
    else if kind_eqb (kind a) StringLiteral && kind_eqb (kind b) StringLiteral
    then String.eqb (getText sf a) (getText sf b)
    else if kind_eqb (kind a) Identifier && kind_eqb (kind b) Identifier
    then String.eqb (getText sf a) (getText sf b)
    else
      match shape a, shape b with
      | SPropertyAccessExpression aexp _ aname,
        SPropertyAccessExpression bexp _ bname =>
          isNodeEqual sf aname bname && isNodeEqual sf aexp bexp
      | _, _ => false
      end.
Proof. destruct a; reflexivity. Qed.

(** X2.  [isNodeEqual] does not depend on the order of its two nodes. *)
Theorem isNodeEqual_symmetric (sf : SourceFileData) (a b : Node) :
  isNodeEqual sf a b = isNodeEqual sf b a.
Proof.
  revert b. induction a as [i cs _ sh IH] using Node_ind. intros b.
  set (a := {| info := i; getChildren := cs; shape := sh |}).
  rewrite (isNodeEqual_eq sf a b), (isNodeEqual_eq sf b a).
  rewrite (kind_eqb_sym (kind b) (kind a)).
  destruct (kind_eqb (kind a) (kind b)) eqn:E; [| reflexivity].
  apply kind_eqb_true in E. rewrite <- E. simpl negb. cbv iota.
  rewrite (String.eqb_sym (getText sf b)).
  repeat match goal with
         | |- (if ?c then _ else _) = (if ?c then _ else _) =>
             destruct c; [reflexivity |]
         end.
  simpl shape. destruct IH; try reflexivity; destruct (shape b);
    try reflexivity.
  match goal with
  | H1 : forall b, isNodeEqual sf ?e b = _,
    H2 : forall b, isNodeEqual sf ?n b = _ |- _ =>
      rewrite H1, H2
  end.
  reflexivity.
Qed.

(** X3.  Only nodes of one and the same kind among [this], string
    literal, identifier and property access are ever equal for
    [isNodeEqual]: two calls, two element accesses or two numbers never
    are, whatever their text. *)
Theorem isNodeEqual_relates_simple_nodes_only
        (sf : SourceFileData) (a b : Node) :
  isNodeEqual sf a b = true ->
  kind a = kind b
  /\ (kind a = ThisKeyword \/ kind a = StringLiteral \/ kind a = Identifier
      \/ kind a = PropertyAccessExpression).
Proof.
  rewrite isNodeEqual_eq.
  destruct (kind_eqb (kind a) (kind b)) eqn:E; [| discriminate].
  apply kind_eqb_true in E. rewrite <- E. simpl negb. cbv iota.
  intros H. split; [reflexivity |].
  destruct (kind_eqb (kind a) ThisKeyword) eqn:E1;
    [apply kind_eqb_true in E1; auto |].
  destruct (kind_eqb (kind a) StringLiteral) eqn:E2;
    [apply kind_eqb_true in E2; auto |].
  destruct (kind_eqb (kind a) Identifier) eqn:E3;
    [apply kind_eqb_true in E3; auto |].
  simpl in H. unfold kind. destruct (shape a); try discriminate. auto.
Qed.

Lemma isNodeEqual_relates_simple_nodes_only_witness :
  kind Examples.NullTernary.a1 = kind Examples.NullTernary.a2
  /\ (kind Examples.NullTernary.a1 = ThisKeyword
      \/ kind Examples.NullTernary.a1 = StringLiteral
      \/ kind Examples.NullTernary.a1 = Identifier
      \/ kind Examples.NullTernary.a1 = PropertyAccessExpression).
Proof.
  apply (isNodeEqual_relates_simple_nodes_only Examples.NullTernary.file
           Examples.NullTernary.a1 Examples.NullTernary.a2).
  reflexivity.
Defined.

End UtilsFacts.

(* ================================================================== *)
(** ** type-utils/getSourceFileOfNode.ts and getTokenAtPosition *)

Section LookupFacts.
Import TS Reporting GetSourceFileOfNode TokenAtPosition Props.

(** X4.  [getSourceFileOfNode] returns the nearest node of kind
    SourceFile on the chain that starts at the node and goes up through
    its parents. *)
Theorem getSourceFileOfNode_returns_nearest
        (ancestors : list Node) (node : Node)
        (below above : list Node) (sourceFile : Node) :
  node :: ancestors = (below ++ sourceFile :: above)%list ->
  kind sourceFile = SourceFile ->
  (forall n, In n below -> kind n <> SourceFile) ->
  getSourceFileOfNode ancestors node = Normal sourceFile.
Proof.
  revert ancestors node.
  induction below as [| x below IH]; intros ancestors node Hchain Hkind Hbelow.
  - simpl in Hchain. inversion Hchain; subst.
    destruct above; simpl; rewrite Hkind; reflexivity.
  - simpl in Hchain. inversion Hchain; subst.
    assert (Hx : kind_eqb (kind x) SourceFile = false).
    { destruct (kind_eqb (kind x) SourceFile) eqn:E; [| reflexivity].
      apply kind_eqb_true in E. elim (Hbelow x); simpl; auto. }
    destruct below as [| y below].
    + simpl. rewrite Hx. simpl.
      apply (IH above sourceFile); simpl; auto.
    + simpl. rewrite Hx. simpl.
      apply (IH (below ++ sourceFile :: above)%list y); auto.
      intros n Hn. apply Hbelow. now right.
Qed.

Lemma getSourceFileOfNode_returns_nearest_witness :
  getSourceFileOfNode
    [Samples.LiteralComparison.statement;
     root Samples.LiteralComparison.file]
    Samples.LiteralComparison.comparison
  = Normal (root Samples.LiteralComparison.file).
Proof.
  apply (getSourceFileOfNode_returns_nearest
           [Samples.LiteralComparison.statement;
            root Samples.LiteralComparison.file]
           Samples.LiteralComparison.comparison
           [Samples.LiteralComparison.comparison;
            Samples.LiteralComparison.statement]
           []
           (root Samples.LiteralComparison.file)).
  - reflexivity.
  - reflexivity.
  - intros n [<- | [<- | []]]; discriminate.
Defined.

Lemma gtb_false (a b : Z) : (a >? b) = false -> a <= b.
Proof. rewrite Z.gtb_ltb. apply Z.ltb_ge. Qed.

Lemma holdsPosition_iff (position : Z) (child : Node) :
  holdsPosition position child = true
  <-> position < getEnd child
      \/ (position = getEnd child /\ kind child = EndOfFileToken).
Proof.
  unfold holdsPosition. rewrite orb_true_iff, andb_true_iff.
  rewrite Z.ltb_lt, Z.eqb_eq. split.
  - intros [H | [H1 H2]]; [auto | right]. split; auto.
    now apply kind_eqb_true.
  - intros [H | [H1 H2]]; [auto | right]. split; auto.
    rewrite H2. reflexivity.
Qed.

Lemma descend_eq (position : Z) (current : Node) :
  descend position current
  = (fix children (rest : list Node) : Node :=
       match rest with
       | [] => current
       | child :: rest' =>
           if getFullStart child >? position then current
           else if holdsPosition position child
           then descend position child
           else children rest'
       end) (getChildren current).
Proof. destruct current; reflexivity. Qed.

Lemma descend_sound (position : Z) (current : Node) :
  within current (descend position current)
  /\ (descend position current = current
      \/ (getFullStart (descend position current) <= position
          /\ holdsPosition position (descend position current) = true)).
Proof.
  induction current as [i cs Hcs sh _] using Node_ind.
  set (current := {| info := i; getChildren := cs; shape := sh |}).
  rewrite descend_eq. change (getChildren current) with cs.
  assert (Hin : forall c, In c cs -> In c (getChildren current)) by auto.
  clearbody current. revert Hin.
  induction Hcs as [| child Hchild rest Hrest IH]; intros Hin.
  - split; [constructor | now left].
  - destruct (getFullStart child >? position) eqn:Hstart.
    { split; [constructor | now left]. }
    destruct (holdsPosition position child) eqn:Hholds.
    + destruct Hchild as [Hw Hc]. split.
      * apply within_child with (c := child); [apply Hin; now left | exact Hw].
      * right. destruct Hc as [-> | Hc]; [| exact Hc].
        split; [| exact Hholds].
        now apply gtb_false.
    + apply IH. intros c Hc. apply Hin. now right.
Qed.

(** X5.  The node [getTokenAtPosition] returns belongs to the tree of
    the source file, and unless it is the source file itself the position
    lies in it: at or after its full start, and before its end, or at the
    end of an end-of-file token. *)
Theorem getTokenAtPosition_holds_position
        (sourceFile : SourceFileData) (position : Z) :
  let token := getTokenAtPosition sourceFile position in
  within (root sourceFile) token
  /\ (token = root sourceFile
      \/ (getFullStart token <= position
          /\ (position < getEnd token
              \/ (position = getEnd token
                  /\ kind token = EndOfFileToken)))).
Proof.
  intros token. subst token. unfold getTokenAtPosition.
  destruct (descend_sound position (root sourceFile)) as [Hw H].
  split; [exact Hw |].
  destruct H as [H | [H1 H2]]; [now left | right].
  split; [exact H1 |]. now apply holdsPosition_iff.
Qed.

Lemma descend_deepest (position : Z) (current : Node) :
  forall before child after,
    getChildren (descend position current)
    = (before ++ child :: after)%list ->
    (forall c, In c (before ++ [child])%list -> getFullStart c <= position) ->
    holdsPosition position child = false.
Proof.
  induction current as [i cs Hcs sh _] using Node_ind.
  set (current := {| info := i; getChildren := cs; shape := sh |}).
  rewrite descend_eq. change (getChildren current) with cs.
  assert (Hscan :
    forall done,
      getChildren current = (done ++ cs)%list ->
      (forall c, In c done ->
                 getFullStart c <= position ->
                 holdsPosition position c = false) ->
      (forall c, In c done -> getFullStart c <= position) ->
      forall before child after,
        getChildren
          ((fix children (rest : list Node) : Node :=
              match rest with
              | [] => current
              | child :: rest' =>
                  if getFullStart child >? position then current
                  else if holdsPosition position child
                  then descend position child
                  else children rest'
              end) cs)
        = (before ++ child :: after)%list ->
        (forall c, In c (before ++ [child])%list ->
                   getFullStart c <= position) ->
        holdsPosition position child = false).
  { clearbody current.
    induction Hcs as [| c Hc rest Hrest IH]; intros done Hall Hdone Hstarts.
    - intros before child after Heq Hb.
      apply Hdone.
      + rewrite Hall, app_nil_r in Heq. rewrite Heq.
        apply in_or_app. right. now left.
      + apply Hb. apply in_or_app. right. now left.
    - destruct (getFullStart c >? position) eqn:Hstart.
      + intros before child after Heq Hb.
        (* the scan stopped at [c], which starts after the position *)
        rewrite Hall in Heq.
        assert (Hc' : In child (done ++ c :: rest)%list).
        { rewrite Heq. apply in_or_app. right. now left. }
        destruct (holdsPosition position child) eqn:Hh; [| reflexivity].
        exfalso.
        (* [c] occurs in [before ++ [child]] or [child] is in [done] *)
        assert (Hlen : (List.length before < List.length done)%nat
                       \/ (List.length done <= List.length before)%nat) by lia.
        destruct Hlen as [Hlt | Hge].
        * assert (In child done).
          { assert (Hn : nth_error (done ++ c :: rest) (List.length before)
                         = Some child).
            { rewrite Heq, nth_error_app2, Nat.sub_diag; [reflexivity | lia]. }
            rewrite nth_error_app1 in Hn by exact Hlt.
            eapply nth_error_In; eauto. }
          rewrite Hdone in Hh; [discriminate | assumption |].
          apply Hb. apply in_or_app. right. now left.
        * assert (In c (before ++ [child])%list).
          { assert (Hn : nth_error (before ++ child :: after)
                           (List.length done) = Some c).
            { rewrite <- Heq, nth_error_app2, Nat.sub_diag;
                [reflexivity | lia]. }
            change (before ++ child :: after)%list
              with (before ++ [child] ++ after)%list in Hn.
            rewrite app_assoc in Hn.
            rewrite nth_error_app1 in Hn
              by (rewrite length_app; simpl; lia).
            eapply nth_error_In; eauto. }
          specialize (Hb c H).
          apply Z.gtb_lt in Hstart. lia.
      + destruct (holdsPosition position c) eqn:Hholds.
        * intros before child after Heq Hb. eapply Hc; eauto.
        * apply (IH (done ++ [c])%list).
          -- rewrite <- app_assoc. exact Hall.
          -- intros x Hx Hsx. apply in_app_or in Hx.
             destruct Hx as [Hx | [<- | []]]; auto.
          -- intros x Hx. apply in_app_or in Hx.
             destruct Hx as [Hx | [<- | []]]; auto.
             now apply gtb_false. }
  apply (Hscan []); simpl; auto; intros c [].
Qed.

(** X6.  The node [getTokenAtPosition] returns is the deepest one: of
    its own children, none that starts at or before the position, all the
    children before it doing so too, holds the position. *)
Theorem getTokenAtPosition_is_deepest
        (sourceFile : SourceFileData) (position : Z)
        (before after : list Node) (child : Node) :
  getChildren (getTokenAtPosition sourceFile position)
  = (before ++ child :: after)%list ->
  (forall c, In c (before ++ [child])%list -> getFullStart c <= position) ->
  ~ (position < getEnd child
     \/ (position = getEnd child /\ kind child = EndOfFileToken)).
Proof.
  intros Heq Hb Hholds. apply holdsPosition_iff in Hholds.
  unfold getTokenAtPosition in Heq.
  rewrite (descend_deepest position (root sourceFile) before child after)
    in Hholds; auto. discriminate.
Qed.

Lemma getTokenAtPosition_is_deepest_witness :
  ~ (1 < getEnd Samples.LiteralComparison.one
     \/ (1 = getEnd Samples.LiteralComparison.one
         /\ kind Samples.LiteralComparison.one = EndOfFileToken)).
Proof.
  apply (getTokenAtPosition_is_deepest Samples.LiteralComparison.file 1
           []
           [Samples.LiteralComparison.equals;
            Samples.LiteralComparison.otherOne]
           Samples.LiteralComparison.one).
  - reflexivity.
  - intros c [<- | []]. vm_compute. discriminate.
Defined.

End LookupFacts.

(* ================================================================== *)
(** ** The fixes of no-unnecessary-type-assertion.ts *)

Section AssertionFixFacts.
Import TS Host Reporting Utils Traversal NoUnnecessaryTypeAssertion.

Lemma getTokenAfter_tests_node (parent node : Node) (condition : Condition) :
  holds condition node = false -> getTokenAfter parent node condition = None.
Proof.
  intros H. unfold getTokenAfter. rewrite forIndices_constant, H.
  destruct (upTo _ _); reflexivity.
Qed.

Lemma getTokenBefore_tests_node (parent node : Node) (condition : Condition) :
  holds condition node = false -> getTokenBefore parent node condition = None.
Proof.
  intros H. unfold getTokenBefore. rewrite forIndices_constant, H.
  destruct (downTo0 _); reflexivity.
Qed.

Lemma kind_eqb_false (a b : SyntaxKind) : a <> b -> kind_eqb a b = false.
Proof.
  intros H. destruct (kind_eqb a b) eqn:E; [| reflexivity].
  apply kind_eqb_true in E. contradiction.
Qed.

(** X7.  The fix the rule attaches to an unnecessary [as] or angle
    bracket assertion never yields an edit: asked for its edits it throws,
    because the token lookup tests the type (the expression) itself for
    being the [<] (the [as]) token. *)
Theorem type_assertion_fix_always_throws
        (options : Options) (ctx : RuleContext) (ancestors : list Node)
        (node type_ expression : Node) (d : Diagnostic) :
  shape node = SAsExpression expression type_
  \/ shape node = STypeAssertion type_ expression ->
  kind type_ <> LessThanToken ->
  kind expression <> AsKeyword ->
  In d (reported (visit options ctx ancestors node)) ->
  fixes d
  = [ {| description := "[No Description]";
         getEdits :=
           Throw
             (if kind_eqb (kind node) TypeAssertionExpression
              then "Non-null Assertion Failed: Expected to find a < for the type annotation."
              else "Non-null Assertion Failed: Expected to find a > for the type annotation.")
      |} ].
Proof.
  intros Hshape Htype Hexpr.
  assert (Hfix :
    removeAssertion ctx node type_ expression
    = Throw
        (if kind_eqb (kind node) TypeAssertionExpression
         then "Non-null Assertion Failed: Expected to find a < for the type annotation."
         else "Non-null Assertion Failed: Expected to find a > for the type annotation.")).
  { unfold removeAssertion.
    destruct (kind_eqb (kind node) TypeAssertionExpression).
    - rewrite getTokenBefore_tests_node; [reflexivity |].
      simpl. now apply kind_eqb_false.
    - rewrite getTokenAfter_tests_node; [reflexivity |].
      simpl. now apply kind_eqb_false. }
  unfold visit.
  destruct Hshape as [-> | ->]; unfold visitAssertion;
    destruct (match typesToIgnore options with
              | Some _ => _ | None => _ end);
    try (now intros Hd; simpl in Hd);
    destruct (isTypeUnchanged ctx _ _ && _); simpl;
    intros Hd; try contradiction;
    destruct Hd as [<- | []]; simpl; now rewrite Hfix.
Qed.

Lemma type_assertion_fix_always_throws_witness :
  fixes
    (withFix
       (reportWarning unnecessaryNoChange 0 11)
       "[No Description]"
       (removeAssertion Examples.AsExpression.context
          Examples.AsExpression.assertion
          Examples.AsExpression.stringKeyword Examples.AsExpression.x))
  = [ {| description := "[No Description]";
         getEdits :=
           Throw
             "Non-null Assertion Failed: Expected to find a > for the type annotation."
      |} ].
Proof.
  apply (type_assertion_fix_always_throws
           Examples.AsExpression.ignoreNothing
           Examples.AsExpression.context
           [Examples.AsExpression.statement;
            root Examples.AsExpression.file]
           Examples.AsExpression.assertion
           Examples.AsExpression.stringKeyword Examples.AsExpression.x).
  - left. reflexivity.
  - discriminate.
  - discriminate.
  - left. reflexivity.
Defined.

(** X8.  Every fix the rule attaches to a non-null assertion is one
    deletion that ends where the assertion ends and starts at or after
    the end of the operand: it leaves the operand as it is. *)
Theorem non_null_fix_leaves_the_operand
        (options : Options) (ctx : RuleContext) (ancestors : list Node)
        (node expression : Node) (d : Diagnostic) (fix_ : Fix) :
  shape node = SNonNullExpression expression ->
  getEnd expression < getEnd node ->
  In d (reported (visit options ctx ancestors node)) ->
  In fix_ (fixes d) ->
  exists from,
    getEdits fix_
    = Normal [ {| changes_fileName := fileName (sourceFile ctx);
                  textChanges :=
                    [ {| newText := "";
                         span_start := from;
                         span_length := getEnd node - from |} ] |} ]
    /\ getEnd expression <= from < getEnd node.
Proof.
  intros Hshape Hend. unfold visit. rewrite Hshape.
  unfold visitNonNullExpression.
  destruct (isPlainAssignment (parent ancestors)).
  - destruct (isLeftOf (parent ancestors) node); simpl; [| intros []].
    intros [<- | []] [<- | []]. exists (getEnd expression).
    split; [reflexivity | lia].
  - destruct (negb (isNullableType (typeUtils ctx) _) && _).
    + destruct (isIdentifier expression && _); simpl; [intros [] |].
      intros [<- | []] [<- | []]. exists (getEnd node - 1).
      split; [| lia].
      replace (getEnd node - (getEnd node - 1)) with 1 by lia. reflexivity.
    + destruct (getContextualType (typeUtils ctx) node) as [c |];
        [| intros []].
      destruct (acceptedByContext _ c); simpl; [| intros []].
      intros [<- | []] [<- | []]. exists (getEnd expression).
      split; [reflexivity | lia].
Qed.

Lemma non_null_fix_leaves_the_operand_witness :
  exists from,
    Normal (removal Samples.NonNull.context 3 (4 - 3))
    = Normal [ {| changes_fileName := "nonnull.ts";
                  textChanges :=
                    [ {| newText := "";
                         span_start := from;
                         span_length := 4 - from |} ] |} ]
    /\ 3 <= from < 4.
Proof.
  apply (non_null_fix_leaves_the_operand
           Examples.AsExpression.ignoreNothing Samples.NonNull.context
           [Samples.NonNull.call; Samples.NonNull.statement;
            root Samples.NonNull.file]
           Samples.NonNull.assertion Samples.NonNull.x
           (withFix (reportWarning unnecessaryForReceiver 2 4)
              "[No Description]"
              (Normal (removal Samples.NonNull.context 3 (4 - 3))))
           {| description := "[No Description]";
              getEdits := Normal (removal Samples.NonNull.context 3 (4 - 3)) |}).
  - reflexivity.
  - reflexivity.
  - left. reflexivity.
  - left. reflexivity.
Defined.

(** X9.  An assertion to a type named in [typesToIgnore] is not
    reported, and nothing below it is visited: the walk reports nothing
    for the whole of the assertion, whatever it holds. *)
Theorem ignored_assertion_hides_what_it_holds
        (options : Options) (ctx : RuleContext) (ancestors : list Node)
        (node type_ expression : Node) (ignored : list string) :
  shape node = SAsExpression expression type_
  \/ shape node = STypeAssertion type_ expression ->
  typesToIgnore options = Some ignored ->
  In (typeToString (checker ctx) (getTypeFromTypeNode (checker ctx) type_))
     ignored ->
  cb (visit options ctx) ancestors node = ([], Normal tt).
Proof.
  intros Hshape Hopt Hin.
  assert (Hvisit : visit options ctx ancestors node = ret Return).
  { unfold visit.
    assert (Hex : existsb
                    (String.eqb
                       (typeToString (checker ctx)
                          (getTypeFromTypeNode (checker ctx) type_)))
                    ignored = true).
    { apply existsb_exists. eexists. split; [exact Hin |].
      apply String.eqb_refl. }
    destruct Hshape as [-> | ->]; unfold visitAssertion;
      rewrite Hopt, Hex; reflexivity. }
  destruct node as [i cs sh]. simpl. simpl in Hvisit.
  rewrite Hvisit. reflexivity.
Qed.

Lemma ignored_assertion_hides_what_it_holds_witness :
  cb (visit Examples.AsExpression.ignoreString Examples.AsExpression.context)
    [Examples.AsExpression.statement; root Examples.AsExpression.file]
    Examples.AsExpression.assertion
  = ([], Normal tt).
Proof.
  apply (ignored_assertion_hides_what_it_holds
           Examples.AsExpression.ignoreString Examples.AsExpression.context
           [Examples.AsExpression.statement; root Examples.AsExpression.file]
           Examples.AsExpression.assertion
           Examples.AsExpression.stringKeyword Examples.AsExpression.x
           ["string"]).
  - left. reflexivity.
  - reflexivity.
  - left. reflexivity.
Defined.

End AssertionFixFacts.

(* ================================================================== *)
(** ** switch-exhaustiveness-check.ts: default clauses and escapes *)

Section SwitchDefaultFacts.
Import TS Host Reporting Utils Traversal SwitchExhaustivenessCheck.

Lemma find_default_none (clauses : list Node) :
  find (fun c => kind_eqb (kind c) DefaultClause) clauses = None
  <-> forall c, In c clauses -> kind c <> DefaultClause.
Proof.
  split.
  - intros Hnone c Hin Hk.
    pose proof (find_none _ _ Hnone c Hin) as H. simpl in H.
    rewrite Hk in H. discriminate.
  - intros H. apply find_none_of. intros c Hin.
    apply kind_eqb_false. now apply H.
Qed.

(** X10.  With requireDefaultForNonUnion on, a switch statement is
    reported for its missing default clause exactly when it has no default
    clause and some union constituent of its discriminant type has no
    literal-like intersection part (a type that is no union is its one
    constituent, a type that is no intersection its one part).  So a
    switch over [string] or ["foo" | number] without default clause is
    reported, and one over ["foo" & { bar: 1 }] is not.  The report runs
    from the start of the discriminant to the end of the statement and
    carries one fix; when the switch has clauses, the fix inserts the
    line [default: { throw new Error('default case') }] before the last
    of them. *)
Theorem missing_default_reported_for_non_literal_type
        (options : Options) (ctx : RuleContext)
        (node expression caseBlock : Node) :
  requireDefaultForNonUnion options = true ->
  let type := getConstrainedTypeAtLocation (checker ctx) expression in
  let clauses := clausesOf caseBlock in
  let diagnostics :=
    checkSwitchNoUnionDefaultCase options ctx node expression caseBlock
      (getSwitchMetadata ctx expression caseBlock) in
  (diagnostics <> []
   <-> (forall c, In c clauses -> kind c <> DefaultClause)
       /\ exists part,
           In part (tsutils.unionTypeParts type)
           /\ forall sub,
                In sub (tsutils.intersectionTypeParts part) ->
                isTypeLiteralLikeType sub = false)
  /\ (forall d,
         In d diagnostics ->
         message d = "Switch is not exhaustive. Cases not matched: default"
         /\ d_start d = getStart expression
         /\ d_end d = getEnd node
         /\ List.length (fixes d) = 1%nat)
  /\ (forall d before lastClause,
         In d diagnostics ->
         clauses = (before ++ [lastClause])%list ->
         map getEdits (fixes d)
         = [ Normal
               [ {| changes_fileName := fileName (sourceFile ctx);
                    textChanges :=
                      [ {| newText :=
                             String JsString.newline
                               (JsString.repeat " "
                                  (characterOfPosition (typescript ctx)
                                     (sourceFile ctx) (getStart lastClause))
                                ++ "default: { throw new Error('default case') }");
                           span_start := getStart lastClause;
                           span_length := 0 |} ] |} ] ]).
Proof.
  intros Hopt type clauses diagnostics. subst diagnostics.
  unfold checkSwitchNoUnionDefaultCase, getSwitchMetadata. rewrite Hopt.
  simpl. fold type. fold clauses.
  pose proof (find_default_none clauses) as Hfind.
  pose proof (doesTypeContainNonLiteralType_iff type) as Hnl.
  destruct (find _ clauses) as [dc |].
  { split; [| split].
    - split; [congruence |]. intros [H _]. apply Hfind in H. discriminate.
    - intros d [].
    - intros d before lastClause []. }
  destruct (doesTypeContainNonLiteralType type).
  - split; [| split].
    + split; [| discriminate]. intros _. split.
      * now apply Hfind.
      * now apply Hnl.
    + intros d [<- | []]. simpl. auto.
    + intros d before lastClause [<- | []] Hclauses. simpl.
      unfold fixSwitch. fold clauses. rewrite Hclauses, last_map_Some.
      reflexivity.
  - split; [| split].
    + split; [congruence |]. intros [_ H]. apply Hnl in H. discriminate.
    + intros d [].
    + intros d before lastClause [].
Qed.

Lemma missing_default_reported_for_non_literal_type_witness :
  (checkSwitchNoUnionDefaultCase Examples.Switch.requireDefault
     Samples.Switch.nonLiteralContext Samples.Switch.statement
     Samples.Switch.discriminant Samples.Switch.caseBlock
     (getSwitchMetadata Samples.Switch.nonLiteralContext
        Samples.Switch.discriminant Samples.Switch.caseBlock)
   <> []
   <-> (forall c,
           In c (clausesOf Samples.Switch.caseBlock) ->
           kind c <> DefaultClause)
       /\ exists part,
           In part
             (tsutils.unionTypeParts
                (getConstrainedTypeAtLocation
                   (checker Samples.Switch.nonLiteralContext)
                   Samples.Switch.discriminant))
           /\ forall sub,
                In sub (tsutils.intersectionTypeParts part) ->
                isTypeLiteralLikeType sub = false)
  /\ checkSwitchNoUnionDefaultCase Examples.Switch.requireDefault
       Samples.Switch.nonLiteralContext Samples.Switch.statement
       Samples.Switch.discriminant Samples.Switch.caseBlock
       (getSwitchMetadata Samples.Switch.nonLiteralContext
          Samples.Switch.discriminant Samples.Switch.caseBlock)
     = [ withFix
           (reportWarning
              "Switch is not exhaustive. Cases not matched: default" 8 33)
           "Add branches for missing cases."
           (Normal
              [ {| changes_fileName := "switch.ts";
                   textChanges :=
                     [ {| newText :=
                            String JsString.newline
                              "               default: { throw new Error('default case') }";
                          span_start := 15;
                          span_length := 0 |} ] |} ]) ]
  /\ checkSwitchNoUnionDefaultCase Examples.Switch.requireDefault
       Examples.SwitchOverIntersection.context
       Examples.SwitchOverIntersection.statementWithoutDefault
       Examples.SwitchOverIntersection.x
       Examples.SwitchOverIntersection.caseBlockWithoutDefault
       (getSwitchMetadata Examples.SwitchOverIntersection.context
          Examples.SwitchOverIntersection.x
          Examples.SwitchOverIntersection.caseBlockWithoutDefault)
     = [].
Proof.
  split; [| split; reflexivity].
  apply (missing_default_reported_for_non_literal_type
           Examples.Switch.requireDefault Samples.Switch.nonLiteralContext
           Samples.Switch.statement Samples.Switch.discriminant
           Samples.Switch.caseBlock).
  reflexivity.
Defined.

(** X11.  A switch statement that has a default clause is never
    reported as not exhaustive: whatever the options and the types, the
    one thing the rule may report for it is that the default clause is
    unnecessary, and that report carries no fix. *)
Theorem default_clause_rules_out_missing_cases
        (options : Options) (ctx : RuleContext) (ancestors : list Node)
        (node expression caseBlock defaultClause : Node) (d : Diagnostic) :
  shape node = SSwitchStatement expression caseBlock ->
  In defaultClause (clausesOf caseBlock) ->
  kind defaultClause = DefaultClause ->
  In d (reported (visit options ctx ancestors node)) ->
  message d
  = "The switch statement is exhaustive, so the default case is unnecessary."
  /\ fixes d = [].
Proof.
  intros Hshape Hin Hkind. unfold visit. rewrite Hshape.
  unfold reported, fst.
  unfold checkSwitchExhaustive, checkSwitchUnnecessaryDefaultCase,
    checkSwitchNoUnionDefaultCase, getSwitchMetadata. simpl.
  destruct (find _ (clausesOf caseBlock)) as [dc |] eqn:Hfind.
  - destruct (missingBranchTypesOf _ _); simpl.
    + destruct (allowDefaultCaseForExhaustiveSwitch options); simpl.
      * destruct (negb (requireDefaultForNonUnion options)); intros [].
      * destruct (negb (doesTypeContainNonLiteralType _)); simpl.
        -- destruct (negb (requireDefaultForNonUnion options)); simpl;
             intros [<- | []]; auto.
        -- destruct (negb (requireDefaultForNonUnion options)); intros [].
    + destruct (allowDefaultCaseForExhaustiveSwitch options); simpl;
        destruct (negb (requireDefaultForNonUnion options)); intros [].
  - apply find_default_none with (c := defaultClause) in Hfind; auto.
    contradiction.
Qed.

Lemma default_clause_rules_out_missing_cases_witness :
  message
    (reportWarning
       "The switch statement is exhaustive, so the default case is unnecessary."
       50 65)
  = "The switch statement is exhaustive, so the default case is unnecessary."
  /\ fixes
       (reportWarning
          "The switch statement is exhaustive, so the default case is unnecessary."
          50 65)
     = [].
Proof.
  apply (default_clause_rules_out_missing_cases
           Samples.Switch.noDefaultAllowed Samples.Switch.fullContext
           [root Samples.Switch.file] Examples.Switch.fullStatement
           Samples.Switch.discriminant Samples.Switch.fullCaseBlock
           Samples.Switch.defaultClause).
  - reflexivity.
  - right. right. left. reflexivity.
  - reflexivity.
  - left. reflexivity.
Defined.

(** X12.  With the default options, a switch statement in which no
    branch is missing is not reported, with or without a default
    clause. *)
Theorem exhaustive_switch_is_not_reported
        (ctx : RuleContext) (ancestors : list Node)
        (node expression caseBlock : Node) :
  shape node = SSwitchStatement expression caseBlock ->
  (forall s,
      ~ Spec.missingBranch (checker ctx)
          (getConstrainedTypeAtLocation (checker ctx) expression)
          (clausesOf caseBlock) s) ->
  reported (visit defaultOptions ctx ancestors node) = [].
Proof.
  intros Hshape Hnone. unfold visit. rewrite Hshape.
  unfold reported, fst.
  unfold checkSwitchExhaustive, checkSwitchUnnecessaryDefaultCase,
    checkSwitchNoUnionDefaultCase, getSwitchMetadata. simpl.
  destruct (missingBranchTypesOf _ _) as [| s rest] eqn:Hm; [reflexivity |].
  exfalso. apply (Hnone s). apply missingBranchTypesOf_spec.
  rewrite Hm. now left.
Qed.

Lemma exhaustive_switch_is_not_reported_witness :
  reported
    (visit defaultOptions Samples.Switch.fullContext
       [root Samples.Switch.file] Examples.Switch.bothStatement)
  = [].
Proof.
  apply (exhaustive_switch_is_not_reported Samples.Switch.fullContext
           [root Samples.Switch.file] Examples.Switch.bothStatement
           Samples.Switch.discriminant Examples.Switch.bothCaseBlock).
  - reflexivity.
  - intros s Hs. apply missingBranchTypesOf_spec in Hs.
    vm_compute in Hs. exact Hs.
Defined.

End SwitchDefaultFacts.

(* ================================================================== *)
(** ** switch-exhaustiveness-check.ts: the text of a synthesized branch *)

Section EscapeFacts.
Import TS Host Reporting SwitchExhaustivenessCheck.

Lemma replaceAll_app (a b : string) (c : ascii) (by_ : string) :
  JsString.replaceAll (a ++ b) c by_
  = (JsString.replaceAll a c by_ ++ JsString.replaceAll b c by_)%string.
Proof.
  induction a as [| x a IH]; simpl; [reflexivity |].
  now rewrite IH, append_assoc_s.
Qed.

Lemma noLineTerminator_cons (c : ascii) (s : string) :
  Text.noLineTerminator (String c s) = true ->
  c <> JsString.newline /\ c <> JsString.carriageReturn
  /\ Text.noLineTerminator s = true.
Proof.
  unfold Text.noLineTerminator, Text.isLineTerminator. simpl.
  rewrite andb_true_iff, negb_true_iff, orb_false_iff.
  intros [[H1 H2] H3].
  split; [intros ->; discriminate | split; [intros ->; discriminate | exact H3]].
Qed.

Lemma noBackslash_cons (c : ascii) (s : string) :
  Text.noBackslash (String c s) = true ->
  c <> JsString.backslash /\ Text.noBackslash s = true.
Proof.
  unfold Text.noBackslash. simpl.
  rewrite andb_true_iff, negb_true_iff.
  intros [H1 H2]. split; [intros ->; discriminate | exact H2].
Qed.

Lemma escapeCaseTest_cons (c : ascii) (s : string) :
  escapeCaseTest (String c s)
  = ((if Ascii.eqb c JsString.backslash then "\\"
      else if Ascii.eqb c JsString.quote then "\'"
      else String c "") ++ escapeCaseTest s)%string.
Proof.
  unfold escapeCaseTest. simpl.
  rewrite replaceAll_app.
  destruct (Ascii.eqb_spec c JsString.backslash) as [-> | Hb];
    [reflexivity |].
  simpl. destruct (Ascii.eqb c JsString.quote); reflexivity.
Qed.

Lemma valueOf_escapeCaseTest (s tail : string) :
  Text.noLineTerminator s = true ->
  JsLiteral.valueOf (escapeCaseTest s ++ tail)
  = match JsLiteral.valueOf tail with
    | Some v => Some (s ++ v)%string
    | None => None
    end.
Proof.
  induction s as [| c s IH]; intros Hs.
  - simpl. destruct (JsLiteral.valueOf tail); reflexivity.
  - apply noLineTerminator_cons in Hs. destruct Hs as (Hn & Hr & Hs).
    rewrite escapeCaseTest_cons, append_assoc_s.
    destruct (Ascii.eqb_spec c JsString.backslash) as [-> | Hb].
    + simpl. rewrite (IH Hs).
      destruct (JsLiteral.valueOf tail); reflexivity.
    + destruct (Ascii.eqb_spec c JsString.quote) as [-> | Hq].
      * simpl. rewrite (IH Hs).
        destruct (JsLiteral.valueOf tail); reflexivity.
      * simpl.
        destruct (Ascii.eqb_spec c JsString.backslash); [contradiction |].
        destruct (Ascii.eqb_spec c JsString.quote); [contradiction |].
        destruct (Ascii.eqb_spec c JsString.newline); [contradiction |].
        destruct (Ascii.eqb_spec c JsString.carriageReturn);
          [contradiction |].
        simpl. rewrite (IH Hs).
        destruct (JsLiteral.valueOf tail); reflexivity.
Qed.

(** X13.  The message of the error a synthesized branch throws reads
    back as written: in the text [caseClauseText] builds, the body of the
    string literal is a well-formed body, and its value is
    [Not implemented yet: <caseTest> case] with the case test as it is,
    quotes and backslashes included (a case test holds no line
    terminator). *)
Theorem synthesized_error_message_reads_back (caseTest : string) :
  Text.noLineTerminator caseTest = true ->
  caseClauseText caseTest
  = ("case " ++ caseTest ++ ": { throw new Error('"
       ++ ("Not implemented yet: " ++ escapeCaseTest caseTest ++ " case")
       ++ "') }")%string
  /\ JsLiteral.valueOf
       ("Not implemented yet: " ++ escapeCaseTest caseTest ++ " case")
     = Some ("Not implemented yet: " ++ caseTest ++ " case")%string.
Proof.
  intros Hs. split.
  - unfold caseClauseText. simpl.
    repeat (rewrite ?append_assoc_s; simpl). reflexivity.
  - change ("Not implemented yet: " ++ escapeCaseTest caseTest ++ " case")%string
      with ("Not implemented yet: "
              ++ (escapeCaseTest caseTest ++ " case"))%string.
    cbn -[escapeCaseTest]. rewrite (valueOf_escapeCaseTest _ _ Hs).
    reflexivity.
Qed.

Lemma synthesized_error_message_reads_back_witness :
  caseClauseText "'it\'s'"
  = ("case " ++ "'it\'s'" ++ ": { throw new Error('"
       ++ ("Not implemented yet: " ++ escapeCaseTest "'it\'s'" ++ " case")
       ++ "') }")%string
  /\ JsLiteral.valueOf
       ("Not implemented yet: " ++ escapeCaseTest "'it\'s'" ++ " case")
     = Some ("Not implemented yet: " ++ "'it\'s'" ++ " case")%string.
Proof.
  apply (synthesized_error_message_reads_back "'it\'s'").
  reflexivity.
Defined.

Lemma escapeBranchName_cons (c : ascii) (s : string) :
  escapeBranchName (String c s)
  = ((if Ascii.eqb c JsString.quote then "\'"
      else if Ascii.eqb c JsString.newline then "\n"
      else if Ascii.eqb c JsString.carriageReturn then "\r"
      else String c "") ++ escapeBranchName s)%string.
Proof.
  unfold escapeBranchName. simpl.
  rewrite !replaceAll_app.
  destruct (Ascii.eqb_spec c JsString.quote) as [-> | Hq]; [reflexivity |].
  simpl.
  destruct (Ascii.eqb_spec c JsString.newline) as [-> | Hn]; [reflexivity |].
  simpl.
  destruct (Ascii.eqb c JsString.carriageReturn); reflexivity.
Qed.

(** X14.  The name of a missing branch that holds no backslash reads
    back as written from the property access the fix builds: the body of
    the string literal in [symbolName['<escaped name>']] is well formed
    and its value is the name, quotes and line terminators included.
    (Backslashes are not escaped.) *)
Theorem escaped_branch_name_reads_back (name : string) :
  Text.noBackslash name = true ->
  JsLiteral.valueOf (escapeBranchName name) = Some name.
Proof.
  induction name as [| c s IH]; intros Hs; [reflexivity |].
  apply noBackslash_cons in Hs. destruct Hs as [Hb Hs].
  rewrite escapeBranchName_cons.
  destruct (Ascii.eqb_spec c JsString.quote) as [-> | Hq].
  { simpl. now rewrite (IH Hs). }
  destruct (Ascii.eqb_spec c JsString.newline) as [-> | Hn].
  { simpl. now rewrite (IH Hs). }
  destruct (Ascii.eqb_spec c JsString.carriageReturn) as [-> | Hr].
  { simpl. now rewrite (IH Hs). }
  simpl.
  destruct (Ascii.eqb_spec c JsString.backslash); [contradiction |].
  destruct (Ascii.eqb_spec c JsString.quote); [contradiction |].
  destruct (Ascii.eqb_spec c JsString.newline); [contradiction |].
  destruct (Ascii.eqb_spec c JsString.carriageReturn); [contradiction |].
  simpl. now rewrite (IH Hs).
Qed.

Lemma escaped_branch_name_reads_back_witness :
  JsLiteral.valueOf (escapeBranchName "it's") = Some "it's".
Proof.
  apply (escaped_branch_name_reads_back "it's").
  reflexivity.
Defined.

End EscapeFacts.

(* ================================================================== *)
(** ** What a walk reports *)

Section WalkFacts.
Import TS Host Reporting Traversal.

Variable P : Diagnostic -> Prop.

Lemma andThen_Forall (a b : M unit) :
  Forall P (reported a) -> Forall P (reported b) ->
  Forall P (reported (andThen a b)).
Proof.
  destruct a as [ds [[] | e]], b as [ds' c]; simpl; intros Ha Hb.
  - apply Forall_app. auto.
  - exact Ha.
Qed.

Lemma eachOf_Forall (f : Node -> M unit) (l : list Node) :
  list_all Node (fun c => Forall P (reported (f c))) l ->
  Forall P (reported (eachOf (ret tt) andThen f l)).
Proof.
  induction 1 as [| x Hx l Hl IH]; simpl.
  - constructor.
  - apply andThen_Forall; auto.
Qed.

Lemma forEachChild_Forall (f : Node -> M unit) (sh : Shape Node) :
  Shape_all Node (fun c => Forall P (reported (f c))) sh ->
  Forall P (reported (forEachChild f sh)).
Proof.
  unfold forEachChild.
  destruct 1; simpl;
    repeat first
           [ apply andThen_Forall
           | now constructor
           | now apply eachOf_Forall
           | match goal with
             | H : option_all _ _ _ |- _ => destruct H; simpl
             end
           | assumption ].
Qed.

Lemma cb_Forall (visit : list Node -> Node -> M Next) :
  (forall anc n, Forall P (reported (visit anc n))) ->
  forall n anc, Forall P (reported (cb visit anc n)).
Proof.
  intros Hvisit. induction n as [i cs _ sh IH] using Node_ind.
  intros anc.
  set (n0 := {| info := i; getChildren := cs; shape := sh |}) in *.
  pose proof (Hvisit anc n0) as Hhere.
  change (cb visit anc n0)
    with (match visit anc n0 with
          | (ds, Throw e) => (ds, Throw e)
          | (ds, Normal Return) => (ds, Normal tt)
          | (ds, Normal Descend) =>
              andThen (ds, Normal tt)
                (forEachChild (cb visit (n0 :: anc)) sh)
          end).
  destruct (visit anc n0) as [ds [[|] | e]]; simpl in Hhere; auto.
  apply (andThen_Forall (ds, Normal tt)); [exact Hhere |].
  apply forEachChild_Forall.
  eapply Shape_all_impl; [| exact IH]. intros c Hc. apply Hc.
Qed.

Lemma run_Forall (visit : list Node -> Node -> M Next) (sf : SourceFileData) :
  (forall anc n, Forall P (reported (visit anc n))) ->
  Forall P (reported (run visit sf)).
Proof.
  intros Hvisit. unfold run. apply forEachChild_Forall.
  apply Shape_all_always. intros c. now apply cb_Forall.
Qed.

End WalkFacts.

Lemma Forall_False_nil {A : Type} (l : list A) :
  Forall (fun _ => False) l -> l = [].
Proof. destruct l; [reflexivity |]. intros H. inversion H. contradiction. Qed.

(* ================================================================== *)
(** ** prefer-ts-expect-error.ts: which comments are reported *)

Section CommentFacts.
Import TS Host Reporting Traversal PreferTsExpectError.

Lemma indexOf_none_not_occurs (s needle : string) :
  needle <> ""%string ->
  JsString.indexOf s needle = -1 -> ~ Spec.occursIn needle s.
Proof.
  intros Hne Hidx Hocc. unfold JsString.indexOf in Hidx.
  destruct (occursIn_index needle s Hne Hocc) as (i & Hi).
  rewrite Hi in Hidx. lia.
Qed.

(** X15.  On a file whose text does not hold [@ts-ignore], the rule
    reports nothing, whatever the comments and the tree are. *)
Theorem file_without_ts_ignore_is_not_reported (ctx : RuleContext) :
  JsString.indexOf (text (sourceFile ctx)) "@ts-ignore" = -1 ->
  reported (rule ctx) = [].
Proof.
  intros Hidx. apply Forall_False_nil. unfold rule.
  apply run_Forall. intros anc n. unfold visit. simpl.
  match goal with
  | |- Forall _ (flat_map _ ?l) => induction l as [| c rest IH]
  end; simpl; [constructor |].
  apply Forall_app. split; [| exact IH].
  unfold checkComment.
  destruct (isValidTsIgnorePresent ctx c) eqn:Hvalid; [| constructor].
  exfalso. apply flagged_comment_holds_marker in Hvalid.
  unfold commentText, JsString.slice in Hvalid.
  apply occursIn_substring in Hvalid.
  revert Hvalid. apply indexOf_none_not_occurs; [discriminate | exact Hidx].
Qed.

Lemma file_without_ts_ignore_is_not_reported_witness :
  reported (rule Samples.LiteralComparison.context) = [].
Proof.
  apply (file_without_ts_ignore_is_not_reported
           Samples.LiteralComparison.context).
  reflexivity.
Defined.

Lemma split_aux_no_separator (sep : ascii) (s cur : string) :
  Text.every (fun c => negb (Ascii.eqb c sep)) s = true ->
  JsString.split_aux sep s cur = [(cur ++ s)%string].
Proof.
  revert cur. induction s as [| c s IH]; intros cur; simpl.
  - now rewrite append_nil_r_s.
  - rewrite andb_true_iff, negb_true_iff. intros [Hc Hs].
    rewrite Hc, (IH _ Hs), append_assoc_s. reflexivity.
Qed.

Lemma split_aux_last_line (sep : ascii) (earlier lastLine cur : string) :
  Text.every (fun c => negb (Ascii.eqb c sep)) lastLine = true ->
  last (JsString.split_aux sep (earlier ++ String sep lastLine) cur) ""%string
  = lastLine.
Proof.
  intros Hlast. revert cur.
  induction earlier as [| c earlier IH]; intros cur; simpl.
  - rewrite Ascii.eqb_refl, (split_aux_no_separator _ _ _ Hlast). reflexivity.
  - destruct (Ascii.eqb c sep).
    + specialize (IH ""%string).
      destruct (JsString.split_aux sep (earlier ++ String sep lastLine) "")
        eqn:Hsplit; [now apply split_aux_nonempty in Hsplit |].
      exact IH.
    + apply IH.
Qed.

(** X16.  A block comment is judged by its last line alone: what stands
    before the last line feed of the comment does not matter, so a
    comment whose last line does not hold [@ts-ignore] is not reported,
    even when an earlier line does. *)
Theorem block_comment_is_judged_by_its_last_line
        (ctx : RuleContext) (comment : CommentRange)
        (earlier lastLine : string) :
  isLineComment comment = false ->
  commentText ctx comment = (earlier ++ String JsString.newline lastLine)%string ->
  Text.noLineFeed lastLine = true ->
  isValidTsIgnorePresent ctx comment
  = RegExp.test tsIgnoreRegExpMultiLine lastLine
  /\ (JsString.indexOf lastLine "@ts-ignore" = -1 ->
      checkComment ctx comment = []).
Proof.
  intros Hblock Htext Hlast.
  assert (Hvalid : isValidTsIgnorePresent ctx comment
                   = RegExp.test tsIgnoreRegExpMultiLine lastLine).
  { unfold isValidTsIgnorePresent, getLastCommentLine. rewrite Hblock, Htext.
    unfold JsString.split. now rewrite split_aux_last_line. }
  split; [exact Hvalid |].
  intros Hidx. unfold checkComment. rewrite Hvalid.
  destruct (RegExp.test tsIgnoreRegExpMultiLine lastLine) eqn:Htest;
    [| reflexivity].
  exfalso.
  apply (test_literal_occurs tsIgnoreRegExpMultiLine "@ts-ignore") in Htest;
    [| simpl; tauto].
  revert Htest. apply indexOf_none_not_occurs; [discriminate | exact Hidx].
Qed.

Lemma block_comment_is_judged_by_its_last_line_witness :
  isValidTsIgnorePresent Examples.BlockComment.context
    Examples.BlockComment.comment
  = RegExp.test tsIgnoreRegExpMultiLine " */"
  /\ (JsString.indexOf " */" "@ts-ignore" = -1 ->
      checkComment Examples.BlockComment.context Examples.BlockComment.comment
      = []).
Proof.
  apply (block_comment_is_judged_by_its_last_line
           Examples.BlockComment.context Examples.BlockComment.comment
           "/* @ts-ignore" " */"); reflexivity.
Defined.

End CommentFacts.

(* ================================================================== *)
(** ** tsslint.config.ts: no-duplicate-case *)

Section DuplicateCaseFacts.
Import TS Host Reporting Traversal NoDuplicateCase.

Lemma Set_hasLabel_iff (seen : list string) (label : string) :
  Set_hasLabel seen label = true <-> In label seen.
Proof.
  unfold Set_hasLabel. rewrite existsb_exists. split.
  - intros (x & Hin & Heq). apply String.eqb_eq in Heq. now subst.
  - intros Hin. exists label. split; [exact Hin | apply String.eqb_refl].
Qed.

Lemma checkClauses_iff (ctx : RuleContext) (clauses : list Node) :
  forall (seen : list string) (d : Diagnostic),
    In d (checkClauses ctx clauses seen)
    <-> exists before clause after expression statements,
        clauses = (before ++ clause :: after)%list
        /\ shape clause = SCaseClause expression statements
        /\ (In (getText (sourceFile ctx) expression) seen
            \/ exists earlier expression' statements',
                In earlier before
                /\ shape earlier = SCaseClause expression' statements'
                /\ getText (sourceFile ctx) expression'
                   = getText (sourceFile ctx) expression)
        /\ d = reportWarning "Disallow duplicate case labels"
                 (getStart clause) (getEnd clause).
Proof.
  induction clauses as [| c rest IH]; intros seen d; simpl.
  - split; [intros [] |].
    intros (before & clause & after & e & st & Heq & _).
    destruct before; discriminate.
  - destruct (shape c) as
      [ | | | | | | | | | | | | | | | | | | | | | | | | expr sts | | | | | ]
      eqn:Hshape;
      try (rewrite IH; split;
           [ intros (before & clause & after & e & st & Heq & Hs & Hdup & Hd);
             exists (c :: before), clause, after, e, st;
             repeat split; auto;
             [ simpl; now rewrite Heq
             | destruct Hdup as [Hdup | (x & e' & st' & Hx & Hsx & Ht)];
               [now left | right; exists x, e', st'; simpl; auto] ]
           | intros (before & clause & after & e & st & Heq & Hs & Hdup & Hd);
             destruct before as [| b before]; simpl in Heq;
             inversion Heq; subst;
             [ congruence |];
             exists before, clause, after, e, st;
             repeat split; auto;
             destruct Hdup as [Hdup | (x & e' & st' & [<- | Hx] & Hsx & Ht)];
             [ now left | congruence
             | right; exists x, e', st'; auto ] ]).
    set (label := getText (sourceFile ctx) expr).
    destruct (Set_hasLabel seen label) eqn:Hseen.
    + apply Set_hasLabel_iff in Hseen. simpl. rewrite IH. split.
      * intros [<- | (before & clause & after & e & st & Heq & Hs & Hdup & Hd)].
        -- exists [], c, rest, expr, sts. repeat split; auto.
        -- exists (c :: before), clause, after, e, st.
           repeat split; auto; [simpl; now rewrite Heq |].
           destruct Hdup as [Hdup | (x & e' & st' & Hx & Hsx & Ht)];
             [now left | right; exists x, e', st'; simpl; auto].
      * intros (before & clause & after & e & st & Heq & Hs & Hdup & Hd).
        destruct before as [| b before]; simpl in Heq; inversion Heq; subst.
        -- now left.
        -- right. exists before, clause, after, e, st.
           repeat split; auto.
           destruct Hdup as [Hdup | (x & e' & st' & [<- | Hx] & Hsx & Ht)].
           ++ now left.
           ++ left. rewrite Hshape in Hsx. inversion Hsx; subst.
              rewrite <- Ht. exact Hseen.
           ++ right. exists x, e', st'. auto.
    + assert (Hnot : ~ In label seen).
      { intros H. apply Set_hasLabel_iff in H. congruence. }
      rewrite IH. split.
      * intros (before & clause & after & e & st & Heq & Hs & Hdup & Hd).
        exists (c :: before), clause, after, e, st.
        repeat split; auto; [simpl; now rewrite Heq |].
        destruct Hdup as [[Hdup | Hdup] | (x & e' & st' & Hx & Hsx & Ht)].
        -- right. exists c, expr, sts. simpl. auto.
        -- now left.
        -- right. exists x, e', st'. simpl. auto.
      * intros (before & clause & after & e & st & Heq & Hs & Hdup & Hd).
        destruct before as [| b before]; simpl in Heq; inversion Heq; subst.
        -- exfalso. rewrite Hshape in Hs. inversion Hs; subst.
           destruct Hdup as [Hdup | (x & _ & _ & [] & _)]. now apply Hnot.
        -- exists before, clause, after, e, st.
           repeat split; auto.
           destruct Hdup as [Hdup | (x & e' & st' & [<- | Hx] & Hsx & Ht)].
           ++ left. now right.
           ++ left. left. rewrite Hshape in Hsx. inversion Hsx; subst.
              exact Ht.
           ++ right. exists x, e', st'. auto.
Qed.

(** X17.  Of the clauses of a switch statement, the rule reports
    exactly the case clauses whose expression has the text of the
    expression of an earlier case clause of the same statement, each
    over the whole clause; default clauses are passed over. *)
Theorem duplicate_case_reported_iff
        (ctx : RuleContext) (clauses : list Node) (d : Diagnostic) :
  In d (checkClauses ctx clauses [])
  <-> exists before clause after expression statements,
      clauses = (before ++ clause :: after)%list
      /\ shape clause = SCaseClause expression statements
      /\ (exists earlier expression' statements',
             In earlier before
             /\ shape earlier = SCaseClause expression' statements'
             /\ getText (sourceFile ctx) expression'
                = getText (sourceFile ctx) expression)
      /\ d = reportWarning "Disallow duplicate case labels"
               (getStart clause) (getEnd clause).
Proof.
  rewrite checkClauses_iff. split.
  - intros (before & clause & after & e & st & Heq & Hs & [[] | Hdup] & Hd).
    exists before, clause, after, e, st. auto.
  - intros (before & clause & after & e & st & Heq & Hs & Hdup & Hd).
    exists before, clause, after, e, st. auto.
Qed.

End DuplicateCaseFacts.

(* ================================================================== *)
(** ** prefer-nullish-coalescing.ts: logical or, conditional tests *)

Section LogicalOrFacts.
Import TS Host Reporting Utils Traversal PreferNullishCoalescing.

Lemma visitLogicalOr_outcome
      (options : Options) (ctx : RuleContext) (ancestors : list Node)
      (node lhs operatorToken rhs : Node) :
  kind lhs <> kind operatorToken ->
  exists c,
    visitLogicalOr options ctx ancestors node lhs operatorToken rhs = ([], c)
    /\ c <> Normal Descend.
Proof.
  intros Hkind. unfold visitLogicalOr.
  destruct (negb (tsutils.isTypeFlagSet _ _));
    [exists (Normal Return); split; [reflexivity | discriminate] |].
  destruct (ignoreConditionalTests options && _);
    [exists (Normal Return); split; [reflexivity | discriminate] |].
  destruct (ignoreMixedLogicalExpressions options && _);
    [exists (Normal Return); split; [reflexivity | discriminate] |].
  rewrite getTokenAfter_tests_node
    by (simpl; now apply kind_eqb_false).
  destruct (negb (flags _ =? TypeFlags.Null) && _).
  - unfold someConstituent.
    destruct (tsutils.isTypeFlagSet _ _); simpl.
    + destruct (existsb _ _); simpl; eexists; split;
        try reflexivity; discriminate.
    + eexists; split; [reflexivity | discriminate].
  - simpl. eexists; split; [reflexivity | discriminate].
Qed.

(** X18.  The rule never reports a logical or, and never looks into
    one: for [a || b] the walk reports nothing, neither for the
    expression nor for anything below it.  (The search for the [||]
    token tests the left operand itself for being that token.) *)
Theorem logical_or_is_never_reported
        (options : Options) (ctx : RuleContext) (ancestors : list Node)
        (node lhs operatorToken rhs : Node) :
  shape node = SBinaryExpression lhs operatorToken rhs ->
  kind operatorToken = BarBarToken ->
  kind lhs <> BarBarToken ->
  reported (cb (visit options ctx) ancestors node) = [].
Proof.
  intros Hshape Hop Hlhs.
  destruct (visitLogicalOr_outcome options ctx ancestors node lhs
              operatorToken rhs) as (c & Hvisit & Hc);
    [now rewrite Hop |].
  assert (Hv : visit options ctx ancestors node = ([], c)).
  { unfold visit. rewrite Hshape, Hop. exact Hvisit. }
  destruct node as [i cs sh]. simpl. simpl in Hv. rewrite Hv.
  destruct c as [[|] | e]; try reflexivity. now contradiction Hc.
Qed.

Lemma logical_or_is_never_reported_witness :
  reported
    (cb (visit defaultOptions Examples.LogicalOr.context)
       [Examples.LogicalOr.statement; root Examples.LogicalOr.file]
       Examples.LogicalOr.disjunction)
  = [].
Proof.
  apply (logical_or_is_never_reported defaultOptions
           Examples.LogicalOr.context
           [Examples.LogicalOr.statement; root Examples.LogicalOr.file]
           Examples.LogicalOr.disjunction Examples.LogicalOr.nullKeyword
           Examples.LogicalOr.barBar Examples.LogicalOr.b).
  - reflexivity.
  - reflexivity.
  - discriminate.
Defined.

(** X19.  With the default options, at a logical or whose left operand
    has the type [null] or the type [undefined] the rule throws: the
    search for the [||] token finds nothing and [nullThrows] raises its
    error, which nothing catches, so the walk ends there. *)
Theorem logical_or_on_nullish_operand_throws
        (ctx : RuleContext) (ancestors : list Node)
        (node lhs operatorToken rhs : Node) :
  shape node = SBinaryExpression lhs operatorToken rhs ->
  kind operatorToken = BarBarToken ->
  kind lhs <> BarBarToken ->
  flags (getTypeAtLocation (checker ctx) lhs) = TypeFlags.Null
  \/ flags (getTypeAtLocation (checker ctx) lhs) = TypeFlags.Undefined ->
  exists e,
    cb (visit defaultOptions ctx) ancestors node = ([], Throw e).
Proof.
  intros Hshape Hop Hlhs Hflags.
  assert (Hv : exists e,
             visit defaultOptions ctx ancestors node = ([], Throw e)).
  { unfold visit. rewrite Hshape, Hop. simpl.
    unfold visitLogicalOr. simpl.
    rewrite getTokenAfter_tests_node
      by (simpl; rewrite Hop; now apply kind_eqb_false).
    unfold tsutils.isTypeFlagSet.
    destruct Hflags as [-> | ->]; simpl; eexists; reflexivity. }
  destruct Hv as (e & Hv). exists e.
  destruct node as [i cs sh]. simpl. simpl in Hv. now rewrite Hv.
Qed.

Lemma logical_or_on_nullish_operand_throws_witness :
  exists e,
    cb (visit defaultOptions Examples.LogicalOr.context)
      [Examples.LogicalOr.statement; root Examples.LogicalOr.file]
      Examples.LogicalOr.disjunction
    = ([], Throw e).
Proof.
  apply (logical_or_on_nullish_operand_throws Examples.LogicalOr.context
           [Examples.LogicalOr.statement; root Examples.LogicalOr.file]
           Examples.LogicalOr.disjunction Examples.LogicalOr.nullKeyword
           Examples.LogicalOr.barBar Examples.LogicalOr.b).
  - reflexivity.
  - reflexivity.
  - discriminate.
  - left. reflexivity.
Defined.

Lemma isConditionalTest_loop_function
      (below : list Node) (f : Node) (above above' parents : list Node) :
  kind f = ArrowFunction \/ kind f = FunctionExpression ->
  isConditionalTest_loop parents (below ++ f :: above)
  = isConditionalTest_loop parents (below ++ f :: above').
Proof.
  intros Hf. revert parents.
  induction below as [| x below IH]; intros parents.
  - simpl.
    assert (Hkind : kind_eqb (kind f) ArrowFunction
                    || kind_eqb (kind f) FunctionExpression = true)
      by (destruct Hf as [-> | ->]; reflexivity).
    rewrite Hkind.
    destruct (match shape f with
              | SConditionalExpression _ _ _ _ _ => _
              | _ => _ end); [reflexivity |].
    destruct (match shape f with
              | SDoStatement _ _ => _
              | _ => _ end); reflexivity.
  - simpl. rewrite IH. reflexivity.
Qed.

(** X20.  The search for an enclosing test stops at the nearest
    enclosing arrow function or function expression: what is above that
    function has no part in the answer of [isConditionalTest]. *)
Theorem conditional_test_search_stops_at_function
        (node f : Node) (below above above' : list Node) :
  kind f = ArrowFunction \/ kind f = FunctionExpression ->
  isConditionalTest (below ++ f :: above) node
  = isConditionalTest (below ++ f :: above') node.
Proof.
  intros Hf. unfold isConditionalTest.
  now apply isConditionalTest_loop_function.
Qed.

Lemma conditional_test_search_stops_at_function_witness :
  isConditionalTest
    ([] ++ Examples.LogicalOr.arrow :: [Examples.LogicalOr.ifStatement])
    Examples.LogicalOr.disjunction
  = isConditionalTest ([] ++ Examples.LogicalOr.arrow :: [])
      Examples.LogicalOr.disjunction.
Proof.
  apply (conditional_test_search_stops_at_function
           Examples.LogicalOr.disjunction Examples.LogicalOr.arrow
           [] [Examples.LogicalOr.ifStatement] []).
  left. reflexivity.
Defined.

End LogicalOrFacts.

(* ================================================================== *)
(** ** no-unnecessary-condition.ts: optional chains and fixes *)

Section OptionalChainFacts.
Import TS Host Reporting Utils Traversal NoUnnecessaryCondition Props.

Lemma checkOptionalChain_silent
      (ctx : RuleContext) (node beforeOperator : Node) (fix_ : string) :
  kind beforeOperator <> QuestionDotToken ->
  reported (checkOptionalChain ctx node beforeOperator fix_) = [].
Proof.
  intros Hkind. unfold checkOptionalChain.
  destruct (negb (hasQuestionDotToken node)); [reflexivity |].
  destruct (optionChainContainsOptionArrayIndex ctx node); [reflexivity |].
  destruct (expressionOf node) as [e |]; [| reflexivity].
  destruct (isOptionableExpression ctx e); [reflexivity |].
  rewrite getTokenAfter_tests_node
    by (simpl; now apply kind_eqb_false).
  reflexivity.
Qed.

(** X21.  The rule never reports an optional member access: for
    [a?.b] and [a?.[b]] the visit reports nothing, whatever the type of
    [a].  (The search for the [?.] token tests the object expression
    itself for being that token; the error [nullThrows] raises is caught
    and dropped.) *)
Theorem optional_member_access_is_never_reported
        (options : Options) (ctx : RuleContext) (ancestors : list Node)
        (node expression questionDot member : Node) :
  shape node = SPropertyAccessExpression expression (Some questionDot) member
  \/ shape node
     = SElementAccessExpression expression (Some questionDot) member ->
  kind expression <> QuestionDotToken ->
  reported (visit options ctx ancestors node) = [].
Proof.
  intros Hshape Hkind. destruct node as [i cs sh]. simpl in Hshape.
  unfold visit, dispatch, checkOptionalMemberExpression, expressionOf,
    isBinaryExpression, isCallExpression, isConditionalExpression,
    isDoStatement, isForStatement, isIfStatement, isWhileStatement,
    isPropertyAccessExpression, isElementAccessExpression,
    hasQuestionDotToken, questionDotTokenOf, kind.
  destruct Hshape as [-> | ->]; simpl;
    match goal with
    | |- context [checkOptionalChain ctx ?n ?e ?f] =>
        pose proof (checkOptionalChain_silent ctx n e f Hkind) as H;
        destruct (checkOptionalChain ctx n e f) as [ds c]
    end; simpl in *; subst; reflexivity.
Qed.

Lemma optional_member_access_is_never_reported_witness :
  reported
    (visit defaultOptions Examples.OptionalMember.context
       [Examples.OptionalMember.statement; root Examples.OptionalMember.file]
       Examples.OptionalMember.access)
  = [].
Proof.
  apply (optional_member_access_is_never_reported defaultOptions
           Examples.OptionalMember.context
           [Examples.OptionalMember.statement;
            root Examples.OptionalMember.file]
           Examples.OptionalMember.access Examples.OptionalMember.a
           Examples.OptionalMember.questionDot Examples.OptionalMember.b).
  - left. reflexivity.
  - discriminate.
Defined.

Ltac plain_cases :=
  repeat first
         [ apply Forall_nil
         | apply Forall_cons; [reflexivity |]
         | apply Forall_app; split
         | match goal with
           | |- context [if ?c then _ else _] => destruct c
           | |- context [match ?x with _ => _ end] => destruct x
           end ].

Lemma checkNodeType_plain (ctx : RuleContext) (n : Node) (b : bool) :
  Forall plain (checkNodeType ctx n b).
Proof. unfold checkNodeType. plain_cases. Qed.

Lemma checkNode_plain (ctx : RuleContext) (n : Node) :
  forall b, Forall plain (checkNode ctx n b).
Proof.
  induction n as [i cs _ sh IH] using Node_ind.
  intros b. simpl.
  destruct IH; simpl;
    repeat match goal with
           | |- context [if ?c then _ else _] => destruct c
           end;
    try apply checkNodeType_plain; try apply Forall_nil; auto.
Qed.

Lemma checkNodeForNullish_plain (ctx : RuleContext) (n : Node) :
  Forall plain (checkNodeForNullish ctx n).
Proof. unfold checkNodeForNullish. plain_cases. Qed.

Lemma checkIfBinary_plain (ctx : RuleContext) (n : Node) :
  Forall plain (checkIfBinaryExpressionIsNecessaryConditional ctx n).
Proof.
  unfold checkIfBinaryExpressionIsNecessaryConditional.
  destruct (shape n); try apply Forall_nil.
  repeat match goal with
         | |- context [if ?c then _ else _] => destruct c
         end; repeat constructor.
Qed.

Lemma checkLogical_plain (ctx : RuleContext) (n : Node) :
  Forall plain (checkLogicalExpressionForUnnecessaryConditionals ctx n).
Proof.
  unfold checkLogicalExpressionForUnnecessaryConditionals.
  destruct (shape n); try apply Forall_nil.
  destruct (kind_eqb _ _);
    [apply checkNodeForNullish_plain | apply checkNode_plain].
Qed.

Lemma checkIfLoop_plain (options : Options) (ctx : RuleContext) (n : Node) :
  Forall plain (checkIfLoopIsNecessaryConditional options ctx n).
Proof.
  unfold checkIfLoopIsNecessaryConditional.
  destruct (match shape n with
            | SForStatement _ _ _ _ => _
            | _ => _ end); [| apply Forall_nil].
  destruct (_ && _); [apply Forall_nil | apply checkNode_plain].
Qed.

Lemma checkCallExpression_plain (ctx : RuleContext) (n : Node) :
  Forall plain (checkCallExpression ctx n).
Proof.
  unfold checkCallExpression.
  destruct (shape n); try apply Forall_nil.
  destruct arguments; [apply Forall_nil |].
  destruct (isArrayPredicateFunction ctx n); [| apply Forall_nil].
  destruct (returnedNode _); [apply checkNode_plain |].
  destruct (getCallSignaturesOfType _ _); [apply Forall_nil |].
  destruct (existsb _ _); [apply Forall_nil |].
  apply Forall_app. split;
    match goal with
    | |- context [if ?c then _ else _] => destruct c
    end; repeat constructor.
Qed.

Lemma onNode_plain (o : option Node) (f : Node -> list Diagnostic) :
  (forall n, Forall plain (f n)) ->
  Forall plain (reported (tryCatch (onNode o f))).
Proof. intros H. destruct o; simpl; [apply H | constructor]. Qed.

Lemma visit_plain
      (options : Options) (ctx : RuleContext) (ancestors : list Node)
      (node : Node) :
  (forall e, expressionOf node = Some e -> kind e <> QuestionDotToken) ->
  Forall plain (reported (visit options ctx ancestors node)).
Proof.
  intros Hexpr. unfold visit.
  assert (Hd : Forall plain
                 (reported (dispatch options ctx (checkOptionalCallExpression ctx)
                              ancestors node))).
  { unfold dispatch.
    repeat match goal with
           | |- context [if ?c then _ else _] => destruct c
           end;
      try apply onNode_plain;
      try (intros; apply checkNode_plain);
      try apply checkNodeForNullish_plain;
      try (simpl; first [ apply checkLogical_plain
                        | apply checkIfBinary_plain
                        | apply checkCallExpression_plain
                        | apply checkIfLoop_plain
                        | apply Forall_nil ]).
    - unfold checkOptionalMemberExpression.
      destruct (expressionOf node) as [e |] eqn:He; [| constructor].
      simpl. change (fst ?m) with (reported m).
      rewrite checkOptionalChain_silent; [constructor | now apply Hexpr].
    - unfold checkOptionalCallExpression.
      destruct (expressionOf node) as [e |] eqn:He; [| constructor].
      simpl. change (fst ?m) with (reported m).
      rewrite checkOptionalChain_silent; [constructor | now apply Hexpr]. }
  destruct (dispatch options ctx (checkOptionalCallExpression ctx) ancestors node)
    as [ds [[] | e]]; simpl in *; [rewrite app_nil_r |]; exact Hd.
Qed.

Section Walk.
Variable P : Diagnostic -> Prop.
Variable Q : Node -> Prop.

Lemma eachOf_Forall_every (f : Node -> M unit) (G : Node -> Prop)
      (l : list Node) :
  list_all Node (fun c => G c -> Forall P (reported (f c))) l ->
  eachOf True and G l ->
  Forall P (reported (eachOf (ret tt) andThen f l)).
Proof.
  induction 1 as [| x Hx l Hl IH]; simpl.
  - constructor.
  - intros [Hg Hrest]. apply andThen_Forall; auto.
Qed.

Lemma forEachChild_Forall_every (f : Node -> M unit) (G : Node -> Prop)
      (sh : Shape Node) :
  Shape_all Node (fun c => G c -> Forall P (reported (f c))) sh ->
  foldChildren True and G sh ->
  Forall P (reported (forEachChild f sh)).
Proof.
  unfold forEachChild.
  destruct 1; simpl; intros HG;
    repeat match goal with
           | H : _ /\ _ |- _ => destruct H
           end;
    repeat first
           [ apply andThen_Forall
           | now constructor
           | eapply eachOf_Forall_every; eassumption
           | match goal with
             | H : option_all _ _ _ |- _ => destruct H; simpl in *
             end
           | now auto ].
Qed.

Lemma cb_Forall_every (visit : list Node -> Node -> M Next) :
  (forall anc n, Q n -> Forall P (reported (visit anc n))) ->
  forall n anc, everyNode Q n -> Forall P (reported (cb visit anc n)).
Proof.
  intros Hvisit. induction n as [i cs _ sh IH] using Node_ind.
  intros anc Hq.
  set (n0 := {| info := i; getChildren := cs; shape := sh |}) in *.
  assert (Hq' : Q n0 /\ foldChildren True and (everyNode Q) sh)
    by exact Hq.
  destruct Hq' as [Hhere Hbelow].
  apply (Hvisit anc) in Hhere.
  change (cb visit anc n0)
    with (match visit anc n0 with
          | (ds, Throw e) => (ds, Throw e)
          | (ds, Normal Return) => (ds, Normal tt)
          | (ds, Normal Descend) =>
              andThen (ds, Normal tt)
                (forEachChild (cb visit (n0 :: anc)) sh)
          end).
  destruct (visit anc n0) as [ds [[|] | e]]; simpl in Hhere; auto.
  apply (andThen_Forall P (ds, Normal tt)); [exact Hhere |].
  apply (forEachChild_Forall_every (cb visit (n0 :: anc)) (everyNode Q));
    [| exact Hbelow].
  eapply Shape_all_impl; [| exact IH]. intros c Hc Hg. now apply Hc.
Qed.

Lemma run_Forall_every (visit : list Node -> Node -> M Next)
      (sf : SourceFileData) :
  (forall anc n, Q n -> Forall P (reported (visit anc n))) ->
  everyNode Q (root sf) ->
  Forall P (reported (run visit sf)).
Proof.
  intros Hvisit Hq. unfold run.
  assert (Hq' : Q (root sf)
                /\ foldChildren True and (everyNode Q) (shape (root sf)))
    by (destruct (root sf); exact Hq).
  apply (forEachChild_Forall_every (cb visit [root sf]) (everyNode Q));
    [| exact (proj2 Hq')].
  apply Shape_all_always. intros c Hg. now apply cb_Forall_every.
Qed.

End Walk.

(** X22.  On a tree in which no member access or call has a [?.] token
    for its object or callee expression, as the parser builds it, none
    of the diagnostics of the rule carries a fix: the one fix in the
    rule's text, which would remove an unnecessary [?.], is never
    offered. *)
Theorem condition_rule_never_offers_a_fix
        (options : Options) (ctx : RuleContext) :
  everyNode
    (fun n => forall e, expressionOf n = Some e -> kind e <> QuestionDotToken)
    (root (sourceFile ctx)) ->
  Forall (fun d => fixes d = []) (reported (rule options ctx)).
Proof.
  intros Htree. unfold rule.
  assert (Hrun : Forall plain
                   (reported (run (visit options ctx) (sourceFile ctx)))).
  { apply (run_Forall_every plain
             (fun n => forall e, expressionOf n = Some e ->
                                 kind e <> QuestionDotToken));
      [| exact Htree].
    intros anc n Hn. now apply visit_plain. }
  unfold configurationCheck.
  destruct (_ && _); simpl;
    destruct (run (visit options ctx) (sourceFile ctx)) as [ds c];
    simpl in *; [constructor; [reflexivity |] |]; exact Hrun.
Qed.

Lemma condition_rule_never_offers_a_fix_witness :
  Forall (fun d => fixes d = [])
    (reported (rule defaultOptions Examples.OptionalMember.context)).
Proof.
  apply (condition_rule_never_offers_a_fix defaultOptions
           Examples.OptionalMember.context).
  simpl. repeat split; intros e He; inversion He; discriminate.
Defined.

End OptionalChainFacts.

(* ================================================================== *)
(** ** tsslint.config.ts: convertTSLintRule *)

Section BridgeFacts.
Import TS Reporting TSLintBridge.

Variable sourceFile : SourceFileData.

Lemma withReplacements (replaces : list Replacement) (reporter : Diagnostic) :
  fold_left (withReplacement sourceFile) replaces reporter
  = {| severity := severity reporter;
       message := message reporter;
       d_start := d_start reporter;
       d_end := d_end reporter;
       fixes := (fixes reporter ++ map (replacementFix sourceFile) replaces)%list |}.
Proof.
  revert reporter. induction replaces as [| r rest IH]; intros reporter.
  - simpl. rewrite app_nil_r. destruct reporter; reflexivity.
  - simpl. rewrite IH. simpl. rewrite <- app_assoc. reflexivity.
Qed.

Lemma withFixesOf_eq (failures : list RuleFailure) (reporter : Diagnostic) :
  withFixesOf sourceFile failures reporter
  = {| severity := severity reporter;
       message := message reporter;
       d_start := d_start reporter;
       d_end := d_end reporter;
       fixes := (fixes reporter
                   ++ map (replacementFix sourceFile) (flat_map replacesOf failures))%list |}.
Proof.
  unfold withFixesOf. revert reporter.
  induction failures as [| f rest IH]; intros reporter.
  - simpl. rewrite app_nil_r. destruct reporter; reflexivity.
  - simpl. rewrite IH, withReplacements. simpl.
    rewrite map_app, app_assoc. reflexivity.
Qed.

(** X23.  A converted TSLint rule reports one diagnostic per failure,
    with the text and the positions of that failure and the severity of
    the rule, and every one of these diagnostics carries the fixes of
    all the failures of the rule, in the order of the failures: a
    failure that has no fix of its own is offered the fixes of the
    others. *)
Theorem converted_failures_share_all_fixes
        (ruleSeverity : RuleSeverity) (failures : list RuleFailure) :
  ruleSeverity <> SeverityOff ->
  convertTSLintRule sourceFile ruleSeverity failures
  = map
      (fun failure =>
         {| severity :=
              match ruleSeverity with
              | SeverityError => Error
              | _ => Warning
              end;
            message := getFailure failure;
            d_start := getStartPosition failure;
            d_end := getEndPosition failure;
            fixes := map (replacementFix sourceFile) (flat_map replacesOf failures) |})
      failures.
Proof.
  intros Hon. unfold convertTSLintRule.
  destruct ruleSeverity; try contradiction;
    apply map_ext; intros failure; rewrite withFixesOf_eq; reflexivity.
Qed.

End BridgeFacts.

Lemma converted_failures_share_all_fixes_witness :
  TSLintBridge.convertTSLintRule Samples.emptyFile
    TSLintBridge.SeverityWarning
    [Examples.Failures.first; Examples.Failures.second]
  = map
      (fun failure =>
         {| Reporting.severity := Reporting.Warning;
            Reporting.message := TSLintBridge.getFailure failure;
            Reporting.d_start := TSLintBridge.getStartPosition failure;
            Reporting.d_end := TSLintBridge.getEndPosition failure;
            Reporting.fixes :=
              map (TSLintBridge.replacementFix Samples.emptyFile)
                (flat_map TSLintBridge.replacesOf
                   [Examples.Failures.first; Examples.Failures.second]) |})
      [Examples.Failures.first; Examples.Failures.second].
Proof.
  apply (converted_failures_share_all_fixes Samples.emptyFile
           TSLintBridge.SeverityWarning
           [Examples.Failures.first; Examples.Failures.second]).
  discriminate.
Defined.

(* ================================================================== *)
(** ** prefer-nullish-coalescing.ts: the fix of a ternary *)

Section TernaryFacts.
Import TS Host Reporting Utils Traversal PreferNullishCoalescing Props.

Lemma scanTest_tested
      (ctx : RuleContext) (operator : SyntaxKind) (whenTrue whenFalse : Node)
      (Q : Node -> Prop) (nodes : list Node) :
  (forall n, In n nodes -> Q n) ->
  forall st st' tested,
    (forall t, identifier st = Some t ->
               Q t /\ kind t <> NullKeyword /\ kind t <> UndefinedKeyword
               /\ repeats ctx operator whenTrue whenFalse t) ->
    scanTest ctx operator whenTrue whenFalse nodes st = Some st' ->
    identifier st' = Some tested ->
    Q tested /\ kind tested <> NullKeyword /\ kind tested <> UndefinedKeyword
    /\ repeats ctx operator whenTrue whenFalse tested.
Proof.
  induction nodes as [| n rest IH]; intros HQ st st' tested Hst Hscan Hid.
  - simpl in Hscan. inversion Hscan; subst. now apply Hst.
  - assert (HQrest : forall m, In m rest -> Q m)
      by (intros m Hm; apply HQ; now right).
    simpl in Hscan.
    destruct (tsutils.isNullLiteral n) eqn:Hnull.
    { eapply (IH HQrest); [| exact Hscan | exact Hid]. exact Hst. }
    destruct (isUndefinedIdentifier n) eqn:Hundefined.
    { eapply (IH HQrest); [| exact Hscan | exact Hid]. exact Hst. }
    assert (Hn : Q n /\ kind n <> NullKeyword /\ kind n <> UndefinedKeyword).
    { split; [apply HQ; now left |]. split; intros Hk.
      - unfold tsutils.isNullLiteral in Hnull. rewrite Hk in Hnull.
        discriminate.
      - unfold isUndefinedIdentifier in Hundefined. rewrite Hk in Hundefined.
        discriminate. }
    destruct (isNegated operator
              && isNodeEqual (sourceFile ctx) n whenTrue) eqn:Hneg.
    { eapply (IH HQrest); [| exact Hscan | exact Hid].
      simpl. intros t Ht. inversion Ht; subst.
      apply andb_true_iff in Hneg.
      destruct Hn as (H1 & H2 & H3). repeat split; auto. left. exact Hneg. }
    destruct (isPositive operator
              && isNodeEqual (sourceFile ctx) n whenFalse) eqn:Hpos;
      [| discriminate].
    eapply (IH HQrest); [| exact Hscan | exact Hid].
    simpl. intros t Ht. inversion Ht; subst.
    apply andb_true_iff in Hpos.
    destruct Hn as (H1 & H2 & H3). repeat split; auto. right. exact Hpos.
Qed.

Lemma combine_some (strict loose l r operator : SyntaxKind) :
  strict <> loose ->
  combine strict loose l r = Some operator ->
  (operator = strict \/ operator = loose)
  /\ (l = strict \/ l = loose)
  /\ (r = strict \/ r = loose).
Proof.
  intros Hne. unfold combine.
  destruct (kind_eqb l strict) eqn:Hls;
    destruct (kind_eqb r strict) eqn:Hrs;
    destruct (kind_eqb l loose) eqn:Hll;
    destruct (kind_eqb r loose) eqn:Hrl;
    simpl; intros H; inversion H; subst;
    repeat match goal with
           | E : kind_eqb _ _ = true |- _ => apply kind_eqb_true in E
           end;
    try (exfalso; congruence); auto.
Qed.

Lemma isNegated_not_positive (operator : SyntaxKind) :
  isNegated operator = true -> isPositive operator = false.
Proof. destruct operator; cbv; congruence. Qed.

Lemma analyseTest_operands (condition : Node) (operator : SyntaxKind)
      (nodes : list Node) :
  analyseTest condition = (Some operator, nodes) ->
  forall n,
    In n nodes ->
    exists k,
      testedBy condition n k
      /\ isNegated k = isNegated operator
      /\ isPositive k = isPositive operator.
Proof.
  unfold analyseTest.
  destruct (shape condition) as
    [ | | | lhs operatorToken rhs | | | | | | | | | | | | | | | | | | | | | | | | | | ]
    eqn:Hshape; try discriminate.
  destruct (isEqualityOperator (kind operatorToken)).
  { intros H n Hn. inversion H; subst.
    exists (kind operatorToken). split; [| split; reflexivity].
    apply (tested_directly condition lhs operatorToken rhs n Hshape).
    destruct Hn as [<- | [<- | []]]; auto. }
  destruct (isLogicalExpression condition); [| discriminate].
  destruct (shape lhs) as
    [ | | | ll lop lr | | | | | | | | | | | | | | | | | | | | | | | | | | ]
    eqn:Hlhs; try discriminate.
  destruct (shape rhs) as
    [ | | | rl rop rr | | | | | | | | | | | | | | | | | | | | | | | | | | ]
    eqn:Hrhs; try discriminate.
  assert (Hsides :
            kind operatorToken = BarBarToken
            \/ kind operatorToken = AmpersandAmpersandToken ->
            forall n, In n [ll; lr; rl; rr] ->
                      (testedBy condition n (kind lop)
                       \/ testedBy condition n (kind rop))).
  { intros Hop n Hn.
    destruct Hn as [<- | [<- | [<- | [<- | []]]]].
    - left. apply (tested_on_a_side condition lhs operatorToken rhs lhs
                     ll lop lr ll Hshape Hop); auto.
    - left. apply (tested_on_a_side condition lhs operatorToken rhs lhs
                     ll lop lr lr Hshape Hop); auto.
    - right. apply (tested_on_a_side condition lhs operatorToken rhs rhs
                      rl rop rr rl Hshape Hop); auto.
    - right. apply (tested_on_a_side condition lhs operatorToken rhs rhs
                      rl rop rr rr Hshape Hop); auto. }
  destruct (kind_eqb (kind operatorToken) BarBarToken) eqn:Hbar.
  { apply kind_eqb_true in Hbar.
    intros H n Hn. inversion H as [[Hcombine Hnodes]]. subst nodes.
    apply combine_some in Hcombine; [| discriminate].
    destruct Hcombine as (Hop & Hl & Hr).
    destruct (Hsides (or_introl Hbar) n Hn) as [Ht | Ht];
      [exists (kind lop) | exists (kind rop)];
      (split; [exact Ht |]);
      destruct Hop as [-> | ->];
      [ destruct Hl as [-> | ->] | destruct Hl as [-> | ->]
      | destruct Hr as [-> | ->] | destruct Hr as [-> | ->] ];
      split; reflexivity. }
  destruct (kind_eqb (kind operatorToken) AmpersandAmpersandToken) eqn:Hamp;
    [| discriminate].
  apply kind_eqb_true in Hamp.
  intros H n Hn. inversion H as [[Hcombine Hnodes]]. subst nodes.
  apply combine_some in Hcombine; [| discriminate].
  destruct Hcombine as (Hop & Hl & Hr).
  destruct (Hsides (or_intror Hamp) n Hn) as [Ht | Ht];
    [exists (kind lop) | exists (kind rop)];
    (split; [exact Ht |]);
    destruct Hop as [-> | ->];
    [ destruct Hl as [-> | ->] | destruct Hl as [-> | ->]
    | destruct Hr as [-> | ->] | destruct Hr as [-> | ->] ];
    split; reflexivity.
Qed.


Lemma isNegated_kinds (operator : SyntaxKind) :
  isNegated operator = true ->
  operator = ExclamationEqualsEqualsToken \/ operator = ExclamationEqualsToken.
Proof.
  unfold isNegated. intros H. apply orb_true_iff in H.
  destruct H as [H | H]; apply kind_eqb_true in H; auto.
Qed.

Lemma isPositive_kinds (operator : SyntaxKind) :
  isPositive operator = true ->
  operator = EqualsEqualsEqualsToken \/ operator = EqualsEqualsToken.
Proof.
  unfold isPositive. intros H. apply orb_true_iff in H.
  destruct H as [H | H]; apply kind_eqb_true in H; auto.
Qed.

(** X24.  Whenever the rule reports a ternary, the test of the ternary
    holds a comparison with an operand [tested] that is neither the null
    literal nor of kind UndefinedKeyword, and the fix replaces the whole
    ternary by [kept ?? other], where [kept] repeats [tested] for
    [isNodeEqual]: [kept] is the true branch and [other] the false branch
    when the operator of the comparison is [!==] or [!=], and the other
    way round when it is [===] or [==].  The comparison is the test
    itself, or one of the two sides of a test made with [||] or [&&]. *)
Theorem ternary_fix_keeps_the_tested_expression
        (options : Options) (ctx : RuleContext)
        (node condition whenTrue whenFalse : Node) (d : Diagnostic) :
  In d (reported (visitConditionalExpression options ctx node condition
                    whenTrue whenFalse)) ->
  exists tested operator kept other,
    testedBy condition tested operator
    /\ kind tested <> NullKeyword
    /\ kind tested <> UndefinedKeyword
    /\ isNodeEqual (sourceFile ctx) tested kept = true
    /\ (((operator = ExclamationEqualsEqualsToken
          \/ operator = ExclamationEqualsToken)
         /\ kept = whenTrue /\ other = whenFalse)
        \/ ((operator = EqualsEqualsEqualsToken
             \/ operator = EqualsEqualsToken)
            /\ kept = whenFalse /\ other = whenTrue))
    /\ d = withFix
             (reportWarning
                "Prefer using nullish coalescing operator (`??`) instead of a ternary expression, as it is simpler to read."
                (getStart node) (getEnd node))
             "Fix to nullish coalescing operator (`??`)."
             (Normal
                [ {| changes_fileName := fileName (sourceFile ctx);
                     textChanges :=
                       [ {| newText :=
                              getText (sourceFile ctx) kept ++ " ?? "
                                ++ getText (sourceFile ctx) other;
                            span_start := getStart node;
                            span_length := getWidth node |} ] |} ]).
Proof.
  unfold visitConditionalExpression.
  destruct (ignoreTernaryTests options); [intros [] |].
  destruct (analyseTest condition) as [[operator |] nodes] eqn:Htest;
    [| intros []].
  destruct (scanTest ctx operator whenTrue whenFalse nodes initialState)
    as [st |] eqn:Hscan; [| intros []].
  destruct (identifier st) as [tested |] eqn:Hid; [| intros []].
  destruct (isFixable ctx operator tested _ _); [| intros []].
  simpl. intros [<- | []].
  destruct (scanTest_tested ctx operator whenTrue whenFalse
              (fun n => exists k,
                   testedBy condition n k
                   /\ isNegated k = isNegated operator
                   /\ isPositive k = isPositive operator)
              nodes (analyseTest_operands condition operator nodes Htest)
              initialState st tested)
    as ((k & Htested & Hnegated & Hpositive) & Hnull & Hundefined & Hrep);
    [simpl; discriminate | exact Hscan | exact Hid |].
  unfold ternaryFix.
  exists tested, k.
  destruct Hrep as [[Hneg Heq] | [Hpos Heq]].
  - rewrite (isNegated_not_positive _ Hneg).
    exists whenTrue, whenFalse. repeat split; auto.
    left. split; [| auto]. apply isNegated_kinds. congruence.
  - rewrite Hpos. exists whenFalse, whenTrue. repeat split; auto.
    right. split; [| auto]. apply isPositive_kinds. congruence.
Qed.

Lemma ternary_fix_keeps_the_tested_expression_witness :
  exists tested operator kept other,
    testedBy Examples.NullTernary.test tested operator
    /\ kind tested <> NullKeyword
    /\ kind tested <> UndefinedKeyword
    /\ isNodeEqual Examples.NullTernary.file tested kept = true
    /\ (((operator = ExclamationEqualsEqualsToken
          \/ operator = ExclamationEqualsToken)
         /\ kept = Examples.NullTernary.a2 /\ other = Examples.NullTernary.b)
        \/ ((operator = EqualsEqualsEqualsToken
             \/ operator = EqualsEqualsToken)
            /\ kept = Examples.NullTernary.b
            /\ other = Examples.NullTernary.a2))
    /\ withFix
         (reportWarning
            "Prefer using nullish coalescing operator (`??`) instead of a ternary expression, as it is simpler to read."
            0 18)
         "Fix to nullish coalescing operator (`??`)."
         (Normal
            [ {| changes_fileName := "null.ts";
                 textChanges :=
                   [ {| newText := "a ?? b";
                        span_start := 0;
                        span_length := 18 |} ] |} ])
       = withFix
           (reportWarning
              "Prefer using nullish coalescing operator (`??`) instead of a ternary expression, as it is simpler to read."
              (getStart Examples.NullTernary.ternary)
              (getEnd Examples.NullTernary.ternary))
           "Fix to nullish coalescing operator (`??`)."
           (Normal
              [ {| changes_fileName :=
                     fileName (sourceFile Examples.NullTernary.context);
                   textChanges :=
                     [ {| newText :=
                            getText (sourceFile Examples.NullTernary.context)
                              kept ++ " ?? "
                              ++ getText
                                   (sourceFile Examples.NullTernary.context)
                                   other;
                          span_start := getStart Examples.NullTernary.ternary;
                          span_length :=
                            getWidth Examples.NullTernary.ternary |} ] |} ]).
Proof.
  apply (ternary_fix_keeps_the_tested_expression defaultOptions
           Examples.NullTernary.context Examples.NullTernary.ternary
           Examples.NullTernary.test Examples.NullTernary.a2
           Examples.NullTernary.b).
  left. reflexivity.
Defined.

Lemma cb_eq (visit : list Node -> Node -> M Next) (ancestors : list Node)
      (node : Node) :
  cb visit ancestors node
  = match visit ancestors node with
    | (ds, Throw e) => (ds, Throw e)
    | (ds, Normal Return) => (ds, Normal tt)
    | (ds, Normal Descend) =>
        andThen (ds, Normal tt)
          (forEachChild (cb visit (node :: ancestors)) (shape node))
    end.
Proof. destruct node. reflexivity. Qed.

(** X28.  Whenever the walk of the rule calls its callback on a
    ternary [e != null ? e : other], whose test compares loosely with
    [null] an expression that the true branch repeats, the callback
    reports the ternary first, whatever the types are: over the whole
    ternary, with the fix that replaces it by [e ?? other]; the reports
    that follow are those of the walk through the children of the
    ternary.  (The walk does not call the callback on what lies below a
    [||] expression, nor on what comes after a node whose check
    throws.) *)
Theorem visited_loose_ternary_is_reported
        (options : Options) (ctx : RuleContext) (ancestors : list Node)
        (node condition question whenTrue colon whenFalse
           tested operatorToken nullish : Node) :
  ignoreTernaryTests options = false ->
  shape node
  = SConditionalExpression condition question whenTrue colon whenFalse ->
  shape condition = SBinaryExpression tested operatorToken nullish ->
  kind operatorToken = ExclamationEqualsToken ->
  kind nullish = NullKeyword ->
  kind tested <> NullKeyword ->
  kind tested <> UndefinedKeyword ->
  isNodeEqual (sourceFile ctx) tested whenTrue = true ->
  reported (cb (visit options ctx) ancestors node)
  = withFix
      (reportWarning
         "Prefer using nullish coalescing operator (`??`) instead of a ternary expression, as it is simpler to read."
         (getStart node) (getEnd node))
      "Fix to nullish coalescing operator (`??`)."
      (Normal
         [ {| changes_fileName := fileName (sourceFile ctx);
              textChanges :=
                [ {| newText :=
                       getText (sourceFile ctx) whenTrue ++ " ?? "
                         ++ getText (sourceFile ctx) whenFalse;
                     span_start := getStart node;
                     span_length := getWidth node |} ] |} ])
      :: reported
           (forEachChild (cb (visit options ctx) (node :: ancestors))
              (shape node)).
Proof.
  intros Hopt Hnode Hshape Hop Hnull Htested Hundef Heq.
  rewrite cb_eq.
  unfold visit at 1. rewrite Hnode.
  unfold visitConditionalExpression.
  rewrite Hopt.
  unfold analyseTest. rewrite Hshape, Hop.
  simpl.
  unfold tsutils.isNullLiteral, isUndefinedIdentifier.
  rewrite (kind_eqb_false _ _ Htested), (kind_eqb_false _ _ Hundef).
  rewrite Heq. simpl. rewrite Hnull. simpl.
  set (below := andThen (cb _ _ condition) _).
  destruct below as [ds c]. reflexivity.
Qed.

Lemma visited_loose_ternary_is_reported_witness :
  reported (rule defaultOptions Examples.LooseTernary.context)
  = [ withFix
        (reportWarning
           "Prefer using nullish coalescing operator (`??`) instead of a ternary expression, as it is simpler to read."
           0 17)
        "Fix to nullish coalescing operator (`??`)."
        (Normal
           [ {| changes_fileName := "loose.ts";
                textChanges :=
                  [ {| newText := "a ?? b";
                       span_start := 0;
                       span_length := 17 |} ] |} ]) ]
  /\ reported
    (cb (visit defaultOptions Examples.LooseTernary.context)
       [Examples.LooseTernary.statement;
        root Examples.LooseTernary.file]
       Examples.LooseTernary.ternary)
  = withFix
      (reportWarning
         "Prefer using nullish coalescing operator (`??`) instead of a ternary expression, as it is simpler to read."
         0 17)
      "Fix to nullish coalescing operator (`??`)."
      (Normal
         [ {| changes_fileName := "loose.ts";
              textChanges :=
                [ {| newText := "a ?? b";
                     span_start := 0;
                     span_length := 17 |} ] |} ])
      :: reported
           (forEachChild
              (cb (visit defaultOptions Examples.LooseTernary.context)
                 [Examples.LooseTernary.ternary;
                  Examples.LooseTernary.statement;
                  root Examples.LooseTernary.file])
              (shape Examples.LooseTernary.ternary)).
Proof.
  split; [reflexivity |].
  apply (visited_loose_ternary_is_reported
           defaultOptions
           Examples.LooseTernary.context
           [Examples.LooseTernary.statement;
            root Examples.LooseTernary.file]
           Examples.LooseTernary.ternary
           Examples.LooseTernary.test Examples.LooseTernary.question
           Examples.LooseTernary.a2 Examples.LooseTernary.colon
           Examples.LooseTernary.b Examples.LooseTernary.a1
           Examples.LooseTernary.notEquals
           Examples.LooseTernary.nullKeyword);
    try reflexivity; discriminate.
Defined.

End TernaryFacts.

(* ================================================================== *)
(** ** prefer-ts-expect-error.ts: line comments *)

Section LineCommentFacts.
Import TS Host Reporting PreferTsExpectError.

Lemma test_star_skip (p : ascii -> bool) (rest : list RegExp.Item)
      (skipped s : string) :
  Text.every p skipped = true ->
  RegExp.test rest s = true ->
  RegExp.test (RegExp.StarClass p :: rest) (skipped ++ s) = true.
Proof.
  intros Hskip Hrest.
  induction skipped as [| c skipped IH].
  - simpl. destruct s; [exact Hrest |].
    apply orb_true_iff. right. exact Hrest.
  - simpl in Hskip. apply andb_true_iff in Hskip. destruct Hskip as [Hc Hs].
    simpl. rewrite Hc. simpl. apply orb_true_iff. left.
    exact (IH Hs).
Qed.

Lemma test_literal_prefix (l s : string) :
  RegExp.test [RegExp.Literal l] (l ++ s) = true.
Proof.
  simpl.
  assert (H : RegExp.stripPrefix l (l ++ s) = Some s).
  { induction l as [| c l IH]; simpl; [reflexivity |].
    now rewrite Ascii.eqb_refl. }
  now rewrite H.
Qed.

Lemma test_optchar_taken (c : ascii) (rest : list RegExp.Item) (s : string) :
  RegExp.test rest s = true ->
  RegExp.test (RegExp.OptChar c :: rest) (String c "" ++ s) = true.
Proof.
  intros H. simpl. rewrite Ascii.eqb_refl, H. reflexivity.
Qed.

Lemma test_optchar_skipped (c : ascii) (rest : list RegExp.Item) (s : string) :
  RegExp.test rest s = true ->
  RegExp.test (RegExp.OptChar c :: rest) ("" ++ s) = true.
Proof.
  intros H. simpl. destruct s; [exact H |].
  rewrite H. apply orb_true_r.
Qed.

(** X25.  A line comment that reads, after its two slashes, white
    space, then [@ts-ignore], then anything, is reported, over the whole
    comment and with one fix; so is the comment with one more slash
    before or amid the white space. *)
Theorem line_comment_with_marker_is_reported
        (ctx : RuleContext) (comment : CommentRange)
        (space1 space2 rest : string) (slash : bool) :
  isLineComment comment = true ->
  commentText ctx comment
  = ("//" ++ space1 ++ (if slash then "/" else "") ++ space2
       ++ "@ts-ignore" ++ rest)%string ->
  Text.every RegExp.isWhiteSpace space1 = true ->
  Text.every RegExp.isWhiteSpace space2 = true ->
  checkComment ctx comment
  = [ withFix
        (reportWarning useTsExpectError
           (comment_pos comment) (comment_end comment))
        "[No Description]"
        (Normal [ {| changes_fileName := fileName (sourceFile ctx);
                     textChanges := [fixChange ctx comment] |} ]) ].
Proof.
  intros Hline Htext Hs1 Hs2.
  unfold checkComment, isValidTsIgnorePresent, getLastCommentLine.
  rewrite Hline, Htext.
  assert (Hslice :
    JsString.sliceFrom
      ("//" ++ space1 ++ (if slash then "/" else "") ++ space2
         ++ "@ts-ignore" ++ rest) 2
    = (space1 ++ (if slash then "/" else "") ++ space2
         ++ "@ts-ignore" ++ rest)%string).
  { unfold JsString.sliceFrom. simpl.
    rewrite Nat.sub_0_r. apply substring_whole. }
  rewrite Hslice. unfold tsIgnoreRegExpSingleLine.
  rewrite test_star_skip; [reflexivity | exact Hs1 |].
  assert (Htail : RegExp.test
                    [RegExp.StarClass RegExp.isWhiteSpace;
                     RegExp.Literal "@ts-ignore"]
                    (space2 ++ "@ts-ignore" ++ rest) = true).
  { apply test_star_skip; [exact Hs2 | apply test_literal_prefix]. }
  destruct slash.
  - now apply (test_optchar_taken RegExp.slash).
  - now apply test_optchar_skipped.
Qed.

Lemma line_comment_with_marker_is_reported_witness :
  checkComment Examples.LineComment.context Examples.LineComment.comment
  = [ withFix
        (reportWarning useTsExpectError 0 19)
        "[No Description]"
        (Normal [ {| changes_fileName := "line.ts";
                     textChanges :=
                       [fixChange Examples.LineComment.context
                          Examples.LineComment.comment] |} ]) ].
Proof.
  apply (line_comment_with_marker_is_reported Examples.LineComment.context
           Examples.LineComment.comment "  " "" " next" false);
    reflexivity.
Defined.

End LineCommentFacts.

(* ================================================================== *)
(** ** getTokenBefore and getTokenAfter, for every node *)

Section TokenLookupFacts.
Import TS NoUnnecessaryTypeAssertion.

Lemma upTo_empty (from below : Z) : upTo from below = [] <-> below <= from.
Proof.
  unfold upTo. split.
  - intros H. apply map_eq_nil in H.
    destruct (Z.to_nat (below - from)) eqn:E; [lia | discriminate].
  - intros H. replace (Z.to_nat (below - from)) with 0%nat by lia.
    reflexivity.
Qed.

Lemma downTo0_empty (from : Z) : downTo0 from = [] <-> from < 0.
Proof.
  unfold downTo0. split.
  - intros H. apply map_eq_nil in H.
    destruct (Z.to_nat (from + 1)) eqn:E; [lia | discriminate].
  - intros H. replace (Z.to_nat (from + 1)) with 0%nat by lia.
    reflexivity.
Qed.

(** X26.  [getTokenAfter] returns the node it is given, never one of
    its siblings: it returns that node when the node satisfies the
    condition (or there is none) and is not the last child of its
    parent, and [undefined] otherwise.  [getTokenBefore] does the same
    with respect to the first child. *)
Theorem token_lookup_returns_the_node_itself
        (parent node : Node) (condition : Condition) :
  getTokenAfter parent node condition
  = (if holds condition node
        && (indexOf (getChildren parent) node + 1 <? getChildCount parent)
     then Some node else None)
  /\ getTokenBefore parent node condition
     = (if holds condition node
           && (0 <=? indexOf (getChildren parent) node - 1)
        then Some node else None).
Proof.
  unfold getTokenAfter, getTokenBefore. rewrite !forIndices_constant. split.
  - destruct (upTo _ _) eqn:Hup.
    + apply upTo_empty in Hup. apply Z.ltb_ge in Hup. rewrite Hup.
      now rewrite andb_false_r.
    + assert (Hlt : (indexOf (getChildren parent) node + 1
                     <? getChildCount parent) = true).
      { apply Z.ltb_lt.
        destruct (Z.lt_ge_cases (indexOf (getChildren parent) node + 1)
                    (getChildCount parent)) as [H | H]; [exact H |].
        apply upTo_empty in H. congruence. }
      rewrite Hlt, andb_true_r. reflexivity.
  - destruct (downTo0 _) eqn:Hdown.
    + apply downTo0_empty in Hdown. apply Z.leb_gt in Hdown. rewrite Hdown.
      now rewrite andb_false_r.
    + assert (Hle : (0 <=? indexOf (getChildren parent) node - 1) = true).
      { apply Z.leb_le.
        destruct (Z.lt_ge_cases (indexOf (getChildren parent) node - 1) 0)
          as [H | H]; [| lia].
        apply downTo0_empty in H. congruence. }
      rewrite Hle, andb_true_r. reflexivity.
Qed.

End TokenLookupFacts.
